(** * Maintenance-records dashboard: derivation layer

    A shallow embedding of the client-side derivation code of the
    dashboard:

    - [Js]       the part of the JavaScript runtime the code relies on
                 (objects used as maps, property reads that go on to
                 [Object.prototype], [Array.prototype.sort], Numbers
                 that may be [NaN]);
    - [JsDate]   the ECMAScript Date arithmetic behind [new Date],
                 [getFullYear], [setFullYear] and [getTime];
    - [Summary]  [prepareMonthlyData], [prepareZoneData],
                 [prepareLeadSourceData] and [prepareSoldByData] of the
                 sales-summary component;
    - [Detail]   [fetchRelatedRecords], [handleViewRelatedRecord] and
                 [calculateWarrantyStatus] of the record detail modal;
    - [Modal]    the effects, the history column and the click handler
                 of the modal around them, with a history request left
                 in flight;
    - [Session]  the API client with its two interceptors, and [login],
                 [logout] and the mount effect of the auth context;
    - [SummaryPage] [fetchSummary], the filter handlers and the view of
                 the sales-summary component;
    - [MonthLabel]  [formatMonth] of the sales-summary component.

    Numbers that the code only adds, subtracts and compares (counts,
    revenues, time values in milliseconds) are integers of [Z], with
    exact arithmetic, as doubles have it on integers below 2^53; a
    Number that can be [NaN] is a [Js.Number]. *)

From Stdlib Require Import ZArith List String Ascii Bool Lia.
From Stdlib Require Import Permutation Sorted.
Import ListNotations.

Local Open Scope string_scope.
Local Open Scope Z_scope.
Local Open Scope list_scope.

(* ================================================================== *)
(** * The JavaScript runtime, as far as the code uses it               *)
(* ================================================================== *)

Module Js.

(** A plain object used as a map from names to values: its own
    enumerable string-keyed properties, in property enumeration order,
    which is the order [Object.entries] yields.  A well-formed object has
    no two properties of the same name ([wf_object]). *)
Definition JsObject (V : Type) : Type := list (string * V).

Definition keys {V} (o : JsObject V) : list string := map fst o.

Definition wf_object {V} (o : JsObject V) : Prop := NoDup (keys o).

(** [Object.entries(o)]: a fresh array of the [key, value] pairs. *)
Definition Object_entries {V} (o : JsObject V) : list (string * V) := o.

(** The own property [k] of [o]: its value, [None] when [o] itself has
    no property of that name.  This is what [Object.entries] and
    [hasOwnProperty] see; a property read [o[k]] goes on to the
    prototype ([Get], below). *)
Fixpoint get {V} (o : JsObject V) (k : string) : option V :=
  match o with
  | [] => None
  | (k', v) :: o' => if String.eqb k' k then Some v else get o' k
  end.

(** [x || 0] on a possibly undefined number: [undefined] and [0] are
    falsy, every other integer is kept. *)
Definition or_zero (x : option Z) : Z :=
  match x with
  | Some v => if v =? 0 then 0 else v
  | None => 0
  end.

(** [!!x] on a possibly undefined object: objects are truthy. *)
Definition truthy {A} (x : option A) : bool :=
  match x with Some _ => true | None => false end.

(** The stable insertion sort by an integer comparator: [x] goes before
    the first element [y] with [cmp x y <= 0]. *)
Fixpoint sort_insert {A} (cmp : A -> A -> Z) (x : A) (l : list A) : list A :=
  match l with
  | [] => [x]
  | y :: l' => if cmp x y <=? 0 then x :: y :: l' else y :: sort_insert cmp x l'
  end.

Fixpoint insertion_sort {A} (cmp : A -> A -> Z) (l : list A) : list A :=
  match l with
  | [] => []
  | x :: l' => sort_insert cmp x (insertion_sort cmp l')
  end.

(** [a.slice(0, n)] for a literal [n >= 0]. *)
Definition Array_slice0 {A} (n : nat) (l : list A) : list A := firstn n l.

(** [a.find(p)]. *)
Definition Array_find {A} (p : A -> bool) (l : list A) : option A := find p l.

(** A Number that may be [NaN]; the finite ones the code meets are
    integers (time values, day counts). *)
Inductive Number : Type :=
| NaN
| Num (z : Z).

(** [a < b], [a <= b] on Numbers: false as soon as one side is [NaN]. *)
Definition ltb (a b : Number) : bool :=
  match a, b with
  | Num x, Num y => x <? y
  | _, _ => false
  end.

Definition leb (a b : Number) : bool :=
  match a, b with
  | Num x, Num y => x <=? y
  | _, _ => false
  end.

Definition sub (a b : Number) : Number :=
  match a, b with
  | Num x, Num y => Num (x - y)
  | _, _ => NaN
  end.

Definition add (a b : Number) : Number :=
  match a, b with
  | Num x, Num y => Num (x + y)
  | _, _ => NaN
  end.

(** [Math.ceil(a / d)] for a positive integer constant [d]: the least
    integer not below the quotient. *)
Definition ceil_div (a : Number) (d : Z) : Number :=
  match a with
  | Num x => Num (- ((- x) / d))
  | NaN => NaN
  end.

Definition Math_abs (a : Number) : Number :=
  match a with
  | Num x => Num (Z.abs x)
  | NaN => NaN
  end.

(** The names [Object.prototype] defines.  A plain object, such as one
    that [JSON.parse] builds, has [Object.prototype] as its prototype
    and so answers a property read for each of these names, whether or
    not it has an own property of that name. *)
Definition Object_prototype_names : list string :=
  [ "constructor"; "hasOwnProperty"; "isPrototypeOf"; "propertyIsEnumerable";
    "toLocaleString"; "toString"; "valueOf"; "__proto__";
    "__defineGetter__"; "__defineSetter__"; "__lookupGetter__"; "__lookupSetter__" ].

Definition Object_prototype_has (k : string) : bool :=
  existsb (String.eqb k) Object_prototype_names.

(** What a property read on an object name -> number can give:
    [undefined], a number, or the member [name] of [Object.prototype],
    which is a function (for [__proto__], the prototype object). *)
Inductive Value : Type :=
| Undefined
| Numeric (z : Z)
| Builtin (name : string).

(** [o[k]]: the own property when there is one, else the property of
    the prototype, else [undefined]. *)
Definition Get (o : JsObject Z) (k : string) : Value :=
  match get o k with
  | Some v => Numeric v
  | None => if Object_prototype_has k then Builtin k else Undefined
  end.

(** [x || 0]: [undefined] and the number 0 are falsy; every other
    number, and every function or object, is truthy and is kept. *)
Definition or_0 (x : Value) : Value :=
  match x with
  | Undefined => Numeric 0
  | Numeric v => if v =? 0 then Numeric 0 else Numeric v
  | Builtin name => Builtin name
  end.

(** [ToNumber]: a function or an object converts through its string
    form, which is no numeric literal. *)
Definition ToNumber (x : Value) : Number :=
  match x with
  | Numeric v => Num v
  | Undefined => NaN
  | Builtin _ => NaN
  end.

(** [Array.prototype.sort(cmp)] calls the comparator through
    SortCompare, which reads a [NaN] result as +0. *)
Definition SortCompare {A} (cmp : A -> A -> Number) (x y : A) : Z :=
  match cmp x y with
  | Num v => v
  | NaN => 0
  end.

(** [Array.prototype.sort(cmp)].  The standard requires the sort to be
    stable and, for a comparator that is consistent on the elements
    (which includes that it never returns [NaN] on them), fixes the
    result; otherwise the order is left to the engine, and only that the
    result is a rearrangement of the array is certain.  The model is the
    stable insertion sort. *)
Definition Array_sort {A} (cmp : A -> A -> Number) (l : list A) : list A :=
  insertion_sort (SortCompare cmp) l.

End Js.

(* ================================================================== *)
(** * The sales-summary view-model builder                             *)
(* ================================================================== *)

Module Summary.
Import Js.

(** One element of [monthly_trends] or [projected_sales]. *)
Record MonthlyItem : Type := mkMonthlyItem {
  mi_month : string;
  mi_count : Z;
  mi_revenue : Z
}.

(** Modelled from the spec: the [SalesSummary] type of [../types] is not
    among the sources; these are the fields the component reads, with
    the shapes of the SummaryPayload of the data model (two ordered
    monthly series, and for each category a mapping name -> count with a
    parallel mapping name -> revenue). *)
Record SalesSummary : Type := mkSalesSummary {
  monthly_trends : list MonthlyItem;
  projected_sales : list MonthlyItem;
  by_zone : JsObject Z;
  by_zone_revenue : JsObject Z;
  by_lead_source : JsObject Z;
  by_lead_source_revenue : JsObject Z;
  by_sold_by : JsObject Z;
  by_sold_by_revenue : JsObject Z
}.

(** A row of the merged monthly chart series. *)
Record MonthlyRow : Type := mkMonthlyRow {
  month : string;
  monthKey : string;
  actualCount : Z;
  projectedCount : Z;
  actualRevenue : Z;
  projectedRevenue : Z;
  isProjected : bool
}.

(** A row of a category breakdown: [{zone, count, revenue}],
    [{source, count, revenue}] or [{soldBy, count, revenue}]. *)
Record ChartRow : Type := mkChartRow {
  key : string;
  count : Z;
  revenue : Value
}.

(** The comparator [(a, b) => b.revenue - a.revenue]: [NaN] as soon as
    one of the two revenues is no number. *)
Definition by_revenue_desc (a b : ChartRow) : Number :=
  sub (ToNumber (revenue b)) (ToNumber (revenue a)).

(** [summary?.field || []]. *)
Definition series_or_empty (summary : option SalesSummary)
    (field : SalesSummary -> list MonthlyItem) : list MonthlyItem :=
  match summary with
  | Some s => field s
  | None => []
  end.

(** [summary?.field.find(m => m.month === k)]. *)
Definition find_month (summary : option SalesSummary)
    (field : SalesSummary -> list MonthlyItem) (k : string) : option MonthlyItem :=
  match summary with
  | Some s => Array_find (fun m => String.eqb (mi_month m) k) (field s)
  | None => None
  end.

Section Builder.

(** [formatMonth] turns a month key into its display label with
    [toLocaleDateString]; the builder only stores the label. *)
Variable formatMonth : string -> string.

(** The row [prepareMonthlyData] builds for one item of the
    concatenated series. *)
Definition monthly_row (summary : option SalesSummary) (item : MonthlyItem)
  : MonthlyRow :=
  {| month := formatMonth (mi_month item);
     monthKey := mi_month item;
     actualCount :=
       or_zero (option_map mi_count (find_month summary monthly_trends (mi_month item)));
     projectedCount :=
       or_zero (option_map mi_count (find_month summary projected_sales (mi_month item)));
     actualRevenue :=
       or_zero (option_map mi_revenue (find_month summary monthly_trends (mi_month item)));
     projectedRevenue :=
       or_zero (option_map mi_revenue (find_month summary projected_sales (mi_month item)));
     isProjected := truthy (find_month summary projected_sales (mi_month item)) |}.

Definition prepareMonthlyData (summary : option SalesSummary) : list MonthlyRow :=
  let combined :=
    series_or_empty summary monthly_trends ++ series_or_empty summary projected_sales in
  map (monthly_row summary) combined.

End Builder.

(** [Object.entries(counts).map(([k, count]) => ({k, count, revenue:
    revenues[k] || 0}))]: the join of a counts mapping with its revenue
    mapping. *)
Definition join_rows (counts revenues : JsObject Z) : list ChartRow :=
  map (fun e => {| key := fst e; count := snd e;
                   revenue := or_0 (Get revenues (fst e)) |})
      (Object_entries counts).

(** The rows of a breakdown once sorted, before any [slice]. *)
Definition sorted_rows (counts revenues : JsObject Z) : list ChartRow :=
  Array_sort by_revenue_desc (join_rows counts revenues).

Definition zone_rows (s : SalesSummary) : list ChartRow :=
  sorted_rows (by_zone s) (by_zone_revenue s).

Definition lead_source_rows (s : SalesSummary) : list ChartRow :=
  sorted_rows (by_lead_source s) (by_lead_source_revenue s).

Definition prepareZoneData (summary : option SalesSummary) : list ChartRow :=
  match summary with
  | None => []
  | Some s => Array_slice0 10 (zone_rows s)
  end.

Definition prepareLeadSourceData (summary : option SalesSummary) : list ChartRow :=
  match summary with
  | None => []
  | Some s => Array_slice0 8 (lead_source_rows s)
  end.

Definition prepareSoldByData (summary : option SalesSummary) : list ChartRow :=
  match summary with
  | None => []
  | Some s => sorted_rows (by_sold_by s) (by_sold_by_revenue s)
  end.

End Summary.

(* ================================================================== *)
(** * ECMAScript Date arithmetic                                       *)
(* ================================================================== *)

(** Time values are integral milliseconds since the epoch; the day and
    year arithmetic follows the abstract operations of the ECMAScript
    standard (Day, TimeWithinDay, DayFromYear, YearFromTime,
    MonthFromTime, DateFromTime, MakeDay, MakeDate, TimeClip). *)
Module JsDate.
Import Js.

Definition msPerDay : Z := 86400000.

Definition Day (t : Z) : Z := t / msPerDay.

Definition TimeWithinDay (t : Z) : Z := t mod msPerDay.

Definition DaysInYear (y : Z) : Z :=
  if negb (y mod 4 =? 0) then 365
  else if negb (y mod 100 =? 0) then 366
  else if negb (y mod 400 =? 0) then 365
  else 366.

Definition DayFromYear (y : Z) : Z :=
  365 * (y - 1970) + (y - 1969) / 4 - (y - 1901) / 100 + (y - 1601) / 400.

(** The standard defines [YearFromTime t] as the largest [y] whose first
    day is not after [t].  It is computed here from the mean year length
    (146097 days in 400 years) and one correction step;
    [YearFromTime_spec] shows that this is the year the standard means. *)
Definition YearFromTime (t : Z) : Z :=
  let d := Day t in
  let y := 1970 + (400 * d) / 146097 in
  if d <? DayFromYear y then y - 1
  else if DayFromYear (y + 1) <=? d then y + 1
  else y.

Definition InLeapYear (t : Z) : bool := DaysInYear (YearFromTime t) =? 366.

Definition DayWithinYear (t : Z) : Z := Day t - DayFromYear (YearFromTime t).

(** Number of days of the year before month [m] (0 = January). *)
Definition DaysBeforeMonth (leap : bool) (m : Z) : Z :=
  let l := if leap then 1 else 0 in
  if m <=? 0 then 0
  else if m =? 1 then 31
  else if m =? 2 then 59 + l
  else if m =? 3 then 90 + l
  else if m =? 4 then 120 + l
  else if m =? 5 then 151 + l
  else if m =? 6 then 181 + l
  else if m =? 7 then 212 + l
  else if m =? 8 then 243 + l
  else if m =? 9 then 273 + l
  else if m =? 10 then 304 + l
  else if m =? 11 then 334 + l
  else 365 + l.

Definition month_of_day (leap : bool) (d : Z) : Z :=
  if d <? DaysBeforeMonth leap 1 then 0
  else if d <? DaysBeforeMonth leap 2 then 1
  else if d <? DaysBeforeMonth leap 3 then 2
  else if d <? DaysBeforeMonth leap 4 then 3
  else if d <? DaysBeforeMonth leap 5 then 4
  else if d <? DaysBeforeMonth leap 6 then 5
  else if d <? DaysBeforeMonth leap 7 then 6
  else if d <? DaysBeforeMonth leap 8 then 7
  else if d <? DaysBeforeMonth leap 9 then 8
  else if d <? DaysBeforeMonth leap 10 then 9
  else if d <? DaysBeforeMonth leap 11 then 10
  else 11.

Definition MonthFromTime (t : Z) : Z :=
  month_of_day (InLeapYear t) (DayWithinYear t).

Definition DateFromTime (t : Z) : Z :=
  DayWithinYear t - DaysBeforeMonth (InLeapYear t) (MonthFromTime t) + 1.

(** [MakeDay(year, month, date)] on finite integers: the day number of
    the first of the month, plus [date - 1].  (Where the standard gives
    up on a year beyond every time value, [TimeClip] rejects the result
    all the same.) *)
Definition MakeDay (year month date : Z) : Z :=
  let ym := year + month / 12 in
  let mn := month mod 12 in
  DayFromYear ym + DaysBeforeMonth (DaysInYear ym =? 366) mn + date - 1.

Definition MakeDate (day time : Z) : Z := day * msPerDay + time.

Definition TimeClip (t : Z) : Number :=
  if 8640000000000000 <? Z.abs t then NaN else Num t.

(** A Date object is its time value, [NaN] for an Invalid Date. *)
Definition Date : Type := Number.

Definition getTime (d : Date) : Number := d.

(** [new Date(v)]: a fresh Date whose time value is [TimeClip] of the
    time value [tv] that [v] stands for, which is [Date.parse(v)] for a
    string and the time value of [v] for a Date. *)
Definition new_Date (tv : Number) : Date :=
  match tv with
  | NaN => NaN
  | Num t => TimeClip t
  end.

Section Host.

(** The host's time zone: the abstract operations [LocalTime] and [UTC]
    of the standard. *)
Variable LocalTime : Z -> Z.
Variable UTC : Z -> Z.

Definition getFullYear (d : Date) : Number :=
  match d with
  | NaN => NaN
  | Num t => Num (YearFromTime (LocalTime t))
  end.

(** The local time value [setFullYear] assembles before it converts
    back to UTC. *)
Definition with_year (t year : Z) : Z :=
  MakeDate (MakeDay year (MonthFromTime t) (DateFromTime t)) (TimeWithinDay t).

(** [d.setFullYear(year)]: the new time value of [d]. *)
Definition setFullYear (d : Date) (year : Number) : Date :=
  let t := match d with NaN => 0 | Num t => LocalTime t end in
  match year with
  | NaN => NaN
  | Num y => TimeClip (UTC (with_year t y))
  end.

End Host.

(** The time zone UTC itself. *)
Definition utc_zone : Z -> Z := fun t => t.

(** ** Date-only ISO strings

    [Date.parse] is implementation-defined outside the ISO format, so
    the component's model takes the parser as a parameter.
    [parse_iso_date] is the date-only form [YYYY-MM-DD], read as
    midnight UTC, and [NaN] on anything else. *)
Definition digit (c : ascii) : option Z :=
  let n := Z.of_nat (nat_of_ascii c) in
  if (48 <=? n) && (n <=? 57) then Some (n - 48) else None.

Fixpoint number_of_digits (acc : Z) (l : list ascii) : option Z :=
  match l with
  | [] => Some acc
  | c :: l' =>
      match digit c with
      | Some v => number_of_digits (10 * acc + v) l'
      | None => None
      end
  end.

Definition DaysInMonth (leap : bool) (m : Z) : Z :=
  DaysBeforeMonth leap (m + 1) - DaysBeforeMonth leap m.

Definition parse_iso_date (s : string) : Number :=
  match list_ascii_of_string s with
  | [y1; y2; y3; y4; "-"%char; m1; m2; "-"%char; d1; d2] =>
      match number_of_digits 0 [y1; y2; y3; y4],
            number_of_digits 0 [m1; m2],
            number_of_digits 0 [d1; d2] with
      | Some y, Some m, Some d =>
          if (1 <=? m) && (m <=? 12) && (1 <=? d)
             && (d <=? DaysInMonth (DaysInYear y =? 366) (m - 1))
          then TimeClip (MakeDate (MakeDay y (m - 1) d) 0)
          else NaN
      | _, _, _ => NaN
      end
  | _ => NaN
  end.

End JsDate.

(* ================================================================== *)
(** * The record detail modal                                          *)
(* ================================================================== *)

Module Detail.
Import Js JsDate.

(** Modelled from the spec: the [Record] type of [../types] is not among
    the sources; these are the fields the three functions read ([id],
    [client_phone], [date_of_delivery]) and a field they do not
    ([client_name]).  An optional field is [None] when it is [null] or
    [undefined]. *)
Record SaleRecord : Type := mkSaleRecord {
  id : Z;
  client_name : string;
  client_phone : option string;
  date_of_delivery : option string
}.

(** [!x] on an optional string: [null], [undefined] and the empty string
    are falsy. *)
Definition falsy (x : option string) : bool :=
  match x with
  | None => true
  | Some s => String.eqb s ""
  end.

(** The value an optional string has where the code uses it as a
    string. *)
Definition string_of (x : option string) : string :=
  match x with
  | None => ""
  | Some s => s
  end.

(** ** Effects

    The requests the modal sends through [api.get], typed by the data
    of their response: the history endpoint
    [/records/history/{phone}?exclude_id={id}&limit=10] answers
    [{records}], the detail endpoint [/records/{id}] answers a record. *)
Inductive Request : Type -> Type :=
| GetHistory (phone : string) (exclude_id : Z) (limit : Z) : Request (list SaleRecord)
| GetRecord (record : Z) : Request SaleRecord.

(** A settled promise: fulfilled with the response data, or rejected
    with an error. *)
Inductive Response (A : Type) : Type :=
| Resolved (data : A)
| Rejected (error : string).
Arguments Resolved {A} data.
Arguments Rejected {A} error.

(** What the functions of the modal do to the world around them. *)
Inductive Eff : Type -> Type :=
| NewDate : Eff Z                                      (* new Date() *)
| ApiGet {A} (rq : Request A) : Eff (Response A)       (* await api.get(url) *)
| ConsoleError (msg : string) (error : string) : Eff unit
| SetRelatedRecords (l : list SaleRecord) : Eff unit
| SetLoading (b : bool) : Eff unit
| SetCurrentRecord (r : SaleRecord) : Eff unit
| OnEdit (record : Z) : Eff unit                       (* the onEdit prop *)
| OnClose : Eff unit.                                  (* the onClose prop *)

(** Programs over these effects; [Throw] is a thrown exception. *)
Inductive Prog (R : Type) : Type :=
| Ret (r : R)
| Throw (error : string)
| Vis {X : Type} (e : Eff X) (k : X -> Prog R).
Arguments Ret {R} r.
Arguments Throw {R} error.
Arguments Vis {R X} e k.

Fixpoint bind {A B} (p : Prog A) (f : A -> Prog B) : Prog B :=
  match p with
  | Ret a => f a
  | Throw error => Throw error
  | Vis e k => Vis e (fun x => bind (k x) f)
  end.

Definition trigger {X} (e : Eff X) : Prog X := Vis e Ret.

Declare Scope prog_scope.
Delimit Scope prog_scope with prog.
Notation "x <- p ;; q" := (bind p (fun x => q))
  (at level 61, p at next level, right associativity) : prog_scope.
Notation "p ;; q" := (bind p (fun _ => q))
  (at level 61, right associativity) : prog_scope.
Local Open Scope prog_scope.

(** [try { p } catch (error) { handler }]. *)
Fixpoint try_catch {R} (p : Prog R) (handler : string -> Prog R) : Prog R :=
  match p with
  | Ret r => Ret r
  | Throw error => handler error
  | Vis e k => Vis e (fun x => try_catch (k x) handler)
  end.

(** [try { p } finally { cleanup }]. *)
Fixpoint try_finally {R} (p : Prog R) (cleanup : Prog unit) : Prog R :=
  match p with
  | Ret r => cleanup ;; Ret r
  | Throw error => cleanup ;; Throw error
  | Vis e k => Vis e (fun x => try_finally (k x) cleanup)
  end.

(** [(await api.get(url)).data]: the data of the response, or the
    rejection thrown. *)
Definition await_get {A} (rq : Request A) : Prog A :=
  response <- trigger (ApiGet rq) ;;
  match response with
  | Resolved data => Ret data
  | Rejected error => Throw error
  end.

(** ** The world a program runs in *)

(** What an observer outside the modal sees. *)
Inductive Event : Type :=
| EvApiGet {A} (rq : Request A)
| EvConsoleError (msg : string) (error : string)
| EvOnEdit (record : Z)
| EvOnClose.

Record World : Type := mkWorld {
  clock : Z;                                        (* the system clock *)
  network : forall A, Request A -> Response A;      (* how the backend answers *)
  relatedRecords : list SaleRecord;                 (* component state *)
  loading : bool;
  currentRecord : SaleRecord;
  events : list Event                               (* oldest first *)
}.

Definition emit (ev : Event) (w : World) : World :=
  mkWorld (clock w) (network w) (relatedRecords w) (loading w) (currentRecord w)
          (events w ++ [ev]).

Definition handle {X} (e : Eff X) (w : World) : X * World :=
  match e in Eff X return X * World with
  | NewDate => (clock w, w)
  | ApiGet rq => (network w _ rq, emit (EvApiGet rq) w)
  | ConsoleError msg error => (tt, emit (EvConsoleError msg error) w)
  | SetRelatedRecords l =>
      (tt, mkWorld (clock w) (network w) l (loading w) (currentRecord w) (events w))
  | SetLoading b =>
      (tt, mkWorld (clock w) (network w) (relatedRecords w) b (currentRecord w) (events w))
  | SetCurrentRecord r =>
      (tt, mkWorld (clock w) (network w) (relatedRecords w) (loading w) r (events w))
  | OnEdit record => (tt, emit (EvOnEdit record) w)
  | OnClose => (tt, emit EvOnClose w)
  end.

(** How a call ends. *)
Inductive Outcome (R : Type) : Type :=
| Returned (r : R)
| Threw (error : string).
Arguments Returned {R} r.
Arguments Threw {R} error.

Fixpoint run {R} (p : Prog R) (w : World) : Outcome R * World :=
  match p with
  | Ret r => (Returned r, w)
  | Throw error => (Threw error, w)
  | Vis e k => let (x, w') := handle e w in run (k x) w'
  end.

(** ** The history resolver *)

(** The request for
    [/records/history/${phone}?exclude_id=${currentRecord.id}&limit=10]. *)
Definition history_request (currentRecord : SaleRecord) : Request (list SaleRecord) :=
  GetHistory (string_of (client_phone currentRecord)) (id currentRecord) 10.

(** [fetchRelatedRecords], closed over the [currentRecord] of the render
    it was created in. *)
Definition fetchRelatedRecords (currentRecord : SaleRecord) : Prog unit :=
  if falsy (client_phone currentRecord) then
    trigger (SetRelatedRecords [])
  else
    trigger (SetLoading true) ;;
    try_finally
      (try_catch
         (records <- await_get (history_request currentRecord) ;;
          trigger (SetRelatedRecords records))
         (fun error =>
            trigger (ConsoleError "Error fetching related records:" error) ;;
            trigger (SetRelatedRecords [])))
      (trigger (SetLoading false)).

(** [handleViewRelatedRecord]. *)
Definition handleViewRelatedRecord (relatedRecord : SaleRecord) : Prog unit :=
  try_catch
    (data <- await_get (GetRecord (id relatedRecord)) ;;
     trigger (SetCurrentRecord data) ;;
     trigger (SetRelatedRecords []))
    (fun error =>
       trigger (ConsoleError "Error fetching record:" error) ;;
       trigger (OnEdit (id relatedRecord)) ;;
       trigger OnClose).

(** ** The warranty evaluator *)

Inductive Status : Type :=
| out_of_warranty
| expiring_soon
| in_warranty.

(** The object [calculateWarrantyStatus] returns; [expiry] is [None]
    for [null]. *)
Record Warranty : Type := mkWarranty {
  status : Status;
  expiry : option Date;
  daysRemaining : Number
}.

Section Evaluator.

(** [new Date(s)] on a string is [Date.parse]; the host's time zone
    decides the local year. *)
Variable Date_parse : string -> Number.
Variable LocalTime : Z -> Z.
Variable UTC : Z -> Z.

(** The expiry date the evaluator derives from the delivery string:
    lines 66 to 68. *)
Definition expiry_of (delivery_string : string) : Date :=
  let delivery := new_Date (Date_parse delivery_string) in
  let expiry := new_Date (getTime delivery) in
  setFullYear LocalTime UTC expiry (add (getFullYear LocalTime expiry) (Num 1)).

(** [Math.ceil((expiry.getTime() - today.getTime()) / (1000 * 60 * 60 * 24))]. *)
Definition days_between (expiry : Date) (today : Z) : Number :=
  ceil_div (sub (getTime expiry) (Num today)) (1000 * 60 * 60 * 24).

(** The three [return]s after the day count is known: lines 72 to 74. *)
Definition classify (expiry : Date) (daysRemaining : Number) : Warranty :=
  if ltb daysRemaining (Num 0) then
    {| status := out_of_warranty; expiry := Some expiry;
       daysRemaining := Math_abs daysRemaining |}
  else if leb daysRemaining (Num 30) then
    {| status := expiring_soon; expiry := Some expiry; daysRemaining := daysRemaining |}
  else
    {| status := in_warranty; expiry := Some expiry; daysRemaining := daysRemaining |}.

(** [calculateWarrantyStatus], closed over [currentRecord].  It takes no
    argument: the current time is [new Date()]. *)
Definition calculateWarrantyStatus (currentRecord : SaleRecord) : Prog Warranty :=
  if falsy (date_of_delivery currentRecord) then
    Ret {| status := out_of_warranty; expiry := None; daysRemaining := Num 0 |}
  else
    let expiry := expiry_of (string_of (date_of_delivery currentRecord)) in
    today <- trigger NewDate ;;
    Ret (classify expiry (days_between expiry today)).

(** A call [calculateWarrantyStatus(a1, ..., an)]: the function declares
    no parameter, so whatever a caller supplies is dropped. *)
Definition call_calculateWarrantyStatus (currentRecord : SaleRecord)
    (arguments : list Number) : Prog Warranty :=
  calculateWarrantyStatus currentRecord.

End Evaluator.

End Detail.

(* ================================================================== *)
(** * The builder over a store of arrays and objects                   *)
(* ================================================================== *)

(** The payload's arrays and mappings are shared, mutable JavaScript
    values, and [sort] works in place.  This module runs the four
    builders over an explicit store, so that what they write can be
    told from what they only read. *)
Module Store.
Import Js Summary.

Inductive Cell : Type :=
| Items (l : list MonthlyItem)         (* an array of monthly items *)
| Mapping (o : JsObject Z)             (* an object name -> number *)
| Entries (l : list (string * Z))      (* an array of [key, value] pairs *)
| Rows (l : list ChartRow)             (* an array of breakdown rows *)
| MonthlyRows (l : list MonthlyRow).   (* an array of merged monthly rows *)

Definition Loc : Type := nat.
Definition Heap : Type := list Cell.

(** A computation on the store; [None] is a thrown TypeError. *)
Definition M (A : Type) : Type := Heap -> option (A * Heap).

Definition ret {A} (a : A) : M A := fun h => Some (a, h).

Definition bind {A B} (m : M A) (f : A -> M B) : M B :=
  fun h => match m h with
           | Some (a, h') => f a h'
           | None => None
           end.

Definition throw {A} : M A := fun _ => None.

Declare Scope store_scope.
Delimit Scope store_scope with store.
Notation "x <- m ;; k" := (bind m (fun x => k))
  (at level 61, m at next level, right associativity) : store_scope.
Local Open Scope store_scope.

Definition alloc (c : Cell) : M Loc := fun h => Some (List.length h, h ++ [c]).

Definition read (l : Loc) : M Cell :=
  fun h => match nth_error h l with
           | Some c => Some (c, h)
           | None => None
           end.

Fixpoint update (h : Heap) (l : Loc) (c : Cell) : Heap :=
  match h, l with
  | [], _ => []
  | _ :: h', O => c :: h'
  | c' :: h', S l' => c' :: update h' l' c
  end.

Definition write (l : Loc) (c : Cell) : M unit :=
  fun h => match nth_error h l with
           | Some _ => Some (tt, update h l c)
           | None => None
           end.

Definition read_items (l : Loc) : M (list MonthlyItem) :=
  c <- read l ;; match c with Items x => ret x | _ => throw end.

Definition read_mapping (l : Loc) : M (JsObject Z) :=
  c <- read l ;; match c with Mapping x => ret x | _ => throw end.

Definition read_entries (l : Loc) : M (list (string * Z)) :=
  c <- read l ;; match c with Entries x => ret x | _ => throw end.

Definition read_rows (l : Loc) : M (list ChartRow) :=
  c <- read l ;; match c with Rows x => ret x | _ => throw end.

Fixpoint mapM {A B} (f : A -> M B) (l : list A) : M (list B) :=
  match l with
  | [] => ret []
  | x :: l' => y <- f x ;; ys <- mapM f l' ;; ret (y :: ys)
  end.

(** The payload as the component holds it: a reference to each of its
    arrays and mappings. *)
Record SummaryRef : Type := mkSummaryRef {
  monthly_trends : Loc;
  projected_sales : Loc;
  by_zone : Loc;
  by_zone_revenue : Loc;
  by_lead_source : Loc;
  by_lead_source_revenue : Loc;
  by_sold_by : Loc;
  by_sold_by_revenue : Loc
}.

(** [[...(a || []), ...(b || [])]]: a fresh array. *)
Definition spread_concat (a b : option Loc) : M Loc :=
  x <- match a with Some l => read_items l | None => ret [] end ;;
  y <- match b with Some l => read_items l | None => ret [] end ;;
  alloc (Items (x ++ y)).

(** [a.map(f)] on an array of monthly items: a fresh array. *)
Definition Array_map_items (f : MonthlyItem -> M MonthlyRow) (a : Loc) : M Loc :=
  x <- read_items a ;;
  y <- mapM f x ;;
  alloc (MonthlyRows y).

(** [Object.entries(o)]: a fresh array. *)
Definition Object_entries (o : Loc) : M Loc :=
  x <- read_mapping o ;;
  alloc (Entries (Js.Object_entries x)).

(** [a.map(f)] on an array of entries: a fresh array. *)
Definition Array_map_entries (f : string * Z -> M ChartRow) (a : Loc) : M Loc :=
  x <- read_entries a ;;
  y <- mapM f x ;;
  alloc (Rows y).

(** [a.sort(cmp)]: sorts [a] in place and returns [a] itself. *)
Definition Array_sort (cmp : ChartRow -> ChartRow -> Number) (a : Loc) : M Loc :=
  x <- read_rows a ;;
  _ <- write a (Rows (Js.Array_sort cmp x)) ;;
  ret a.

(** [a.slice(0, n)]: a fresh array. *)
Definition Array_slice0 (n : nat) (a : Loc) : M Loc :=
  x <- read_rows a ;;
  alloc (Rows (Js.Array_slice0 n x)).

(** [o[k]]. *)
Definition Get (o : Loc) (k : string) : M Value :=
  x <- read_mapping o ;;
  ret (Js.Get x k).

(** [summary?.field.find(m => m.month === k)]. *)
Definition find_month (summary : option SummaryRef) (field : SummaryRef -> Loc)
    (k : string) : M (option MonthlyItem) :=
  match summary with
  | Some s =>
      x <- read_items (field s) ;;
      ret (Array_find (fun m => String.eqb (mi_month m) k) x)
  | None => ret None
  end.

Section Builder.

Variable formatMonth : string -> string.

Definition monthly_row (summary : option SummaryRef) (item : MonthlyItem)
  : M MonthlyRow :=
  a1 <- find_month summary monthly_trends (mi_month item) ;;
  p1 <- find_month summary projected_sales (mi_month item) ;;
  a2 <- find_month summary monthly_trends (mi_month item) ;;
  p2 <- find_month summary projected_sales (mi_month item) ;;
  p3 <- find_month summary projected_sales (mi_month item) ;;
  ret {| month := formatMonth (mi_month item);
         monthKey := mi_month item;
         actualCount := or_zero (option_map mi_count a1);
         projectedCount := or_zero (option_map mi_count p1);
         actualRevenue := or_zero (option_map mi_revenue a2);
         projectedRevenue := or_zero (option_map mi_revenue p2);
         isProjected := truthy p3 |}.

Definition prepareMonthlyData (summary : option SummaryRef) : M Loc :=
  combined <- spread_concat (option_map monthly_trends summary)
                            (option_map projected_sales summary) ;;
  Array_map_items (monthly_row summary) combined.

End Builder.

(** The chain [Object.entries(counts).map(...).sort(...)] shared by the
    three breakdowns. *)
Definition sorted_rows (counts revenues : Loc) : M Loc :=
  entries <- Object_entries counts ;;
  rows <- Array_map_entries
            (fun e => r <- Get revenues (fst e) ;;
                      ret {| key := fst e; count := snd e; revenue := or_0 r |})
            entries ;;
  Array_sort by_revenue_desc rows.

(** [if (!summary) return []] allocates the empty array. *)
Definition prepareZoneData (summary : option SummaryRef) : M Loc :=
  match summary with
  | None => alloc (Rows [])
  | Some s =>
      sorted <- sorted_rows (by_zone s) (by_zone_revenue s) ;;
      Array_slice0 10 sorted
  end.

Definition prepareLeadSourceData (summary : option SummaryRef) : M Loc :=
  match summary with
  | None => alloc (Rows [])
  | Some s =>
      sorted <- sorted_rows (by_lead_source s) (by_lead_source_revenue s) ;;
      Array_slice0 8 sorted
  end.

Definition prepareSoldByData (summary : option SummaryRef) : M Loc :=
  match summary with
  | None => alloc (Rows [])
  | Some s => sorted_rows (by_sold_by s) (by_sold_by_revenue s)
  end.

(** The four series the component builds on each render: lines 120 to
    123. *)
Record ViewModel (A : Type) : Type := mkViewModel {
  monthlyData : A;
  zoneData : A;
  leadSourceData : A;
  soldByData : A
}.
Arguments mkViewModel {A}.
Arguments monthlyData {A}.
Arguments zoneData {A}.
Arguments leadSourceData {A}.
Arguments soldByData {A}.

Definition build_view_model (formatMonth : string -> string)
    (summary : option SummaryRef) : M (ViewModel Loc) :=
  m <- prepareMonthlyData formatMonth summary ;;
  z <- prepareZoneData summary ;;
  l <- prepareLeadSourceData summary ;;
  s <- prepareSoldByData summary ;;
  ret (mkViewModel m z l s).

(** What the four references of a view-model point to. *)
Definition contents (h : Heap) (v : ViewModel Loc) : ViewModel (option Cell) :=
  mkViewModel (nth_error h (monthlyData v)) (nth_error h (zoneData v))
              (nth_error h (leadSourceData v)) (nth_error h (soldByData v)).

(** The store holds the payload [s] at the references [r]. *)
Definition holds (h : Heap) (r : SummaryRef) (s : SalesSummary) : Prop :=
  nth_error h (monthly_trends r) = Some (Items (Summary.monthly_trends s)) /\
  nth_error h (projected_sales r) = Some (Items (Summary.projected_sales s)) /\
  nth_error h (by_zone r) = Some (Mapping (Summary.by_zone s)) /\
  nth_error h (by_zone_revenue r) = Some (Mapping (Summary.by_zone_revenue s)) /\
  nth_error h (by_lead_source r) = Some (Mapping (Summary.by_lead_source s)) /\
  nth_error h (by_lead_source_revenue r) = Some (Mapping (Summary.by_lead_source_revenue s)) /\
  nth_error h (by_sold_by r) = Some (Mapping (Summary.by_sold_by s)) /\
  nth_error h (by_sold_by_revenue r) = Some (Mapping (Summary.by_sold_by_revenue s)).

(** The view-model the pure builder gives for [s]. *)
Definition pure_view_model (formatMonth : string -> string) (s : SalesSummary)
  : ViewModel (option Cell) :=
  mkViewModel
    (Some (MonthlyRows (Summary.prepareMonthlyData formatMonth (Some s))))
    (Some (Rows (Summary.prepareZoneData (Some s))))
    (Some (Rows (Summary.prepareLeadSourceData (Some s))))
    (Some (Rows (Summary.prepareSoldByData (Some s)))).

(** A payload laid out in a store, one cell per array or mapping. *)
Definition store_of (s : SalesSummary) : Heap :=
  [ Items (Summary.monthly_trends s); Items (Summary.projected_sales s);
    Mapping (Summary.by_zone s); Mapping (Summary.by_zone_revenue s);
    Mapping (Summary.by_lead_source s); Mapping (Summary.by_lead_source_revenue s);
    Mapping (Summary.by_sold_by s); Mapping (Summary.by_sold_by_revenue s) ].

Definition ref_of_store : SummaryRef :=
  mkSummaryRef 0%nat 1%nat 2%nat 3%nat 4%nat 5%nat 6%nat 7%nat.

End Store.

(* ================================================================== *)
(** * Specification vocabulary and sample data                         *)
(* ================================================================== *)

Module Spec.
Import Js Summary.

Fixpoint sum_Z (l : list Z) : Z :=
  match l with
  | [] => 0
  | x :: l' => x + sum_Z l'
  end.

(** The revenue of a row, as far as it is a number. *)
Definition number_of (x : Value) : Z :=
  match x with
  | Numeric v => v
  | _ => 0
  end.

Definition amount (r : ChartRow) : Z := number_of (revenue r).

Definition numeric (r : ChartRow) : Prop := exists v, revenue r = Numeric v.

(** Sum of the revenue column of a breakdown: a number when every
    revenue of the column is one. *)
Fixpoint sum_revenue (rows : list ChartRow) : option Z :=
  match rows with
  | [] => Some 0
  | r :: rows' =>
      match revenue r, sum_revenue rows' with
      | Numeric v, Some t => Some (v + t)
      | _, _ => None
      end
  end.

(** Sum of all values of a mapping. *)
Definition total {K} (o : list (K * Z)) : Z := sum_Z (map snd o).

(** The revenue a key is joined with: the mapping's value, 0 when the
    key is absent. *)
Definition revenue_or_0 (revenues : JsObject Z) (k : string) : Z :=
  match get revenues k with
  | Some v => v
  | None => 0
  end.

(** The join as the specification words it: one row per key of the
    counts mapping, in encounter order, with that key's revenue or 0. *)
Definition joined (counts revenues : JsObject Z) : list ChartRow :=
  map (fun e => mkChartRow (fst e) (snd e) (Numeric (revenue_or_0 revenues (fst e)))) counts.

(** [out] is [rows] sorted by descending revenue, rows of equal revenue
    keeping the order they have in [rows]; every revenue is a number. *)
Definition stable_desc_sort_of (rows out : list ChartRow) : Prop :=
  Permutation out rows /\
  Forall numeric out /\
  StronglySorted (fun a b => amount a >= amount b) out /\
  forall v, filter (fun r => amount r =? v) out = filter (fun r => amount r =? v) rows.

(** Every read [revenues[k]] for a key [k] of [counts] finds an own
    property of [revenues] or nothing: no key of [counts] that
    [revenues] lacks is a name of [Object.prototype]. *)
Definition reads_own (counts revenues : JsObject Z) : bool :=
  forallb (fun k => match get revenues k with
                    | Some _ => true
                    | None => negb (Object_prototype_has k)
                    end)
          (keys counts).

(** Month keys of a series, in order. *)
Definition months (l : list MonthlyItem) : list string := map mi_month l.

(** The merged series has exactly one row for each month key of either
    source. *)
Definition one_row_per_month (formatMonth : string -> string) (s : SalesSummary) : Prop :=
  forall k, In k (months (monthly_trends s)) \/ In k (months (projected_sales s)) ->
            count_occ string_dec (map monthKey (prepareMonthlyData formatMonth (Some s))) k = 1%nat.

(** The sold-by rows carry the whole revenue mapping, and the top-N rows
    of zone and lead source carry no more than theirs. *)
Definition revenue_is_conserved (s : SalesSummary) : Prop :=
  sum_revenue (prepareSoldByData (Some s)) = Some (total (by_sold_by_revenue s)) /\
  (exists z, sum_revenue (prepareZoneData (Some s)) = Some z /\
             z <= total (by_zone_revenue s)) /\
  (exists z, sum_revenue (prepareLeadSourceData (Some s)) = Some z /\
             z <= total (by_lead_source_revenue s)).

(** Every mapping of the payload is a well-formed object. *)
Definition wf_summary (s : SalesSummary) : Prop :=
  wf_object (by_zone s) /\ wf_object (by_zone_revenue s) /\
  wf_object (by_lead_source s) /\ wf_object (by_lead_source_revenue s) /\
  wf_object (by_sold_by s) /\ wf_object (by_sold_by_revenue s).

Definition nonneg (o : JsObject Z) : Prop := Forall (fun e => 0 <= snd e) o.

(** A display label good enough for samples: the key itself. *)
Definition label_is_key : string -> string := fun k => k.

(** The zone scenario of the specification. *)
Definition zone_scenario : SalesSummary :=
  {| monthly_trends := []; projected_sales := [];
     by_zone := [("A", 5); ("B", 10); ("C", 3)];
     by_zone_revenue := [("A", 100); ("B", 50)];
     by_lead_source := []; by_lead_source_revenue := [];
     by_sold_by := []; by_sold_by_revenue := [] |}.

(** Actual months up to January 2025 and a projection that starts in
    that same month. *)
Definition boundary_month : SalesSummary :=
  {| monthly_trends := [mkMonthlyItem "2024-12" 4 400; mkMonthlyItem "2025-01" 2 150];
     projected_sales := [mkMonthlyItem "2025-01" 5 500; mkMonthlyItem "2025-02" 6 600];
     by_zone := []; by_zone_revenue := [];
     by_lead_source := []; by_lead_source_revenue := [];
     by_sold_by := []; by_sold_by_revenue := [] |}.

(** A salesperson with revenue but no counted sale. *)
Definition revenue_only_key : SalesSummary :=
  {| monthly_trends := []; projected_sales := [];
     by_zone := []; by_zone_revenue := [];
     by_lead_source := []; by_lead_source_revenue := [];
     by_sold_by := [("Asha", 2)];
     by_sold_by_revenue := [("Asha", 300); ("Ravi", 100)] |}.

(** Eleven zones, the last one with a negative revenue. *)
Definition negative_revenue : SalesSummary :=
  {| monthly_trends := []; projected_sales := [];
     by_zone := [("Z01", 1); ("Z02", 1); ("Z03", 1); ("Z04", 1); ("Z05", 1); ("Z06", 1);
                 ("Z07", 1); ("Z08", 1); ("Z09", 1); ("Z10", 1); ("Z11", 1)];
     by_zone_revenue := [("Z01", 0); ("Z02", 0); ("Z03", 0); ("Z04", 0); ("Z05", 0);
                         ("Z06", 0); ("Z07", 0); ("Z08", 0); ("Z09", 0); ("Z10", 0);
                         ("Z11", -1)];
     by_lead_source := []; by_lead_source_revenue := [];
     by_sold_by := []; by_sold_by_revenue := [] |}.

(** A zone that is named like a member of [Object.prototype] and has
    sales but no revenue entry. *)
Definition zone_named_constructor : SalesSummary :=
  {| monthly_trends := []; projected_sales := [];
     by_zone := [("constructor", 3)]; by_zone_revenue := [];
     by_lead_source := []; by_lead_source_revenue := [];
     by_sold_by := []; by_sold_by_revenue := [] |}.

(** [delete o[k]]. *)
Definition delete {V} (k : string) (o : JsObject V) : JsObject V :=
  filter (fun e => negb (String.eqb (fst e) k)) o.

(** The payload [s] with the key [k] deleted from its three revenue
    mappings. *)
Definition without_revenue_of (k : string) (s : SalesSummary) : SalesSummary :=
  {| monthly_trends := monthly_trends s; projected_sales := projected_sales s;
     by_zone := by_zone s;
     by_zone_revenue := delete k (by_zone_revenue s);
     by_lead_source := by_lead_source s;
     by_lead_source_revenue := delete k (by_lead_source_revenue s);
     by_sold_by := by_sold_by s;
     by_sold_by_revenue := delete k (by_sold_by_revenue s) |}.

(** The same zone beside a zone with revenue. *)
Definition zone_beside_constructor : SalesSummary :=
  {| monthly_trends := []; projected_sales := [];
     by_zone := [("constructor", 1); ("East", 5)]; by_zone_revenue := [("East", 500)];
     by_lead_source := []; by_lead_source_revenue := [];
     by_sold_by := []; by_sold_by_revenue := [] |}.

(** A payload with every part filled. *)
Definition sample : SalesSummary :=
  {| monthly_trends := [mkMonthlyItem "2024-11" 3 300; mkMonthlyItem "2024-12" 4 400];
     projected_sales := [mkMonthlyItem "2025-01" 5 500];
     by_zone := [("North", 2); ("South", 5); ("East", 1)];
     by_zone_revenue := [("North", 200); ("South", 500); ("East", 200)];
     by_lead_source := [("Web", 6); ("Referral", 2)];
     by_lead_source_revenue := [("Web", 700); ("Referral", 200)];
     by_sold_by := [("Asha", 5); ("Ravi", 3)];
     by_sold_by_revenue := [("Asha", 450); ("Ravi", 450)] |}.

End Spec.

(** Sample records and worlds for the detail modal, and the two
    contracts of the warranty evaluator that the code does not keep. *)
Module Scenario.
Import Js JsDate Detail.

(** Record 7 of the client with phone 555-1234. *)
Definition sold_on (date : option string) : SaleRecord :=
  mkSaleRecord 7 "Meera" (Some "555-1234") date.

Definition leap_day_sale : SaleRecord := sold_on (Some "2024-02-29").

Definition undated_sale : SaleRecord := sold_on None.

Definition misdated_sale : SaleRecord := sold_on (Some "next week").

Definition walk_in_sale : SaleRecord := mkSaleRecord 8 "Walk-in" None (Some "2024-02-29").

(** Three earlier records of the same client. *)
Definition earlier (n : Z) : SaleRecord :=
  mkSaleRecord n "Meera" (Some "555-1234") (Some "2021-06-15").

Definition history : list SaleRecord := [earlier 3; earlier 4; earlier 5].

(** A backend that answers every request. *)
Definition backend_up (A : Type) (rq : Request A) : Response A :=
  match rq in Request A return Response A with
  | GetHistory _ _ _ => Resolved history
  | GetRecord n => Resolved (earlier n)
  end.

(** A backend that cannot be reached. *)
Definition backend_down (A : Type) (rq : Request A) : Response A :=
  Rejected "Network Error".

(** The modal showing [r] at time [now], with [shown] in its history
    list. *)
Definition modal (now : Z) (net : forall A, Request A -> Response A)
    (r : SaleRecord) (shown : list SaleRecord) : World :=
  mkWorld now net shown false r [].

(** 1 March 2025, 00:00 UTC: one year after the leap-day sale. *)
Definition first_of_march_2025 : Z := 1740787200000.

(** The evaluator of a browser whose time zone is UTC and whose parser
    reads ISO dates. *)
Definition evaluate (r : SaleRecord) (arguments : list Number) (w : World)
  : Outcome Warranty * World :=
  run (call_calculateWarrantyStatus parse_iso_date utc_zone utc_zone r arguments) w.

(** The evaluator takes the current time as an argument: calls that
    agree on the delivery date and on the time supplied agree on the
    result. *)
Definition now_is_injectable : Prop :=
  forall (r r' : SaleRecord) (now : Number) (w w' : World),
    date_of_delivery r = date_of_delivery r' ->
    fst (evaluate r [now] w) = fst (evaluate r' [now] w').

(** [o] carries one of the three classifications. *)
Definition classified (o : Outcome Warranty) : Prop :=
  exists res, o = Returned res /\
    (status res = out_of_warranty \/ status res = expiring_soon \/
     status res = in_warranty).

(** A record without a usable delivery date gets no classification, and
    no exception either. *)
Definition no_warranty_data_without_date : Prop :=
  forall (r : SaleRecord) (w : World),
    falsy (date_of_delivery r) = true \/
    new_Date (parse_iso_date (string_of (date_of_delivery r))) = NaN ->
    ~ classified (fst (evaluate r [] w)) /\
    forall error, fst (evaluate r [] w) <> Threw error.

End Scenario.

(* ================================================================== *)
(** * The record detail modal between renders                          *)
(* ================================================================== *)

(** The effects of the modal, its history panel, and a request that is
    still in flight when something else happens. *)
Module Modal.
Import Js Detail.
Local Open Scope bool_scope.
Local Open Scope prog_scope.

(** The effect of lines 19 to 21: the record on display follows the
    [record] prop. *)
Definition sync_record_effect (record : SaleRecord) : Prog unit :=
  trigger (SetCurrentRecord record).

(** The effect of lines 23 to 29, closed over the [isOpen] and
    [currentRecord] of its render. *)
Definition history_effect (isOpen : bool) (currentRecord : SaleRecord) : Prog unit :=
  if isOpen && negb (falsy (client_phone currentRecord)) then
    fetchRelatedRecords currentRecord
  else
    trigger (SetRelatedRecords []).

Definition same_phone (a b : option string) : bool :=
  match a, b with
  | Some x, Some y => String.eqb x y
  | None, None => true
  | _, _ => false
  end.

(** The dependency list [[isOpen, currentRecord.client_phone,
    currentRecord.id]] of that effect, compared between two renders. *)
Definition deps_changed (isOpen isOpen' : bool) (r r' : SaleRecord) : bool :=
  negb (Bool.eqb isOpen isOpen'
        && same_phone (client_phone r) (client_phone r')
        && (id r =? id r')).

(** The render that follows a change of state: the history effect runs
    again when one of its dependencies differs from the render before,
    with the record now on display. *)
Definition next_render (isOpen : bool) (before : SaleRecord) (w : World)
  : Outcome unit * World :=
  if deps_changed isOpen isOpen before (currentRecord w) then
    run (history_effect isOpen (currentRecord w)) w
  else
    (Returned tt, w).

(** A click on a record of the history list (line 308), and the render
    after the handler has finished. *)
Definition click_related (isOpen : bool) (relatedRecord : SaleRecord) (w : World)
  : Outcome unit * World :=
  let (o, w') := run (handleViewRelatedRecord relatedRecord) w in
  match o with
  | Returned _ => next_render isOpen (currentRecord w) w'
  | Threw error => (Threw error, w')
  end.

(** The Edit button (line 354). *)
Definition edit_button (currentRecord : SaleRecord) : Prog unit :=
  trigger (OnEdit (id currentRecord)).

(** What the History column shows: lines 295 to 337. *)
Inductive Panel : Type :=
| NoPhoneNumber                          (* "No phone number available to fetch history" *)
| LoadingHistory                         (* "Loading history..." *)
| HistoryList (l : list SaleRecord)      (* one clickable card per record *)
| NoPreviousRecords.                     (* "No previous records found for this client" *)

Definition history_panel (w : World) : Panel :=
  if falsy (client_phone (currentRecord w)) then NoPhoneNumber
  else if loading w then LoadingHistory
  else if Nat.ltb 0 (List.length (relatedRecords w)) then HistoryList (relatedRecords w)
  else NoPreviousRecords.

(** What a completed history fetch leaves in the history list, and what
    it has logged after its request. *)
Definition fetched (answer : Response (list SaleRecord)) : list SaleRecord :=
  match answer with
  | Resolved records => records
  | Rejected _ => []
  end.

Definition logged (answer : Response (list SaleRecord)) : list Event :=
  match answer with
  | Resolved _ => []
  | Rejected error => [EvConsoleError "Error fetching related records:" error]
  end.

(** ** A request in flight

    An [await] hands control back to the event loop.  [run_to_await]
    runs a program up to its first request, which it sends, and returns
    what is left to do once the response is there. *)
Inductive Paused (R : Type) : Type :=
| Done (o : Outcome R)
| Awaiting {A : Type} (rq : Request A) (k : Response A -> Prog R).
Arguments Done {R} o.
Arguments Awaiting {R A} rq k.

Definition pause_or_handle {R X} (e : Eff X)
  : (X -> Prog R) -> World -> (Paused R * World) + (X * World) :=
  match e in Eff X return (X -> Prog R) -> World -> (Paused R * World) + (X * World) with
  | ApiGet rq => fun k w => inl (Awaiting rq k, emit (EvApiGet rq) w)
  | e' => fun _ w => inr (handle e' w)
  end.

Fixpoint run_to_await {R} (p : Prog R) (w : World) : Paused R * World :=
  match p with
  | Ret r => (Done (Returned r), w)
  | Throw error => (Done (Threw error), w)
  | Vis e k =>
      match pause_or_handle e k w with
      | inl paused => paused
      | inr (x, w') => run_to_await (k x) w'
      end
  end.

(** The response arrives: the rest of the program runs in the world as
    it is by then. *)
Definition resume {R A} (k : Response A -> Prog R) (response : Response A) (w : World)
  : Outcome R * World :=
  run (k response) w.

(** The [record] prop changes to [next] while the history request for
    the record on display is in flight; the history request for [next]
    is answered first, the earlier one after it. *)
Definition late_history_response (next : SaleRecord) (w : World)
  : option (Outcome unit * World) :=
  match run_to_await (history_effect true (currentRecord w)) w with
  | (Awaiting rq k, w1) =>
      let (_, w2) := run (sync_record_effect next) w1 in
      let (_, w3) := next_render true (currentRecord w) w2 in
      Some (resume k (network w _ rq) w3)
  | (Done _, _) => None
  end.

(** Record 8, of another client, and a backend that knows the history
    of each of the two clients. *)
Definition other_client : SaleRecord :=
  mkSaleRecord 8 "Arun" (Some "555-9999") (Some "2023-01-10").

Definition backend_by_phone (A : Type) (rq : Request A) : Response A :=
  match rq in Request A return Response A with
  | GetHistory phone _ _ =>
      if String.eqb phone "555-1234" then Resolved Scenario.history
      else Resolved [mkSaleRecord 2 "Arun" (Some "555-9999") (Some "2020-05-01")]
  | GetRecord n => Resolved other_client
  end.

End Modal.

(* ================================================================== *)
(** * The session: API client and authentication context               *)
(* ================================================================== *)

(** [services/api] (the axios instance with its two interceptors) and
    the [AuthProvider] that logs in, logs out and restores a session
    from [localStorage]. *)
Module Session.
Import Js Detail.
Local Open Scope bool_scope.

(** [localStorage]: a store of strings by key. *)
Definition Storage : Type := string -> option string.

Definition getItem (k : string) (s : Storage) : option string := s k.

Definition setItem (k v : string) (s : Storage) : Storage :=
  fun k' => if String.eqb k' k then Some v else s k'.

Definition removeItem (k : string) (s : Storage) : Storage :=
  fun k' => if String.eqb k' k then None else s k'.

Definition empty_storage : Storage := fun _ => None.

(** Truthiness of what [getItem] returns: [null] and the empty string
    are falsy. *)
Definition truthy_item (x : option string) : bool := negb (falsy x).

(** [s.includes(sub)]. *)
Fixpoint includes (s sub : string) : bool :=
  if String.prefix sub s then true
  else match s with
       | EmptyString => false
       | String _ s' => includes s' sub
       end.

(** A rejected request as the [catch] blocks read it: [error.code],
    [error.message], and, when the server answered,
    [error.response.status] and [error.response.data.detail]. *)
Record ErrorResponse : Type := mkErrorResponse {
  status : Z;
  detail : option string
}.

Record AxiosError : Type := mkAxiosError {
  code : option string;
  message : option string;
  response : option ErrorResponse
}.

(** A request as it leaves the client. *)
Record Request : Type := mkRequest {
  method : string;
  url : string;
  authorization : option string      (* the Authorization header *)
}.

(** The state a page holds: what outlives a reload ([localStorage], the
    address), the module state of [services/api], the state of the
    [AuthProvider], and the requests sent so far. *)
Record User : Type := mkUser {
  role : string;
  token : string
}.

Record Browser : Type := mkBrowser {
  localStorage : Storage;
  location : string;                        (* window.location.href *)
  default_authorization : option string;    (* api.defaults.headers.common['Authorization'] *)
  user : option User;
  isLoading : bool;
  sent : list Request                       (* oldest first *)
}.

Definition with_storage (s : Storage) (b : Browser) : Browser :=
  mkBrowser s (location b) (default_authorization b) (user b) (isLoading b) (sent b).

Definition with_location (l : string) (b : Browser) : Browser :=
  mkBrowser (localStorage b) l (default_authorization b) (user b) (isLoading b) (sent b).

Definition with_default_authorization (h : option string) (b : Browser) : Browser :=
  mkBrowser (localStorage b) (location b) h (user b) (isLoading b) (sent b).

Definition with_user (u : option User) (b : Browser) : Browser :=
  mkBrowser (localStorage b) (location b) (default_authorization b) u (isLoading b) (sent b).

Definition with_isLoading (l : bool) (b : Browser) : Browser :=
  mkBrowser (localStorage b) (location b) (default_authorization b) (user b) l (sent b).

Definition with_sent (rq : Request) (b : Browser) : Browser :=
  mkBrowser (localStorage b) (location b) (default_authorization b) (user b) (isLoading b)
            (sent b ++ [rq]).

(** ** [services/api] *)

Definition bearer (token : string) : string := "Bearer " ++ token.

(** Lines 11 to 15 of the module: the default header when the module is
    loaded. *)
Definition api_module_init (s : Storage) : option string :=
  if truthy_item (getItem "token" s) then Some (bearer (string_of (getItem "token" s)))
  else None.

(** The request interceptor, lines 18 to 24. *)
Definition request_interceptor (s : Storage) (config : Request) : Request :=
  if truthy_item (getItem "token" s) then
    mkRequest (method config) (url config) (Some (bearer (string_of (getItem "token" s))))
  else config.

(** [error.response?.status === 401]. *)
Definition unauthorized (error : AxiosError) : bool :=
  match response error with
  | Some r => status r =? 401
  | None => false
  end.

(** The error branch of the response interceptor, lines 29 to 36: what
    it does before it rejects with the same error. *)
Definition response_error_interceptor (error : AxiosError) (b : Browser) : Browser :=
  if unauthorized error then
    with_location "/login"
      (with_storage (removeItem "role" (removeItem "token" (localStorage b))) b)
  else b.

(** A request through the instance: axios puts the default headers into
    the config, runs the request interceptor, sends, and runs the
    response interceptor on the outcome; a response passes it as it
    is. *)
Definition outgoing (method url : string) (b : Browser) : Request :=
  request_interceptor (localStorage b) (mkRequest method url (default_authorization b)).

Definition api_request {A} (backend : Request -> A + AxiosError)
    (method url : string) (b : Browser) : (A + AxiosError) * Browser :=
  let config := outgoing method url b in
  let b' := with_sent config b in
  match backend config with
  | inl data => (inl data, b')
  | inr error => (inr error, response_error_interceptor error b')
  end.

(** ** The authentication context *)

(** The data of a successful login response. *)
Record LoginData : Type := mkLoginData {
  access_token : string;
  login_role : string
}.

Definition timeout_message : string :=
  "Request timed out. The backend may be waking up (this can take 30-60 seconds on the free tier). Please try again.".

Definition unreachable_message : string :=
  "Cannot reach the backend server. Please check if the backend is running and VITE_API_URL is set correctly.".

(** [x?.includes(sub)] as a condition. *)
Definition message_includes (x : option string) (sub : string) : bool :=
  match x with
  | Some s => includes s sub
  | None => false
  end.

(** [a || b] on an optional string and a string. *)
Definition or_string (a : option string) (b : string) : string :=
  if falsy a then b else string_of a.

(** [error.code === c]. *)
Definition same_code (x : option string) (c : string) : bool :=
  match x with
  | Some s => String.eqb s c
  | None => false
  end.

(** The message of the [Error] that the [catch] of [login] throws:
    lines 432 to 438. *)
Definition login_failure (error : AxiosError) : string :=
  if same_code (code error) "ECONNABORTED" || message_includes (message error) "timeout"
  then timeout_message
  else if message_includes (message error) "Network Error"
          || match response error with None => true | Some _ => false end
  then unreachable_message
  else or_string (match response error with Some r => detail r | None => None end)
                 "Invalid passcode".

(** [login], lines 417 to 440; [backend] is how the server answers the
    [POST /auth/login] that carries [passcode]. *)
Definition login (backend : string -> Request -> LoginData + AxiosError)
    (passcode : string) (b : Browser) : Outcome unit * Browser :=
  match api_request (backend passcode) "post" "/auth/login" b with
  | (inl data, b1) =>
      let b2 := with_user (Some (mkUser (login_role data) (access_token data))) b1 in
      let b3 := with_storage (setItem "token" (access_token data) (localStorage b2)) b2 in
      let b4 := with_storage (setItem "role" (login_role data) (localStorage b3)) b3 in
      (Returned tt, with_default_authorization (Some (bearer (access_token data))) b4)
  | (inr error, b1) => (Threw (login_failure error), b1)
  end.

(** [logout], lines 442 to 447. *)
Definition logout (b : Browser) : Browser :=
  let b1 := with_user None b in
  let b2 := with_storage (removeItem "token" (localStorage b1)) b1 in
  let b3 := with_storage (removeItem "role" (localStorage b2)) b2 in
  with_default_authorization None b3.

(** The effect the provider runs once it is mounted: lines 405 to
    415. *)
Definition restore_session (b : Browser) : Browser :=
  let storedToken := getItem "token" (localStorage b) in
  let storedRole := getItem "role" (localStorage b) in
  let b1 :=
    if truthy_item storedToken && truthy_item storedRole then
      with_default_authorization (Some (bearer (string_of storedToken)))
        (with_user (Some (mkUser (string_of storedRole) (string_of storedToken))) b)
    else b in
  with_isLoading false b1.

(** Loading the page at its current address: [localStorage] and the
    address are what they were, [services/api] is evaluated afresh, the
    provider starts from its initial state and runs its effect. *)
Definition load_page (b : Browser) : Browser :=
  restore_session
    (mkBrowser (localStorage b) (location b) (api_module_init (localStorage b))
               None true []).

(** The header a request sent now would carry. *)
Definition outgoing_authorization (b : Browser) : option string :=
  authorization (outgoing "get" "/" b).

(** Sample sessions: a browser that has never logged in, a backend that
    accepts the passcode "1234" for the role sales and answers 401 to
    every other, and one that is asleep. *)
Definition fresh_browser : Browser :=
  mkBrowser empty_storage "/login" None None true [].

Definition wrong_passcode : AxiosError :=
  mkAxiosError (Some "ERR_BAD_REQUEST") (Some "Request failed with status code 401")
               (Some (mkErrorResponse 401 None)).

Definition sales_backend (passcode : string) (rq : Request) : LoginData + AxiosError :=
  if String.eqb passcode "1234" then inl (mkLoginData "tok-1" "sales")
  else inr wrong_passcode.

Definition timed_out : AxiosError :=
  mkAxiosError (Some "ECONNABORTED") (Some "timeout of 60000ms exceeded") None.

Definition sleeping_backend (passcode : string) (rq : Request) : LoginData + AxiosError :=
  inr timed_out.

End Session.

(* ================================================================== *)
(** * The sales-summary page: filters and fetch                        *)
(* ================================================================== *)

Module SummaryPage.
Import Js Summary Detail Session.
Local Open Scope bool_scope.

(** Modelled from the spec: the [RecordFilters] type of [../types] is
    not among the sources; these are the four filters the page reads
    and writes, each a string or [undefined]. *)
Record RecordFilters : Type := mkFilters {
  zone : option string;
  sold_by : option string;
  date_from : option string;
  date_to : option string
}.

(** The object [{}]. *)
Definition no_filters : RecordFilters := mkFilters None None None None.

(** [e.target.value || undefined]. *)
Definition value_or_undefined (value : string) : option string :=
  if String.eqb value "" then None else Some value.

(** What the user does to the filter box: edits one of the four inputs
    (lines 141, 151, 161 and 170) or presses Clear Filters (line
    177). *)
Inductive FilterEvent : Type :=
| ChangeZone (value : string)
| ChangeSoldBy (value : string)
| ChangeDateFrom (value : string)
| ChangeDateTo (value : string)
| ClearFilters.

(** The filters after the handler of the event has run. *)
Definition on_filter_event (filters : RecordFilters) (ev : FilterEvent) : RecordFilters :=
  match ev with
  | ChangeZone v =>
      mkFilters (value_or_undefined v) (sold_by filters) (date_from filters) (date_to filters)
  | ChangeSoldBy v =>
      mkFilters (zone filters) (value_or_undefined v) (date_from filters) (date_to filters)
  | ChangeDateFrom v =>
      mkFilters (zone filters) (sold_by filters) (value_or_undefined v) (date_to filters)
  | ChangeDateTo v =>
      mkFilters (zone filters) (sold_by filters) (date_from filters) (value_or_undefined v)
  | ClearFilters => no_filters
  end.

(** A [URLSearchParams]: the pairs appended so far. *)
Definition URLSearchParams : Type := list (string * string).

(** [if (v) params.append(k, v)]. *)
Definition append_if_set (k : string) (v : option string) (params : URLSearchParams)
  : URLSearchParams :=
  if falsy v then params else params ++ [(k, string_of v)].

(** Lines 32 to 36. *)
Definition summary_params (filters : RecordFilters) : URLSearchParams :=
  append_if_set "date_to" (date_to filters)
    (append_if_set "date_from" (date_from filters)
       (append_if_set "sold_by" (sold_by filters)
          (append_if_set "zone" (zone filters) []))).

(** What a [console.error] call of [fetchSummary] is given. *)
Inductive ConsoleEntry : Type :=
| ErrorFetching (error : AxiosError)              (* 'Error fetching sales summary:' *)
| ErrorDetails (data : option ErrorResponse).     (* 'Error details:' *)

(** The page: the state of the component, what it has written to the
    console and alerted, and the browser around it. *)
Record Page : Type := mkPage {
  summary : option SalesSummary;
  loading : bool;
  filters : RecordFilters;
  console : list ConsoleEntry;
  alerts : list string;
  browser : Browser
}.

(** [error.response?.data?.detail || error.message || 'Failed to load
    sales summary']. *)
Definition summary_failure (error : AxiosError) : string :=
  or_string (match response error with Some r => detail r | None => None end)
            (or_string (message error) "Failed to load sales summary").

Definition with_loading (l : bool) (p : Page) : Page :=
  mkPage (summary p) l (filters p) (console p) (alerts p) (browser p).

Section Fetch.

(** The string a [URLSearchParams] turns into inside the template
    literal. *)
Variable toString : URLSearchParams -> string.

(** How the server answers a request. *)
Variable backend : Request -> SalesSummary + AxiosError.

Definition summary_url (filters : RecordFilters) : string :=
  "/sales/summary?" ++ toString (summary_params filters).

(** [fetchSummary], lines 29 to 48, closed over the [filters] of its
    render. *)
Definition fetchSummary (p : Page) : Page :=
  let p1 := with_loading true p in
  match api_request backend "get" (summary_url (filters p)) (browser p1) with
  | (inl data, b) =>
      with_loading false
        (mkPage (Some data) (loading p1) (filters p1) (console p1) (alerts p1) b)
  | (inr error, b) =>
      with_loading false
        (mkPage (summary p1) (loading p1) (filters p1)
           (console p1 ++ [ErrorFetching error; ErrorDetails (response error)])
           (alerts p1 ++ [("Failed to load sales summary: " ++ summary_failure error)%string])
           b)
  end.

(** A filter event, and the fetch that the effect of lines 25 to 27
    starts because [filters] is a new object. *)
Definition filter_and_fetch (ev : FilterEvent) (p : Page) : Page :=
  fetchSummary
    (mkPage (summary p) (loading p) (on_filter_event (filters p) ev)
            (console p) (alerts p) (browser p)).

End Fetch.

(** What the page shows: lines 108 to 118. *)
Inductive View : Type :=
| Spinner
| NoSummaryData                 (* "No summary data available" *)
| Charts (s : SalesSummary).

Definition view (p : Page) : View :=
  if loading p then Spinner
  else match summary p with
       | None => NoSummaryData
       | Some s => Charts s
       end.

(** The page as it is first rendered. *)
Definition first_render (b : Browser) : Page :=
  mkPage None true no_filters [] [] b.

End SummaryPage.

(** The stages a warranty goes through, in order. *)
Module Lifecycle.
Import Detail.

Definition stage (s : Status) : Z :=
  match s with
  | in_warranty => 0
  | expiring_soon => 1
  | out_of_warranty => 2
  end.

(** A host whose local time is UTC plus a fixed offset. *)
Definition fixed_offset (offset : Z) (LocalTime UTC : Z -> Z) : Prop :=
  (forall t, LocalTime t = t + offset) /\ (forall t, UTC t = t - offset).

End Lifecycle.

(* ================================================================== *)
(** * The month label of the monthly chart                             *)
(* ================================================================== *)

(** [formatMonth], lines 53 to 57 of the summary component, with the
    string and Date operations it is made of. *)
Module MonthLabel.
Import Js JsDate.

(** [s.split(sep)] for a separator of one character. *)
Fixpoint split_on (sep : ascii) (s : string) : list string :=
  match s with
  | EmptyString => [EmptyString]
  | String c s' =>
      if Ascii.eqb c sep then EmptyString :: split_on sep s'
      else match split_on sep s' with
           | h :: t => String c h :: t
           | [] => [String c EmptyString]
           end
  end.

(** The value of a non-empty string of decimal digits. *)
Definition decimal (s : string) : option Z :=
  match list_ascii_of_string s with
  | [] => None
  | l => number_of_digits 0 l
  end.

(** [new Date(year, monthIndex)]: the first day of the month at 00:00
    local time; a year from 0 to 99 stands for 1900 to 1999. *)
Definition new_Date_year_month (UTC : Z -> Z) (year monthIndex : Number) : Date :=
  match year, monthIndex with
  | Num y, Num m =>
      let yr := if (0 <=? y) && (y <=? 99) then 1900 + y else y in
      TimeClip (UTC (MakeDate (MakeDay yr m 1) 0))
  | _, _ => NaN
  end.

Section Label.

(** [parseInt] of a string or of [undefined]. *)
Variable parseInt : option string -> Number.

(** [date.toLocaleDateString('en-US', { month: 'short', year:
    'numeric' })]. *)
Variable toLocaleDateString : Date -> string.

Variable UTC : Z -> Z.

(** The Date that [formatMonth] builds from a month key: lines 54 and
    55. *)
Definition month_date (month : string) : Date :=
  let parts := split_on "-"%char month in
  let year := nth_error parts 0 in
  let monthNum := nth_error parts 1 in
  new_Date_year_month UTC (parseInt year) (sub (parseInt monthNum) (Num 1)).

Definition formatMonth (month : string) : string :=
  toLocaleDateString (month_date month).

End Label.

(** [parseInt] reads a string of decimal digits as the number it
    writes, as long as a double holds that number exactly, and
    [undefined] as [NaN]. *)
Definition reads_decimals (parseInt : option string -> Number) : Prop :=
  (forall s n, decimal s = Some n -> n <= 9007199254740991 -> parseInt (Some s) = Num n) /\
  parseInt None = NaN.

(** A [parseInt] for strings of decimal digits, and nothing else. *)
Definition parseInt_digits (x : option string) : Number :=
  match x with
  | Some s => match decimal s with Some n => Num n | None => NaN end
  | None => NaN
  end.

(** A month label good enough for samples: the time value in
    milliseconds is told apart from an Invalid Date. *)
Definition valid_or_invalid (d : Date) : string :=
  match d with
  | Num _ => "a date"
  | NaN => "Invalid Date"
  end.

End MonthLabel.

(* ================================================================== *)
(** * Facts about the runtime model                                    *)
(* ================================================================== *)

Module JsFacts.
Import Js.

Lemma or_zero_Some (v : Z) : or_zero (Some v) = v.
Proof.
  unfold or_zero. destruct (Z.eqb_spec v 0); congruence.
Qed.

Lemma get_None {V} (o : JsObject V) (k : string) :
  ~ In k (keys o) -> get o k = None.
Proof.
  induction o as [|[k' v] o IH]; simpl; intros H; [reflexivity|].
  destruct (String.eqb_spec k' k) as [->|_]; [tauto|].
  apply IH. tauto.
Qed.

Lemma get_In {V} (o : JsObject V) (k : string) (v : V) :
  get o k = Some v -> In (k, v) o.
Proof.
  induction o as [|[k' v'] o IH]; simpl; [discriminate|].
  destruct (String.eqb_spec k' k) as [->|_].
  - intros [= ->]. now left.
  - intros H. right. now apply IH.
Qed.

(** ** The insertion sort, for any comparator *)

Lemma sort_insert_rearranges {A} (cmp : A -> A -> Z) (x : A) (l : list A) :
  Permutation (sort_insert cmp x l) (x :: l).
Proof.
  induction l as [|y l IH]; simpl; [reflexivity|].
  destruct (cmp x y <=? 0); [reflexivity|].
  rewrite IH. apply perm_swap.
Qed.

Lemma insertion_sort_rearranges {A} (cmp : A -> A -> Z) (l : list A) :
  Permutation (insertion_sort cmp l) l.
Proof.
  induction l as [|x l IH]; simpl; [constructor|].
  rewrite sort_insert_rearranges. now constructor.
Qed.

(** Whatever the comparator returns, [sort] rearranges the array. *)
Lemma Array_sort_rearranges {A} (cmp : A -> A -> Number) (l : list A) :
  Permutation (Array_sort cmp l) l.
Proof. apply insertion_sort_rearranges. Qed.

(** The sort calls the comparator on elements of the array only. *)
Lemma sort_insert_ext {A} (cmp cmp' : A -> A -> Z) (x : A) (l : list A) :
  (forall y, In y l -> cmp x y = cmp' x y) ->
  sort_insert cmp x l = sort_insert cmp' x l.
Proof.
  induction l as [|y l IH]; intros H; [reflexivity|].
  simpl. rewrite (H y (or_introl eq_refl)).
  destruct (cmp' x y <=? 0); [reflexivity|].
  f_equal. apply IH. intros z Hz. apply H. now right.
Qed.

Lemma insertion_sort_ext {A} (cmp cmp' : A -> A -> Z) (l : list A) :
  (forall x y, In x l -> In y l -> cmp x y = cmp' x y) ->
  insertion_sort cmp l = insertion_sort cmp' l.
Proof.
  induction l as [|x l IH]; intros H; [reflexivity|].
  simpl. rewrite <- IH by (intros a b Ha Hb; apply H; now right).
  apply sort_insert_ext. intros y Hy. apply H; [now left|].
  right. exact (Permutation_in _ (insertion_sort_rearranges cmp l) Hy).
Qed.

(** [o[k]] on a name that [Object.prototype] does not define is the own
    property, and [o[k]] on an own property is that property. *)
Lemma Get_own (o : JsObject Z) (k : string) (v : Z) :
  get o k = Some v -> Get o k = Numeric v.
Proof. intros H. unfold Get. now rewrite H. Qed.

Lemma Get_absent (o : JsObject Z) (k : string) :
  get o k = None -> Object_prototype_has k = false -> Get o k = Undefined.
Proof. intros H P. unfold Get. now rewrite H, P. Qed.

Lemma Get_inherited (o : JsObject Z) (k : string) :
  get o k = None -> Object_prototype_has k = true -> Get o k = Builtin k.
Proof. intros H P. unfold Get. now rewrite H, P. Qed.

Lemma or_0_Numeric (v : Z) : or_0 (Numeric v) = Numeric v.
Proof.
  unfold or_0. destruct (Z.eqb_spec v 0) as [->|_]; reflexivity.
Qed.

(** ** The insertion sort with a comparator [f b - f a] *)

Section SortDescending.

Context {A : Type}.
Variable f : A -> Z.

Let cmp : A -> A -> Z := fun a b => f b - f a.
Let above : A -> A -> Prop := fun a b => f a >= f b.

Lemma sort_insert_Permutation (x : A) (l : list A) :
  Permutation (sort_insert cmp x l) (x :: l).
Proof.
  induction l as [|y l IH]; simpl; [reflexivity|].
  destruct (cmp x y <=? 0); [reflexivity|].
  rewrite IH. apply perm_swap.
Qed.

Lemma insertion_sort_Permutation (l : list A) : Permutation (insertion_sort cmp l) l.
Proof.
  induction l as [|x l IH]; simpl; [constructor|].
  rewrite sort_insert_Permutation. now constructor.
Qed.

Lemma sort_insert_sorted (x : A) (l : list A) :
  StronglySorted above l -> StronglySorted above (sort_insert cmp x l).
Proof.
  induction 1 as [|y l Hs IH Hy]; simpl.
  - repeat constructor.
  - destruct (Z.leb_spec (cmp x y) 0) as [Hc|Hc]; unfold cmp in Hc.
    + constructor; [now constructor|].
      constructor; [unfold above; lia|].
      eapply Forall_impl; [|exact Hy]. unfold above. intros z Hz. lia.
    + constructor; [exact IH|].
      eapply Permutation_Forall; [symmetry; apply sort_insert_Permutation|].
      constructor; [unfold above; lia | exact Hy].
Qed.

Lemma insertion_sort_sorted (l : list A) : StronglySorted above (insertion_sort cmp l).
Proof.
  induction l as [|x l IH]; simpl; [constructor|].
  now apply sort_insert_sorted.
Qed.

(** Inserting [x] moves it only past elements of a greater key, so
    among the elements of any one key the order is untouched. *)
Lemma sort_insert_filter (v : Z) (x : A) (l : list A) :
  filter (fun a => f a =? v) (sort_insert cmp x l) =
  filter (fun a => f a =? v) (x :: l).
Proof.
  induction l as [|y l IH]; [reflexivity|].
  simpl sort_insert.
  destruct (Z.leb_spec (cmp x y) 0) as [Hc|Hc]; [reflexivity|].
  unfold cmp in Hc. simpl in *. rewrite IH.
  destruct (Z.eqb_spec (f x) v), (Z.eqb_spec (f y) v); try reflexivity; lia.
Qed.

Lemma insertion_sort_stable (v : Z) (l : list A) :
  filter (fun a => f a =? v) (insertion_sort cmp l) = filter (fun a => f a =? v) l.
Proof.
  induction l as [|x l IH]; [reflexivity|].
  simpl insertion_sort. rewrite sort_insert_filter. simpl. now rewrite IH.
Qed.

(** ** A stable descending sort has one result

    Whatever algorithm an engine uses for [Array.prototype.sort], a
    list that is sorted and keeps, for every key, the elements of that
    key in their original order is the list [insertion_sort] computes. *)
Lemma head_key_is_greatest (x : A) (l : list A) (z : A) :
  StronglySorted above (x :: l) -> In z (x :: l) -> f x >= f z.
Proof.
  intros S [<-|Hz]; [lia|].
  apply StronglySorted_inv in S. destruct S as [_ F].
  rewrite Forall_forall in F. exact (F z Hz).
Qed.

Lemma filter_key_head (v : Z) (l : list A) (y : A) (t : list A) :
  filter (fun a => f a =? v) l = y :: t -> In y l /\ f y = v.
Proof.
  intros E. assert (H : In y (filter (fun a => f a =? v) l)) by (rewrite E; now left).
  apply filter_In in H. destruct H as [H1 H2]. split; [exact H1|]. now apply Z.eqb_eq.
Qed.

Lemma filter_key_cons (v : Z) (x : A) (l : list A) :
  filter (fun a => f a =? v) (x :: l)
  = if f x =? v then x :: filter (fun a => f a =? v) l else filter (fun a => f a =? v) l.
Proof. reflexivity. Qed.

Lemma sorted_by_filters_unique (l1 l2 : list A) :
  StronglySorted above l1 -> StronglySorted above l2 ->
  (forall v, filter (fun a => f a =? v) l1 = filter (fun a => f a =? v) l2) ->
  l1 = l2.
Proof.
  revert l2. induction l1 as [|x l1 IH]; intros [|y l2] S1 S2 H.
  - reflexivity.
  - specialize (H (f y)). simpl in H. rewrite Z.eqb_refl in H. discriminate.
  - specialize (H (f x)). simpl in H. rewrite Z.eqb_refl in H. discriminate.
  - assert (Exy : f x = f y).
    { pose proof (H (f x)) as Hx. pose proof (H (f y)) as Hy.
      rewrite (filter_key_cons (f x) x l1), Z.eqb_refl in Hx.
      rewrite (filter_key_cons (f y) y l2), Z.eqb_refl in Hy.
      symmetry in Hx. apply filter_key_head in Hx. apply filter_key_head in Hy.
      pose proof (head_key_is_greatest _ _ _ S2 (proj1 Hx)).
      pose proof (head_key_is_greatest _ _ _ S1 (proj1 Hy)). lia. }
    assert (Hh : x = y /\ forall v, filter (fun a => f a =? v) l1 = filter (fun a => f a =? v) l2).
    { pose proof (H (f x)) as Hx. rewrite !filter_key_cons in Hx.
      rewrite <- Exy, Z.eqb_refl in Hx. injection Hx as -> Ht.
      split; [reflexivity|]. intros v. specialize (H v). rewrite !filter_key_cons in H.
      destruct (f y =? v); [now injection H | exact H]. }
    destruct Hh as [-> Ht]. f_equal.
    apply IH; [now apply StronglySorted_inv in S1 | now apply StronglySorted_inv in S2 | exact Ht].
Qed.

End SortDescending.

End JsFacts.

(* ================================================================== *)
(** * The view-model builder: category breakdowns                      *)
(* ================================================================== *)

Module BreakdownFacts.
Import Js Summary Spec JsFacts.

(** ** What a row is joined with *)

(** [revenues[k] || 0] by cases: the own value; without one, the member
    of [Object.prototype] when [k] names one, and 0 otherwise. *)
Lemma or_0_Get (revenues : JsObject Z) (k : string) :
  or_0 (Get revenues k) =
  match get revenues k with
  | Some v => Numeric v
  | None => if Object_prototype_has k then Builtin k else Numeric 0
  end.
Proof.
  unfold Get. destruct (get revenues k) as [v|]; [apply or_0_Numeric|].
  destruct (Object_prototype_has k); reflexivity.
Qed.

Lemma reads_own_key (counts revenues : JsObject Z) (k : string) :
  reads_own counts revenues = true -> In k (keys counts) ->
  or_0 (Get revenues k) = Numeric (revenue_or_0 revenues k).
Proof.
  intros H Hk. unfold reads_own in H. rewrite forallb_forall in H. specialize (H k Hk).
  rewrite or_0_Get. unfold revenue_or_0.
  destruct (get revenues k) as [v|]; [reflexivity|].
  destruct (Object_prototype_has k); [discriminate H | reflexivity].
Qed.

(** When every read finds an own property or nothing, the join is one
    row per entry of the counts mapping, in entry order, with the
    revenue looked up by key and 0 where it is absent. *)
Lemma join_rows_eq (counts revenues : JsObject Z) :
  reads_own counts revenues = true ->
  join_rows counts revenues = joined counts revenues.
Proof.
  intros H. unfold join_rows, joined, Object_entries. apply map_ext_in. intros e He.
  rewrite (reads_own_key counts revenues (fst e) H); [reflexivity|].
  unfold keys. now apply in_map.
Qed.

Lemma join_rows_keys (counts revenues : JsObject Z) :
  map key (join_rows counts revenues) = keys counts.
Proof.
  unfold join_rows, Object_entries, keys. rewrite map_map. reflexivity.
Qed.

Lemma joined_numeric (counts revenues : JsObject Z) :
  Forall numeric (joined counts revenues).
Proof.
  unfold joined. apply Forall_forall. intros r Hr.
  apply in_map_iff in Hr. destruct Hr as (e & <- & _). now eexists.
Qed.

Lemma joined_amounts (counts revenues : JsObject Z) :
  map amount (joined counts revenues) = map (revenue_or_0 revenues) (keys counts).
Proof.
  unfold joined, keys. rewrite !map_map. reflexivity.
Qed.

(** Every joined row is an entry of the counts mapping with what a read
    of the revenue mapping gives for its key. *)
Lemma join_row_figures (counts revenues : JsObject Z) (r : ChartRow) :
  In r (join_rows counts revenues) ->
  In (key r, count r) counts /\ revenue r = or_0 (Get revenues (key r)).
Proof.
  unfold join_rows, Object_entries. intros H.
  apply in_map_iff in H. destruct H as ([k c] & <- & He). split; [exact He | reflexivity].
Qed.

(** The join reads the revenue mapping at the keys of the counts
    mapping, and nowhere else. *)
Lemma join_rows_agree (counts revenues revenues' : JsObject Z) :
  (forall k, In k (keys counts) -> Get revenues' k = Get revenues k) ->
  join_rows counts revenues' = join_rows counts revenues.
Proof.
  intros H. unfold join_rows, Object_entries. apply map_ext_in. intros e He.
  rewrite H; [reflexivity|]. unfold keys. now apply in_map.
Qed.

Lemma get_delete_other {V} (k k' : string) (o : JsObject V) :
  k' <> k -> get (delete k o) k' = get o k'.
Proof.
  intros Hne. induction o as [|[k0 v] o IH]; [reflexivity|].
  simpl. destruct (String.eqb_spec k0 k) as [->|H0]; simpl.
  - destruct (String.eqb_spec k k') as [E|_]; [congruence | exact IH].
  - now rewrite IH.
Qed.

Lemma join_rows_delete (k : string) (counts revenues : JsObject Z) :
  ~ In k (keys counts) ->
  join_rows counts (delete k revenues) = join_rows counts revenues.
Proof.
  intros Hk. apply join_rows_agree. intros k' Hk'. unfold Get.
  rewrite get_delete_other; [reflexivity|]. intros ->. contradiction.
Qed.

(** ** The sort of the joined rows *)

(** On rows whose revenues are numbers the comparator is the difference
    of the two revenues. *)
Lemma by_revenue_desc_numeric (a b : ChartRow) :
  numeric a -> numeric b -> SortCompare by_revenue_desc a b = amount b - amount a.
Proof.
  intros [x Ha] [y Hb]. unfold SortCompare, by_revenue_desc, amount.
  rewrite Ha, Hb. reflexivity.
Qed.

Lemma sorted_rows_by_amount (counts revenues : JsObject Z) :
  reads_own counts revenues = true ->
  sorted_rows counts revenues
  = insertion_sort (fun a b => amount b - amount a) (joined counts revenues).
Proof.
  intros H. unfold sorted_rows, Array_sort. rewrite (join_rows_eq _ _ H).
  apply insertion_sort_ext. intros x y Hx Hy.
  pose proof (joined_numeric counts revenues) as N. rewrite Forall_forall in N.
  apply by_revenue_desc_numeric; now apply N.
Qed.

Lemma sorted_rows_stable_sort (counts revenues : JsObject Z) :
  reads_own counts revenues = true ->
  stable_desc_sort_of (joined counts revenues) (sorted_rows counts revenues).
Proof.
  intros H. rewrite (sorted_rows_by_amount _ _ H). unfold stable_desc_sort_of.
  split; [apply insertion_sort_rearranges|].
  split.
  { eapply Permutation_Forall; [symmetry; apply insertion_sort_rearranges|].
    apply joined_numeric. }
  split; [apply (insertion_sort_sorted amount)|].
  intros v. apply (insertion_sort_stable amount).
Qed.

Lemma stable_desc_sort_unique (rows out1 out2 : list ChartRow) :
  stable_desc_sort_of rows out1 -> stable_desc_sort_of rows out2 -> out1 = out2.
Proof.
  intros (_ & _ & S1 & F1) (_ & _ & S2 & F2).
  apply (sorted_by_filters_unique amount); [exact S1 | exact S2|].
  intros v. now rewrite F1, F2.
Qed.

Lemma sorted_rows_rearranges (counts revenues : JsObject Z) :
  Permutation (sorted_rows counts revenues) (join_rows counts revenues).
Proof. apply Array_sort_rearranges. Qed.

Lemma sorted_rows_keys (counts revenues : JsObject Z) :
  Permutation (map key (sorted_rows counts revenues)) (keys counts).
Proof.
  rewrite <- (join_rows_keys counts revenues).
  apply Permutation_map. apply sorted_rows_rearranges.
Qed.

Lemma sorted_rows_length (counts revenues : JsObject Z) :
  List.length (sorted_rows counts revenues) = List.length counts.
Proof.
  rewrite (Permutation_length (sorted_rows_rearranges counts revenues)).
  unfold join_rows, Object_entries. apply length_map.
Qed.

Lemma sorted_row_figures (counts revenues : JsObject Z) (r : ChartRow) :
  In r (sorted_rows counts revenues) ->
  In (key r, count r) counts /\ revenue r = or_0 (Get revenues (key r)).
Proof.
  intros H. apply join_row_figures.
  exact (Permutation_in _ (sorted_rows_rearranges counts revenues) H).
Qed.

Lemma sorted_rows_delete (k : string) (counts revenues : JsObject Z) :
  ~ In k (keys counts) ->
  sorted_rows counts (delete k revenues) = sorted_rows counts revenues.
Proof.
  intros Hk. unfold sorted_rows. now rewrite join_rows_delete.
Qed.

(** A number in the revenue column is 0 or the revenue mapping's entry
    for the key of its row. *)
Lemma sorted_row_number (counts revenues : JsObject Z) (r : ChartRow) (v : Z) :
  In r (sorted_rows counts revenues) -> revenue r = Numeric v ->
  v = 0 \/ In (key r, v) revenues.
Proof.
  intros H E. destruct (sorted_row_figures _ _ _ H) as [_ F].
  rewrite E, or_0_Get in F.
  destruct (get revenues (key r)) as [x|] eqn:G.
  - injection F as ->. right. now apply get_In.
  - destruct (Object_prototype_has (key r)); [discriminate F|].
    injection F as ->. now left.
Qed.

(** ** Sums *)

Lemma sum_Z_app (l1 l2 : list Z) : sum_Z (l1 ++ l2) = sum_Z l1 + sum_Z l2.
Proof.
  induction l1 as [|x l1 IH]; simpl; lia.
Qed.

Lemma sum_Z_Permutation (l1 l2 : list Z) : Permutation l1 l2 -> sum_Z l1 = sum_Z l2.
Proof.
  induction 1; simpl; lia.
Qed.

Lemma sum_Z_nonneg (l : list Z) : Forall (fun x => 0 <= x) l -> 0 <= sum_Z l.
Proof.
  induction 1; simpl; lia.
Qed.

Lemma sum_Z_firstn (n : nat) (l : list Z) :
  Forall (fun x => 0 <= x) l -> sum_Z (firstn n l) <= sum_Z l.
Proof.
  intros H. rewrite <- (firstn_skipn n l) at 2. rewrite sum_Z_app.
  assert (0 <= sum_Z (skipn n l)); [|lia].
  apply sum_Z_nonneg. rewrite <- (firstn_skipn n l) in H.
  apply Forall_app in H. tauto.
Qed.

(** A column of numbers has a sum. *)
Lemma sum_revenue_numeric (rows : list ChartRow) :
  Forall numeric rows -> sum_revenue rows = Some (sum_Z (map amount rows)).
Proof.
  induction 1 as [|r rows [v Hv] _ IH]; [reflexivity|].
  cbn [sum_revenue map sum_Z]. unfold amount at 1. rewrite IH, Hv. reflexivity.
Qed.

Lemma numeric_firstn (n : nat) (rows : list ChartRow) :
  Forall numeric rows -> Forall numeric (firstn n rows).
Proof.
  intros H. rewrite <- (firstn_skipn n rows) in H. apply Forall_app in H. tauto.
Qed.

Lemma sorted_rows_numeric (counts revenues : JsObject Z) :
  reads_own counts revenues = true -> Forall numeric (sorted_rows counts revenues).
Proof.
  intros H. apply (sorted_rows_stable_sort counts revenues H).
Qed.

(** The revenue column of the sorted rows sums to the joined revenue of
    the keys of the counts mapping. *)
Lemma sum_revenue_sorted_rows (counts revenues : JsObject Z) :
  reads_own counts revenues = true ->
  sum_revenue (sorted_rows counts revenues) =
  Some (sum_Z (map (revenue_or_0 revenues) (keys counts))).
Proof.
  intros H. rewrite (sum_revenue_numeric _ (sorted_rows_numeric _ _ H)). f_equal.
  rewrite <- joined_amounts. apply sum_Z_Permutation, Permutation_map.
  apply (sorted_rows_stable_sort counts revenues H).
Qed.

Lemma revenue_or_0_cons (k0 : string) (v0 : Z) (revenues : JsObject Z) (k : string) :
  revenue_or_0 ((k0, v0) :: revenues) k =
  if String.eqb k0 k then v0 else revenue_or_0 revenues k.
Proof.
  unfold revenue_or_0. cbn [get]. now destruct (String.eqb k0 k).
Qed.

Lemma revenue_or_0_absent (revenues : JsObject Z) (k : string) :
  ~ In k (keys revenues) -> revenue_or_0 revenues k = 0.
Proof.
  intros H. unfold revenue_or_0. now rewrite (get_None revenues k H).
Qed.

(** Looking the keys [ks] up in a mapping that starts with [k0 : v0]:
    [v0] counts once if [k0] is among [ks], and the rest of the mapping
    answers for the other keys. *)
Lemma sum_lookup_cons (k0 : string) (v0 : Z) (revenues : JsObject Z) (ks : list string) :
  NoDup ks -> ~ In k0 (keys revenues) ->
  sum_Z (map (revenue_or_0 ((k0, v0) :: revenues)) ks) =
  (if in_dec string_dec k0 ks then v0 else 0) + sum_Z (map (revenue_or_0 revenues) ks).
Proof.
  intros Hnd Hk0. induction Hnd as [|k ks Hk Hnd IH].
  - reflexivity.
  - cbn [map sum_Z]. rewrite IH, revenue_or_0_cons.
    destruct (String.eqb_spec k0 k) as [<-|Hne].
    + rewrite (revenue_or_0_absent revenues k0 Hk0).
      destruct (in_dec string_dec k0 ks) as [i|_]; [contradiction|].
      destruct (in_dec string_dec k0 (k0 :: ks)) as [_|n]; [lia|].
      exfalso. apply n. now left.
    + destruct (in_dec string_dec k0 ks) as [i|n];
        destruct (in_dec string_dec k0 (k :: ks)) as [i'|n']; try lia.
      * exfalso. apply n'. now right.
      * destruct i' as [->|i']; [congruence | contradiction].
Qed.

Lemma sum_lookup_nil (ks : list string) : sum_Z (map (revenue_or_0 []) ks) = 0.
Proof.
  induction ks as [|k ks IH]; [reflexivity|].
  cbn [map sum_Z]. rewrite IH. reflexivity.
Qed.

(** With non-negative revenues, the joined revenue of any duplicate-free
    list of keys is at most the total of the mapping. *)
Lemma sum_lookup_le_total (revenues : JsObject Z) (ks : list string) :
  NoDup ks -> wf_object revenues -> nonneg revenues ->
  sum_Z (map (revenue_or_0 revenues) ks) <= total revenues.
Proof.
  intros Hks Hwf Hnn. induction revenues as [|[k0 v0] revenues IH].
  - rewrite sum_lookup_nil. reflexivity.
  - unfold wf_object, keys in Hwf. simpl in Hwf. inversion Hwf as [|? ? Hk0 Hwf']; subst.
    inversion Hnn as [|? ? Hv0 Hnn']; subst. simpl in Hv0.
    rewrite sum_lookup_cons by assumption.
    unfold total in *. simpl.
    specialize (IH Hwf' Hnn').
    destruct (in_dec string_dec k0 ks); lia.
Qed.

(** When every key of the revenue mapping is among the keys looked up,
    nothing of the total is lost. *)
Lemma sum_lookup_eq_total (revenues : JsObject Z) (ks : list string) :
  NoDup ks -> wf_object revenues -> incl (keys revenues) ks ->
  sum_Z (map (revenue_or_0 revenues) ks) = total revenues.
Proof.
  intros Hks Hwf Hincl. induction revenues as [|[k0 v0] revenues IH].
  - rewrite sum_lookup_nil. reflexivity.
  - unfold wf_object, keys in Hwf. simpl in Hwf. inversion Hwf as [|? ? Hk0 Hwf']; subst.
    rewrite sum_lookup_cons by assumption.
    unfold total in *. simpl.
    rewrite IH; [|exact Hwf'|].
    + destruct (in_dec string_dec k0 ks) as [_|n]; [lia|].
      exfalso. apply n. apply Hincl. now left.
    + intros k Hk. apply Hincl. now right.
Qed.

Lemma revenue_or_0_nonneg (revenues : JsObject Z) (k : string) :
  nonneg revenues -> 0 <= revenue_or_0 revenues k.
Proof.
  intros Hnn. unfold revenue_or_0. destruct (get revenues k) as [v|] eqn:E; [|lia].
  apply get_In in E. unfold nonneg in Hnn. rewrite Forall_forall in Hnn.
  apply (Hnn _ E).
Qed.

Lemma sorted_rows_amount_nonneg (counts revenues : JsObject Z) :
  reads_own counts revenues = true -> nonneg revenues ->
  Forall (fun x => 0 <= x) (map amount (sorted_rows counts revenues)).
Proof.
  intros H Hnn.
  eapply Permutation_Forall.
  - apply Permutation_map. symmetry. apply (sorted_rows_stable_sort counts revenues H).
  - rewrite joined_amounts. apply Forall_forall. intros x Hx.
    apply in_map_iff in Hx. destruct Hx as [k [<- _]]. now apply revenue_or_0_nonneg.
Qed.

(** The first [n] sorted rows carry at most the total of a non-negative
    revenue mapping. *)
Lemma top_rows_le_total (n : nat) (counts revenues : JsObject Z) :
  reads_own counts revenues = true ->
  wf_object counts -> wf_object revenues -> nonneg revenues ->
  exists z, sum_revenue (Array_slice0 n (sorted_rows counts revenues)) = Some z /\
            z <= total revenues.
Proof.
  intros H Hc Hr Hnn. unfold Array_slice0.
  rewrite (sum_revenue_numeric _ (numeric_firstn n _ (sorted_rows_numeric _ _ H))).
  eexists. split; [reflexivity|].
  rewrite <- firstn_map.
  etransitivity; [apply sum_Z_firstn, sorted_rows_amount_nonneg; assumption|].
  assert (E : sum_revenue (sorted_rows counts revenues)
              = Some (sum_Z (map amount (sorted_rows counts revenues)))).
  { apply sum_revenue_numeric, sorted_rows_numeric, H. }
  rewrite (sum_revenue_sorted_rows _ _ H) in E. injection E as <-.
  now apply sum_lookup_le_total.
Qed.

End BreakdownFacts.

Module BreakdownClaims.
Import Js Summary Spec JsFacts BreakdownFacts.

(** C3 at a zone named constructor that has 3 sales and no revenue
    entry: the read [by_zone_revenue["constructor"]] finds the function
    that every object inherits, which is truthy, so the row carries that
    function where the join by key has revenue 0, and the breakdown is
    no list of rows sorted by a revenue. *)
Theorem zone_named_constructor_is_joined_with_a_function :
  prepareZoneData (Some zone_named_constructor)
    = [mkChartRow "constructor" 3 (Builtin "constructor")] /\
  joined (by_zone zone_named_constructor) (by_zone_revenue zone_named_constructor)
    = [mkChartRow "constructor" 3 (Numeric 0)] /\
  get (by_zone_revenue zone_named_constructor) "constructor" = None /\
  ~ stable_desc_sort_of
      (joined (by_zone zone_named_constructor) (by_zone_revenue zone_named_constructor))
      (zone_rows zone_named_constructor).
Proof.
  split; [reflexivity|]. split; [reflexivity|]. split; [reflexivity|].
  intros (_ & N & _). apply Forall_inv in N. destruct N as [v N]. discriminate N.
Qed.

(** C10: for each category breakdown the keys of the rows, before any
    truncation, are exactly the keys of the counts mapping, each as
    often as it is a key there, and the zone and lead-source breakdowns
    are the first 10 and the first 8 of these rows.  A key that the
    counts mapping lacks is the key of no row, and the breakdown is the
    same with that key deleted from the revenue mapping; a number in the
    revenue column is 0 or the revenue mapping's entry for the key of
    its own row. *)
Theorem breakdown_keys_are_count_keys (s : SalesSummary) :
  (prepareZoneData (Some s) = firstn 10 (zone_rows s) /\
   Permutation (map key (zone_rows s)) (keys (by_zone s)) /\
   (forall r v, In r (zone_rows s) -> revenue r = Numeric v ->
                v = 0 \/ In (key r, v) (by_zone_revenue s)) /\
   forall k, ~ In k (keys (by_zone s)) ->
     (forall r, In r (zone_rows s) -> key r <> k) /\
     zone_rows (without_revenue_of k s) = zone_rows s /\
     prepareZoneData (Some (without_revenue_of k s)) = prepareZoneData (Some s)) /\
  (prepareLeadSourceData (Some s) = firstn 8 (lead_source_rows s) /\
   Permutation (map key (lead_source_rows s)) (keys (by_lead_source s)) /\
   (forall r v, In r (lead_source_rows s) -> revenue r = Numeric v ->
                v = 0 \/ In (key r, v) (by_lead_source_revenue s)) /\
   forall k, ~ In k (keys (by_lead_source s)) ->
     (forall r, In r (lead_source_rows s) -> key r <> k) /\
     lead_source_rows (without_revenue_of k s) = lead_source_rows s /\
     prepareLeadSourceData (Some (without_revenue_of k s))
       = prepareLeadSourceData (Some s)) /\
  (Permutation (map key (prepareSoldByData (Some s))) (keys (by_sold_by s)) /\
   (forall r v, In r (prepareSoldByData (Some s)) -> revenue r = Numeric v ->
                v = 0 \/ In (key r, v) (by_sold_by_revenue s)) /\
   forall k, ~ In k (keys (by_sold_by s)) ->
     (forall r, In r (prepareSoldByData (Some s)) -> key r <> k) /\
     prepareSoldByData (Some (without_revenue_of k s)) = prepareSoldByData (Some s)).
Proof.
  assert (H : forall counts revenues : JsObject Z,
             Permutation (map key (sorted_rows counts revenues)) (keys counts) /\
             (forall r v, In r (sorted_rows counts revenues) -> revenue r = Numeric v ->
                          v = 0 \/ In (key r, v) revenues) /\
             forall k, ~ In k (keys counts) ->
               (forall r, In r (sorted_rows counts revenues) -> key r <> k) /\
               sorted_rows counts (delete k revenues) = sorted_rows counts revenues).
  { intros counts revenues. split; [apply sorted_rows_keys|].
    split; [apply sorted_row_number|].
    intros k Hk. split; [|now apply sorted_rows_delete].
    intros r Hr <-. apply Hk.
    apply (Permutation_in _ (sorted_rows_keys counts revenues)).
    apply in_map. exact Hr. }
  split; [|split].
  - destruct (H (by_zone s) (by_zone_revenue s)) as (Hp & Hn & Hk).
    split; [reflexivity|]. split; [exact Hp|]. split; [exact Hn|].
    intros k Hnk. destruct (Hk k Hnk) as [Hr Hd].
    split; [exact Hr|].
    assert (E : zone_rows (without_revenue_of k s) = zone_rows s) by exact Hd.
    split; [exact E|]. cbn [prepareZoneData]. now rewrite E.
  - destruct (H (by_lead_source s) (by_lead_source_revenue s)) as (Hp & Hn & Hk).
    split; [reflexivity|]. split; [exact Hp|]. split; [exact Hn|].
    intros k Hnk. destruct (Hk k Hnk) as [Hr Hd].
    split; [exact Hr|].
    assert (E : lead_source_rows (without_revenue_of k s) = lead_source_rows s) by exact Hd.
    split; [exact E|]. cbn [prepareLeadSourceData]. now rewrite E.
  - destruct (H (by_sold_by s) (by_sold_by_revenue s)) as (Hp & Hn & Hk).
    split; [exact Hp|]. split; [exact Hn|].
    intros k Hnk. destruct (Hk k Hnk) as [Hr Hd].
    split; [exact Hr | exact Hd].
Qed.

(** C5, as the code has it, for mappings in which no counted key
    without a revenue entry is a name of [Object.prototype]: the revenue
    column of the sold-by breakdown sums to the revenue joined to the
    keys of the counts mapping (0 for a key without revenue); when every
    key of the sold-by revenue mapping is also a key of the sold-by
    counts mapping this is the sum of all values of the revenue mapping,
    and when the zone and lead-source revenues are not negative, the
    revenue of their top 10 and top 8 rows is at most the sum of all
    values of their revenue mapping.  (The mappings are objects, with no
    key twice.) *)
Theorem revenue_conserved_on_counted_keys (s : SalesSummary) :
  (reads_own (by_sold_by s) (by_sold_by_revenue s) = true ->
   sum_revenue (prepareSoldByData (Some s))
     = Some (sum_Z (map (revenue_or_0 (by_sold_by_revenue s)) (keys (by_sold_by s)))) /\
   (wf_object (by_sold_by s) -> wf_object (by_sold_by_revenue s) ->
    incl (keys (by_sold_by_revenue s)) (keys (by_sold_by s)) ->
    sum_revenue (prepareSoldByData (Some s)) = Some (total (by_sold_by_revenue s)))) /\
  (reads_own (by_zone s) (by_zone_revenue s) = true ->
   wf_object (by_zone s) -> wf_object (by_zone_revenue s) ->
   nonneg (by_zone_revenue s) ->
   exists z, sum_revenue (prepareZoneData (Some s)) = Some z /\
             z <= total (by_zone_revenue s)) /\
  (reads_own (by_lead_source s) (by_lead_source_revenue s) = true ->
   wf_object (by_lead_source s) -> wf_object (by_lead_source_revenue s) ->
   nonneg (by_lead_source_revenue s) ->
   exists z, sum_revenue (prepareLeadSourceData (Some s)) = Some z /\
             z <= total (by_lead_source_revenue s)).
Proof.
  split; [|split].
  - intros H. cbn [prepareSoldByData].
    split; [now apply sum_revenue_sorted_rows|].
    intros Hc Hr Hincl.
    rewrite (sum_revenue_sorted_rows _ _ H). f_equal. now apply sum_lookup_eq_total.
  - intros H Hc Hr Hnn. now apply top_rows_le_total.
  - intros H Hc Hr Hnn. now apply top_rows_le_total.
Qed.

End BreakdownClaims.

Module BreakdownSamples.
Import Js Summary Spec BreakdownClaims.

Ltac distinct_keys :=
  unfold wf_object, keys; simpl;
  repeat (constructor; [simpl; intuition discriminate|]); constructor.

Lemma sample_wf : wf_summary sample.
Proof.
  unfold wf_summary. repeat split; distinct_keys.
Defined.

(** C5 at the sample payload, whose revenue keys are all counted and
    whose revenues are positive. *)
Lemma revenue_conserved_sample : revenue_is_conserved sample.
Proof.
  destruct (revenue_conserved_on_counted_keys sample) as (Hsold & Hzone & Hlead).
  destruct sample_wf as (Hz & Hzr & Hl & Hlr & Hs & Hsr).
  split; [|split].
  - apply (proj2 (Hsold eq_refl)); [exact Hs | exact Hsr|]. intros k Hk. exact Hk.
  - apply Hzone; [reflexivity | exact Hz | exact Hzr|].
    unfold nonneg. simpl. repeat (constructor; [simpl; lia|]). constructor.
  - apply Hlead; [reflexivity | exact Hl | exact Hlr|].
    unfold nonneg. simpl. repeat (constructor; [simpl; lia|]). constructor.
Defined.

(** C5, as stated, fails: a salesperson who has revenue but no counted
    sale gets no row, so the rows sum to 300 while the revenue mapping
    sums to 400. *)
Lemma revenue_not_conserved_for_uncounted_key : ~ revenue_is_conserved revenue_only_key.
Proof.
  intros [H _]. vm_compute in H. discriminate H.
Qed.

(** With a negative revenue the top 10 zone rows (0 in all) exceed the
    total of the mapping (-1). *)
Lemma top_rows_exceed_negative_total :
  wf_summary negative_revenue /\
  sum_revenue (prepareZoneData (Some negative_revenue)) = Some 0 /\
  total (by_zone_revenue negative_revenue) = -1.
Proof.
  split; [|split; reflexivity].
  unfold wf_summary. repeat split; distinct_keys.
Qed.

(** Beside a row joined with a function the comparator returns [NaN],
    which the sort reads as equal: the zone with the only revenue stays
    behind the zone named constructor, and the column has no sum. *)
Lemma rows_beside_a_function_stay_in_entry_order :
  by_revenue_desc (mkChartRow "East" 5 (Numeric 500))
                  (mkChartRow "constructor" 1 (Builtin "constructor")) = NaN /\
  prepareZoneData (Some zone_beside_constructor)
    = [mkChartRow "constructor" 1 (Builtin "constructor");
       mkChartRow "East" 5 (Numeric 500)] /\
  sum_revenue (prepareZoneData (Some zone_beside_constructor)) = None.
Proof. repeat split. Qed.

End BreakdownSamples.

(* ================================================================== *)
(** * The view-model builder: merged monthly series                    *)
(* ================================================================== *)

Module MonthlyFacts.
Import Js Summary Spec.

Section Labels.

Variable formatMonth : string -> string.

Lemma prepareMonthlyData_keys (s : SalesSummary) :
  map monthKey (prepareMonthlyData formatMonth (Some s)) =
  months (monthly_trends s) ++ months (projected_sales s).
Proof.
  unfold prepareMonthlyData, months. simpl. rewrite map_map, map_app. reflexivity.
Qed.

Lemma prepareMonthlyData_null : prepareMonthlyData formatMonth None = [].
Proof. reflexivity. Qed.

Lemma find_month_Some (s : SalesSummary) (field : SalesSummary -> list MonthlyItem)
    (k : string) (m : MonthlyItem) :
  find_month (Some s) field k = Some m -> In m (field s) /\ mi_month m = k.
Proof.
  unfold find_month, Array_find. intros H. apply find_some in H.
  destruct H as [H1 H2]. split; [exact H1|]. now apply String.eqb_eq.
Qed.

Lemma find_month_None (s : SalesSummary) (field : SalesSummary -> list MonthlyItem)
    (k : string) :
  find_month (Some s) field k = None <-> ~ In k (months (field s)).
Proof.
  unfold find_month, Array_find, months. split.
  - intros H Hin. apply in_map_iff in Hin. destruct Hin as [m [Hm Hin]].
    pose proof (find_none _ _ H m Hin) as Hf. simpl in Hf.
    rewrite Hm, String.eqb_refl in Hf. discriminate.
  - intros H. destruct (find _ _) as [m|] eqn:E; [|reflexivity].
    exfalso. apply H. apply find_some in E. destruct E as [E1 E2].
    apply String.eqb_eq in E2. subst k. now apply in_map.
Qed.

(** A row is flagged as projected exactly when its month is a key of the
    projected series. *)
Lemma isProjected_iff (s : SalesSummary) (item : MonthlyItem) :
  isProjected (monthly_row formatMonth (Some s) item) = true <->
  In (mi_month item) (months (projected_sales s)).
Proof.
  unfold monthly_row. cbn [isProjected].
  destruct (find_month (Some s) projected_sales (mi_month item)) as [m|] eqn:E; cbn [truthy].
  - split; [intros _|reflexivity].
    apply find_month_Some in E. destruct E as [E1 E2]. rewrite <- E2.
    unfold months. now apply in_map.
  - split; [discriminate|]. intros H. apply find_month_None in E. contradiction.
Qed.

(** A row is a function of the month key of its item alone, so two rows
    of one month are the same row. *)
Lemma rows_of_one_month_are_equal (s : option SalesSummary) (r1 r2 : MonthlyRow) :
  In r1 (prepareMonthlyData formatMonth s) ->
  In r2 (prepareMonthlyData formatMonth s) ->
  monthKey r1 = monthKey r2 -> r1 = r2.
Proof.
  unfold prepareMonthlyData. intros H1 H2.
  apply in_map_iff in H1. destruct H1 as (i1 & <- & _).
  apply in_map_iff in H2. destruct H2 as (i2 & <- & _).
  unfold monthly_row. cbn [monthKey]. intros ->. reflexivity.
Qed.

End Labels.

End MonthlyFacts.

Module MonthlyClaims.
Import Js Summary Spec MonthlyFacts.

(** C2, as the code has it: the merged monthly series has one row per
    item of the actual series followed by one row per item of the
    projected series, so a month key appears in the output as often as
    it occurs in the two series together, each time with the same row.
    Every month key of either series appears in the output; it appears
    exactly once when the keys of each series are unique and the two
    series share no month. *)
Theorem monthly_merge_one_row_per_item (formatMonth : string -> string) (s : SalesSummary) :
  map monthKey (prepareMonthlyData formatMonth (Some s))
    = months (monthly_trends s) ++ months (projected_sales s) /\
  (forall k,
     count_occ string_dec (map monthKey (prepareMonthlyData formatMonth (Some s))) k
     = (count_occ string_dec (months (monthly_trends s)) k
        + count_occ string_dec (months (projected_sales s)) k)%nat) /\
  (forall k,
     In k (months (monthly_trends s)) \/ In k (months (projected_sales s)) <->
     In k (map monthKey (prepareMonthlyData formatMonth (Some s)))) /\
  (forall r1 r2,
     In r1 (prepareMonthlyData formatMonth (Some s)) ->
     In r2 (prepareMonthlyData formatMonth (Some s)) ->
     monthKey r1 = monthKey r2 -> r1 = r2) /\
  (NoDup (months (monthly_trends s)) ->
   NoDup (months (projected_sales s)) ->
   (forall k, In k (months (monthly_trends s)) -> ~ In k (months (projected_sales s))) ->
   one_row_per_month formatMonth s).
Proof.
  pose proof (prepareMonthlyData_keys formatMonth s) as E.
  split; [exact E|]. split; [|split; [|split]].
  - intros k. rewrite E. apply count_occ_app.
  - intros k. rewrite E, in_app_iff. tauto.
  - apply rows_of_one_month_are_equal.
  - intros Ha Hp Hdisj k Hk. rewrite E, count_occ_app.
    pose proof (proj1 (NoDup_count_occ string_dec _) Ha k) as Hca.
    pose proof (proj1 (NoDup_count_occ string_dec _) Hp k) as Hcp.
    destruct Hk as [Hk|Hk].
    + pose proof (proj1 (count_occ_In string_dec _ k) Hk).
      pose proof (proj1 (count_occ_not_In string_dec _ k) (Hdisj k Hk)). lia.
    + pose proof (proj1 (count_occ_In string_dec _ k) Hk).
      assert (Hn : ~ In k (months (monthly_trends s))).
      { intros Hin. exact (Hdisj k Hin Hk). }
      pose proof (proj1 (count_occ_not_In string_dec _ k) Hn). lia.
Qed.

(** C2, as stated, fails: with actual months up to January 2025 and a
    projection that starts in January 2025, the boundary month has two
    rows. *)
Lemma boundary_month_has_two_rows : ~ one_row_per_month label_is_key boundary_month.
Proof.
  intros H. specialize (H "2025-01" (or_introl (or_intror (or_introl eq_refl)))).
  vm_compute in H. discriminate H.
Qed.

End MonthlyClaims.

(* ================================================================== *)
(** * The view-model builder over the store                            *)
(* ================================================================== *)

Module StoreFacts.
Import Js Summary Store.
Local Open Scope store_scope.

Lemma nth_error_old (h t : Heap) (l : Loc) (c : Cell) :
  nth_error h l = Some c -> nth_error (h ++ t) l = Some c.
Proof.
  intros H. rewrite nth_error_app1; [exact H|].
  apply nth_error_Some. congruence.
Qed.

Lemma nth_error_new (h t : Heap) (c : Cell) :
  nth_error (h ++ c :: t) (List.length h) = Some c.
Proof.
  rewrite nth_error_app2 by lia. now rewrite Nat.sub_diag.
Qed.

Lemma nth_error_after (h t : Heap) (k : nat) :
  nth_error (h ++ t) (k + List.length h) = nth_error t k.
Proof.
  rewrite nth_error_app2 by lia. f_equal. lia.
Qed.

Lemma update_new (h t : Heap) (c c' : Cell) :
  update (h ++ c :: t) (List.length h) c' = h ++ c' :: t.
Proof.
  induction h as [|x h IH]; simpl; [reflexivity|]. now rewrite IH.
Qed.

Lemma holds_app (h t : Heap) (r : SummaryRef) (s : SalesSummary) :
  holds h r s -> holds (h ++ t) r s.
Proof.
  unfold holds. intros H. decompose [and] H. repeat split; now apply nth_error_old.
Qed.

Lemma read_items_at (h : Heap) (l : Loc) (x : list MonthlyItem) :
  nth_error h l = Some (Items x) -> read_items l h = Some (x, h).
Proof.
  intros H. unfold read_items, bind, read. now rewrite H.
Qed.

Lemma read_mapping_at (h : Heap) (l : Loc) (x : JsObject Z) :
  nth_error h l = Some (Mapping x) -> read_mapping l h = Some (x, h).
Proof.
  intros H. unfold read_mapping, bind, read. now rewrite H.
Qed.

Lemma read_entries_at (h : Heap) (l : Loc) (x : list (string * Z)) :
  nth_error h l = Some (Entries x) -> read_entries l h = Some (x, h).
Proof.
  intros H. unfold read_entries, bind, read. now rewrite H.
Qed.

Lemma read_rows_at (h : Heap) (l : Loc) (x : list ChartRow) :
  nth_error h l = Some (Rows x) -> read_rows l h = Some (x, h).
Proof.
  intros H. unfold read_rows, bind, read. now rewrite H.
Qed.

(** A callback that only reads the store maps like its pure
    counterpart and leaves the store as it is. *)
Lemma mapM_reads {A B} (f : A -> M B) (g : A -> B) (h : Heap) (l : list A) :
  (forall x, f x h = Some (g x, h)) -> mapM f l h = Some (map g l, h).
Proof.
  intros Hf. induction l as [|x l IH]; [reflexivity|].
  simpl. unfold bind. rewrite Hf, IH. reflexivity.
Qed.

Lemma find_month_at (h : Heap) (r : SummaryRef) (s : SalesSummary)
    (field : SummaryRef -> Loc) (field' : SalesSummary -> list MonthlyItem) (k : string) :
  nth_error h (field r) = Some (Items (field' s)) ->
  Store.find_month (Some r) field k h = Some (Summary.find_month (Some s) field' k, h).
Proof.
  intros H. unfold Store.find_month, bind. now rewrite (read_items_at _ _ _ H).
Qed.

Section Labels.

Variable formatMonth : string -> string.

Lemma monthly_row_at (h : Heap) (r : SummaryRef) (s : SalesSummary) (item : MonthlyItem) :
  holds h r s ->
  Store.monthly_row formatMonth (Some r) item h
  = Some (Summary.monthly_row formatMonth (Some s) item, h).
Proof.
  intros (Ht & Hp & _). unfold Store.monthly_row, bind.
  repeat (first
    [ rewrite (find_month_at h r s Store.monthly_trends Summary.monthly_trends _ Ht)
    | rewrite (find_month_at h r s Store.projected_sales Summary.projected_sales _ Hp) ];
    cbv beta iota).
  reflexivity.
Qed.

(** [prepareMonthlyData] allocates the concatenated array and the array
    of rows, and writes nowhere else. *)
Lemma prepareMonthlyData_at (h : Heap) (r : SummaryRef) (s : SalesSummary) :
  holds h r s ->
  Store.prepareMonthlyData formatMonth (Some r) h
  = Some (S (List.length h),
          h ++ [Items (Summary.monthly_trends s ++ Summary.projected_sales s);
                MonthlyRows (Summary.prepareMonthlyData formatMonth (Some s))]).
Proof.
  intros H. pose proof H as (Ht & Hp & _).
  unfold Store.prepareMonthlyData, spread_concat, Array_map_items, bind, alloc. simpl.
  rewrite (read_items_at _ _ _ Ht), (read_items_at _ _ _ Hp).
  rewrite (read_items_at _ _ _ (nth_error_new h [] _)).
  rewrite (mapM_reads _ (Summary.monthly_row formatMonth (Some s))).
  - rewrite length_app, <- app_assoc. simpl. rewrite Nat.add_1_r. reflexivity.
  - intros item. apply monthly_row_at. now apply holds_app.
Qed.

End Labels.

(** The chain entries-map-sort allocates two arrays: the entries, and
    the rows, which [sort] then reorders in place. *)
Lemma sorted_rows_at (h : Heap) (counts revenues : Loc) (c rv : JsObject Z) :
  nth_error h counts = Some (Mapping c) ->
  nth_error h revenues = Some (Mapping rv) ->
  Store.sorted_rows counts revenues h
  = Some (S (List.length h), h ++ [Entries c; Rows (Summary.sorted_rows c rv)]).
Proof.
  intros Hc Hr.
  unfold Store.sorted_rows, Store.Object_entries, Array_map_entries, Store.Array_sort,
    bind, alloc, ret.
  rewrite (read_mapping_at _ _ _ Hc).
  rewrite (read_entries_at _ _ _ (nth_error_new h [] _)).
  rewrite (mapM_reads _ (fun e => {| key := fst e; count := snd e;
                                     revenue := or_0 (Js.Get rv (fst e)) |})).
  - rewrite length_app. simpl. rewrite Nat.add_1_r.
    replace ((h ++ [Entries (Js.Object_entries c)]) ++
             [Rows (map (fun e => {| key := fst e; count := snd e;
                                     revenue := or_0 (Js.Get rv (fst e)) |})
                        (Js.Object_entries c))])
      with ((h ++ [Entries c]) ++ [Rows (join_rows c rv)] ) by reflexivity.
    assert (Hl : S (List.length h) = List.length (h ++ [Entries c])).
    { rewrite length_app. simpl. lia. }
    rewrite Hl.
    rewrite (read_rows_at _ _ _ (nth_error_new _ [] _)).
    unfold write. rewrite nth_error_new, update_new, <- app_assoc. reflexivity.
  - intros e. unfold Store.Get, bind, ret.
    now rewrite (read_mapping_at _ _ _ (nth_error_old _ _ _ _ Hr)).
Qed.

Lemma slice_at (h : Heap) (x y : Cell) (rows : list ChartRow) (n : nat) :
  Store.Array_slice0 n (S (List.length h)) (h ++ [x; Rows rows])
  = Some (S (S (List.length h)), h ++ [x; Rows rows; Rows (firstn n rows)]).
Proof.
  unfold Store.Array_slice0, bind, alloc.
  assert (E : h ++ [x; Rows rows] = (h ++ [x]) ++ [Rows rows]) by now rewrite <- app_assoc.
  assert (Hl : S (List.length h) = List.length (h ++ [x])).
  { rewrite length_app. simpl. lia. }
  rewrite E, Hl, (read_rows_at _ _ _ (nth_error_new _ [] _)).
  rewrite <- !app_assoc. simpl. rewrite !length_app. simpl.
  repeat f_equal; lia.
Qed.

End StoreFacts.

Module StoreClaims.
Import Js Summary Store StoreFacts.
Local Open Scope store_scope.

Lemma prepareZoneData_at (h : Heap) (r : SummaryRef) (s : SalesSummary) :
  holds h r s ->
  Store.prepareZoneData (Some r) h
  = Some (S (S (List.length h)),
          h ++ [Entries (Summary.by_zone s); Rows (zone_rows s);
                Rows (Summary.prepareZoneData (Some s))]).
Proof.
  intros (_ & _ & Hc & Hr & _). unfold Store.prepareZoneData, bind.
  rewrite (sorted_rows_at h _ _ _ _ Hc Hr). apply slice_at. exact (Items []).
Qed.

Lemma prepareLeadSourceData_at (h : Heap) (r : SummaryRef) (s : SalesSummary) :
  holds h r s ->
  Store.prepareLeadSourceData (Some r) h
  = Some (S (S (List.length h)),
          h ++ [Entries (Summary.by_lead_source s); Rows (lead_source_rows s);
                Rows (Summary.prepareLeadSourceData (Some s))]).
Proof.
  intros (_ & _ & _ & _ & Hc & Hr & _). unfold Store.prepareLeadSourceData, bind.
  rewrite (sorted_rows_at h _ _ _ _ Hc Hr). apply slice_at. exact (Items []).
Qed.

Lemma prepareSoldByData_at (h : Heap) (r : SummaryRef) (s : SalesSummary) :
  holds h r s ->
  Store.prepareSoldByData (Some r) h
  = Some (S (List.length h),
          h ++ [Entries (Summary.by_sold_by s); Rows (Summary.prepareSoldByData (Some s))]).
Proof.
  intros (_ & _ & _ & _ & _ & _ & Hc & Hr). unfold Store.prepareSoldByData.
  apply (sorted_rows_at h _ _ _ _ Hc Hr).
Qed.

(** One build of the view-model appends ten arrays to the store and
    returns references to four of them, which hold what the pure
    builder computes. *)
Lemma build_view_model_at (formatMonth : string -> string)
    (h : Heap) (r : SummaryRef) (s : SalesSummary) :
  holds h r s ->
  exists v t,
    build_view_model formatMonth (Some r) h = Some (v, h ++ t) /\
    contents (h ++ t) v = pure_view_model formatMonth s.
Proof.
  intros H.
  set (t1 := [Items (Summary.monthly_trends s ++ Summary.projected_sales s);
              MonthlyRows (Summary.prepareMonthlyData formatMonth (Some s))]).
  set (t2 := [Entries (Summary.by_zone s); Rows (zone_rows s);
              Rows (Summary.prepareZoneData (Some s))]).
  set (t3 := [Entries (Summary.by_lead_source s); Rows (lead_source_rows s);
              Rows (Summary.prepareLeadSourceData (Some s))]).
  set (t4 := [Entries (Summary.by_sold_by s); Rows (Summary.prepareSoldByData (Some s))]).
  exists (mkViewModel (1 + List.length h) (4 + List.length h)
                      (7 + List.length h) (9 + List.length h))%nat,
         (t1 ++ t2 ++ t3 ++ t4).
  split.
  - unfold build_view_model, bind.
    rewrite (prepareMonthlyData_at formatMonth h r s H). fold t1.
    rewrite (prepareZoneData_at (h ++ t1) r s (holds_app _ _ _ _ H)). fold t2.
    rewrite (prepareLeadSourceData_at ((h ++ t1) ++ t2) r s
               (holds_app _ _ _ _ (holds_app _ _ _ _ H))). fold t3.
    rewrite (prepareSoldByData_at (((h ++ t1) ++ t2) ++ t3) r s
               (holds_app _ _ _ _ (holds_app _ _ _ _ (holds_app _ _ _ _ H)))). fold t4.
    unfold ret. rewrite !length_app, <- !app_assoc. simpl List.length.
    repeat f_equal; lia.
  - unfold contents, pure_view_model. cbn [monthlyData zoneData leadSourceData soldByData].
    rewrite !nth_error_after. reflexivity.
Qed.

Lemma contents_app (h t : Heap) (v : ViewModel Loc) (m z l s : Cell) :
  contents h v = mkViewModel (Some m) (Some z) (Some l) (Some s) ->
  contents (h ++ t) v = mkViewModel (Some m) (Some z) (Some l) (Some s).
Proof.
  unfold contents. intros [= Hm Hz Hl Hs].
  now rewrite (nth_error_old _ t _ _ Hm), (nth_error_old _ t _ _ Hz),
    (nth_error_old _ t _ _ Hl), (nth_error_old _ t _ _ Hs).
Qed.

(** C7: building the view-model (the merged monthly series and the three
    category breakdowns) twice from a payload yields the same four
    series both times, and no build changes the payload: every array
    and mapping that was in the store before a build, the payload's
    among them, is the same after it, and the first build's output is
    still intact after the second. *)
Theorem build_is_repeatable_and_leaves_payload (formatMonth : string -> string)
    (h : Heap) (r : SummaryRef) (s : SalesSummary) :
  holds h r s ->
  exists v1 h1 v2 h2,
    build_view_model formatMonth (Some r) h = Some (v1, h1) /\
    build_view_model formatMonth (Some r) h1 = Some (v2, h2) /\
    contents h1 v1 = pure_view_model formatMonth s /\
    contents h2 v2 = contents h1 v1 /\
    contents h2 v1 = contents h1 v1 /\
    holds h1 r s /\ holds h2 r s /\
    (forall l c, nth_error h l = Some c -> nth_error h1 l = Some c) /\
    (forall l c, nth_error h1 l = Some c -> nth_error h2 l = Some c).
Proof.
  intros H.
  destruct (build_view_model_at formatMonth h r s H) as (v1 & t1 & B1 & C1).
  pose proof (holds_app h t1 r s H) as H1.
  destruct (build_view_model_at formatMonth (h ++ t1) r s H1) as (v2 & t2 & B2 & C2).
  exists v1, (h ++ t1), v2, ((h ++ t1) ++ t2).
  split; [exact B1|]. split; [exact B2|]. split; [exact C1|].
  split; [now rewrite C1, C2|].
  split; [rewrite C1; apply contents_app; exact C1|].
  split; [exact H1|]. split; [now apply holds_app|].
  split; intros l c; apply nth_error_old.
Qed.

(** C7 at the sample payload laid out in a store of eight cells. *)
Lemma build_sample_twice :
  exists v1 h1 v2 h2,
    build_view_model Spec.label_is_key (Some ref_of_store) (store_of Spec.sample) = Some (v1, h1) /\
    build_view_model Spec.label_is_key (Some ref_of_store) h1 = Some (v2, h2) /\
    contents h1 v1 = pure_view_model Spec.label_is_key Spec.sample /\
    contents h2 v2 = contents h1 v1 /\
    contents h2 v1 = contents h1 v1 /\
    holds h1 ref_of_store Spec.sample /\ holds h2 ref_of_store Spec.sample /\
    (forall l c, nth_error (store_of Spec.sample) l = Some c -> nth_error h1 l = Some c) /\
    (forall l c, nth_error h1 l = Some c -> nth_error h2 l = Some c).
Proof.
  apply (build_is_repeatable_and_leaves_payload Spec.label_is_key
           (store_of Spec.sample) ref_of_store Spec.sample).
  unfold holds. simpl. repeat split; reflexivity.
Defined.

(** [sort] does write: it replaces the array it is called on.  The
    builders call it on the array [map] has just allocated. *)
Lemma Array_sort_writes_in_place :
  Store.Array_sort by_revenue_desc 0%nat
    [Rows [mkChartRow "B" 1 (Numeric 50); mkChartRow "A" 1 (Numeric 100)]]
  = Some (0%nat, [Rows [mkChartRow "A" 1 (Numeric 100); mkChartRow "B" 1 (Numeric 50)]]).
Proof. reflexivity. Qed.

(** Without a payload every series is empty. *)
Lemma null_payload_builds_empty_series (formatMonth : string -> string) :
  Summary.prepareMonthlyData formatMonth None = [] /\
  Summary.prepareZoneData None = [] /\
  Summary.prepareLeadSourceData None = [] /\
  Summary.prepareSoldByData None = [].
Proof. repeat split. Qed.

End StoreClaims.

(* ================================================================== *)
(** * Calendar facts                                                   *)
(* ================================================================== *)

Module DateFacts.
Import Js JsDate.
Local Open Scope bool_scope.
Local Open Scope Z_scope.

(** The first day of a year stays within two days of the mean-year
    estimate. *)
Lemma DayFromYear_mean (y : Z) :
  -608 < 400 * DayFromYear y - 146097 * (y - 1970) < 596.
Proof.
  unfold DayFromYear. Z.div_mod_to_equations. lia.
Qed.

Lemma DaysInYear_cases (y : Z) : DaysInYear y = 365 \/ DaysInYear y = 366.
Proof.
  unfold DaysInYear.
  destruct (y mod 4 =? 0), (y mod 100 =? 0), (y mod 400 =? 0); simpl; auto.
Qed.

(** A year starts [DaysInYear] days after the year before. *)
Lemma DayFromYear_succ (y : Z) : DayFromYear (y + 1) = DayFromYear y + DaysInYear y.
Proof.
  unfold DayFromYear, DaysInYear.
  destruct (Z.eqb_spec (y mod 4) 0), (Z.eqb_spec (y mod 100) 0), (Z.eqb_spec (y mod 400) 0);
    cbn [negb]; Z.div_mod_to_equations; lia.
Qed.

Lemma DayFromYear_lt (y1 y2 : Z) : y1 < y2 -> DayFromYear y1 < DayFromYear y2.
Proof.
  unfold DayFromYear. intros H. Z.div_mod_to_equations. lia.
Qed.

(** [YearFromTime t] is the year the standard means: its first day is
    not after [t], and the first day of the next year is. *)
Lemma YearFromTime_spec (t : Z) :
  DayFromYear (YearFromTime t) <= Day t < DayFromYear (YearFromTime t + 1).
Proof.
  unfold YearFromTime. set (d := Day t). set (y := 1970 + 400 * d / 146097).
  assert (Hq : 146097 * (y - 1970) <= 400 * d < 146097 * (y - 1970) + 146097).
  { unfold y. Z.div_mod_to_equations. lia. }
  pose proof (DayFromYear_mean (y - 1)). pose proof (DayFromYear_mean y).
  pose proof (DayFromYear_mean (y + 1)). pose proof (DayFromYear_mean (y + 1 + 1)).
  destruct (Z.ltb_spec d (DayFromYear y)); [replace (y - 1 + 1) with y by lia; lia|].
  destruct (Z.leb_spec (DayFromYear (y + 1)) d); lia.
Qed.

(** It is the only such year. *)
Lemma YearFromTime_unique (t y : Z) :
  DayFromYear y <= Day t < DayFromYear (y + 1) -> YearFromTime t = y.
Proof.
  intros H. pose proof (YearFromTime_spec t) as S.
  destruct (Z.lt_trichotomy (YearFromTime t) y) as [L|[E|G]]; [|exact E|].
  - destruct (Z.eq_dec (YearFromTime t + 1) y) as [E|N].
    + rewrite E in S. lia.
    + pose proof (DayFromYear_lt (YearFromTime t + 1) y). lia.
  - destruct (Z.eq_dec (y + 1) (YearFromTime t)) as [E|N].
    + rewrite E in H. lia.
    + pose proof (DayFromYear_lt (y + 1) (YearFromTime t)). lia.
Qed.

Lemma Day_MakeDate (day tod : Z) :
  0 <= tod < msPerDay ->
  Day (MakeDate day tod) = day /\ TimeWithinDay (MakeDate day tod) = tod.
Proof.
  unfold Day, TimeWithinDay, MakeDate, msPerDay. intros H.
  split; Z.div_mod_to_equations; lia.
Qed.

Lemma TimeWithinDay_range (t : Z) : 0 <= TimeWithinDay t < msPerDay.
Proof.
  unfold TimeWithinDay, msPerDay. apply Z.mod_pos_bound. lia.
Qed.

Lemma DayWithinYear_range (t : Z) :
  0 <= DayWithinYear t < DaysInYear (YearFromTime t).
Proof.
  unfold DayWithinYear. pose proof (YearFromTime_spec t) as S.
  rewrite DayFromYear_succ in S. lia.
Qed.

(** Replaces [DaysBeforeMonth] at a literal month by its value. *)
Ltac days_before_month :=
  repeat match goal with
         | |- context [DaysBeforeMonth ?b ?m] =>
             let v := eval vm_compute in (DaysBeforeMonth b m) in
             lazymatch v with
             | Z0 => change (DaysBeforeMonth b m) with v
             | Z.pos _ => change (DaysBeforeMonth b m) with v
             end
         | H : context [DaysBeforeMonth ?b ?m] |- _ =>
             let v := eval vm_compute in (DaysBeforeMonth b m) in
             lazymatch v with
             | Z0 => change (DaysBeforeMonth b m) with v in H
             | Z.pos _ => change (DaysBeforeMonth b m) with v in H
             end
         end.

Ltac split_on_day :=
  repeat match goal with
         | |- context [if ?a <? ?b then _ else _] => destruct (Z.ltb_spec a b)
         end.

(** The month and day of a day of the year are in range. *)
Lemma month_of_day_range (leap : bool) (d : Z) :
  0 <= d < (if leap then 366 else 365) ->
  let m := month_of_day leap d in
  0 <= m <= 11 /\ 1 <= d - DaysBeforeMonth leap m + 1 <= DaysInMonth leap m.
Proof.
  intros H m. unfold m. clear m. unfold month_of_day, DaysInMonth.
  destruct leap; days_before_month; split_on_day;
    replace (11 + 1) with 12 by reflexivity; days_before_month; cbn [Z.add Pos.add]; lia.
Qed.

Lemma month_of_day_start (leap : bool) (m d : Z) :
  0 <= m <= 11 -> 1 <= d <= DaysInMonth leap m ->
  month_of_day leap (DaysBeforeMonth leap m + d - 1) = m /\
  0 <= DaysBeforeMonth leap m + d - 1 < (if leap then 366 else 365).
Proof.
  intros Hm Hd. unfold DaysInMonth in Hd.
  assert (C : m = 0 \/ m = 1 \/ m = 2 \/ m = 3 \/ m = 4 \/ m = 5 \/ m = 6 \/ m = 7 \/
              m = 8 \/ m = 9 \/ m = 10 \/ m = 11) by lia.
  unfold month_of_day.
  destruct leap; decompose [or] C; subst m; cbn [Z.add Pos.add Pos.succ] in Hd;
    days_before_month; split_on_day; lia.
Qed.

Lemma leap_flag (y : Z) :
  (if DaysInYear y =? 366 then 366 else 365) = DaysInYear y.
Proof.
  destruct (DaysInYear_cases y) as [E|E]; rewrite E; reflexivity.
Qed.

Lemma fields_range (t : Z) :
  0 <= MonthFromTime t <= 11 /\
  1 <= DateFromTime t <= DaysInMonth (InLeapYear t) (MonthFromTime t).
Proof.
  unfold MonthFromTime, DateFromTime. apply month_of_day_range.
  unfold InLeapYear. rewrite leap_flag. apply DayWithinYear_range.
Qed.

(** Assembling a time value from a year, a month, a day of that month
    and a time of day, and reading the fields back. *)
Lemma fields_of_MakeDate (y m d tod : Z) :
  0 <= m <= 11 -> 1 <= d <= DaysInMonth (DaysInYear y =? 366) m ->
  0 <= tod < msPerDay ->
  let t := MakeDate (MakeDay y m d) tod in
  YearFromTime t = y /\ MonthFromTime t = m /\ DateFromTime t = d /\
  TimeWithinDay t = tod.
Proof.
  intros Hm Hd Htod t.
  destruct (Day_MakeDate (MakeDay y m d) tod Htod) as [HD HT]. fold t in HD, HT.
  assert (HM : MakeDay y m d
               = DayFromYear y + (DaysBeforeMonth (DaysInYear y =? 366) m + d - 1)).
  { unfold MakeDay. rewrite Z.div_small, Z.mod_small, Z.add_0_r by lia. lia. }
  destruct (month_of_day_start (DaysInYear y =? 366) m d Hm Hd) as [Hmo Hr].
  rewrite leap_flag in Hr.
  assert (HY : YearFromTime t = y).
  { apply YearFromTime_unique. rewrite DayFromYear_succ, HD, HM. lia. }
  assert (HW : DayWithinYear t = DaysBeforeMonth (DaysInYear y =? 366) m + d - 1).
  { unfold DayWithinYear. rewrite HY, HD, HM. lia. }
  assert (HL : InLeapYear t = (DaysInYear y =? 366)).
  { unfold InLeapYear. now rewrite HY. }
  assert (HMo : MonthFromTime t = m).
  { unfold MonthFromTime. now rewrite HL, HW. }
  repeat split; try assumption.
  unfold DateFromTime. rewrite HMo, HL, HW. lia.
Qed.

Lemma not_leap_after_leap (y : Z) : DaysInYear y = 366 -> DaysInYear (y + 1) = 365.
Proof.
  unfold DaysInYear.
  destruct (Z.eqb_spec (y mod 4) 0) as [E|N]; cbn [negb]; [intros _|discriminate].
  destruct (Z.eqb_spec ((y + 1) mod 4) 0) as [E'|_]; cbn [negb]; [|reflexivity].
  exfalso. Z.div_mod_to_equations. lia.
Qed.

Lemma DaysInMonth_leap_only_February (b b' : bool) (m : Z) :
  0 <= m <= 11 -> m <> 1 -> DaysInMonth b m = DaysInMonth b' m.
Proof.
  intros Hm Hne. unfold DaysInMonth.
  assert (C : m = 0 \/ m = 2 \/ m = 3 \/ m = 4 \/ m = 5 \/ m = 6 \/ m = 7 \/
              m = 8 \/ m = 9 \/ m = 10 \/ m = 11) by lia.
  destruct b, b'; decompose [or] C; subst m; reflexivity.
Qed.

Lemma DaysInMonth_February (b : bool) : DaysInMonth b 1 = if b then 29 else 28.
Proof. destruct b; reflexivity. Qed.

(** [setFullYear(year + 1)] in local time: the year goes up by one and
    the time of day stays; the month and the day of the month stay too,
    except that 29 February becomes 1 March. *)
Lemma with_year_next (t : Z) :
  let t' := with_year t (YearFromTime t + 1) in
  YearFromTime t' = YearFromTime t + 1 /\
  TimeWithinDay t' = TimeWithinDay t /\
  if (MonthFromTime t =? 1) && (DateFromTime t =? 29)
  then MonthFromTime t' = 2 /\ DateFromTime t' = 1
  else MonthFromTime t' = MonthFromTime t /\ DateFromTime t' = DateFromTime t.
Proof.
  intros t'. unfold with_year in t'.
  destruct (fields_range t) as [Hm Hd].
  pose proof (TimeWithinDay_range t) as Htod.
  set (y := YearFromTime t) in *. set (m := MonthFromTime t) in *.
  set (d := DateFromTime t) in *. set (tod := TimeWithinDay t) in *.
  destruct (Z.eqb_spec m 1) as [Em|Nm]; [destruct (Z.eqb_spec d 29) as [Ed|Nd]|]; cbn [andb].
  - (* 29 February of a leap year *)
    assert (Hleap : DaysInYear y = 366).
    { rewrite Em, DaysInMonth_February in Hd. unfold InLeapYear in Hd. fold y in Hd.
      destruct (Z.eqb_spec (DaysInYear y) 366); [assumption | lia]. }
    pose proof (not_leap_after_leap y Hleap) as Hnext.
    assert (E : MakeDay (y + 1) m d = MakeDay (y + 1) 2 1).
    { unfold MakeDay. rewrite Em, Ed.
      change (1 / 12) with 0. change (1 mod 12) with 1.
      change (2 / 12) with 0. change (2 mod 12) with 2.
      rewrite Z.add_0_r, Hnext. change (365 =? 366) with false.
      days_before_month. lia. }
    unfold t'. rewrite E.
    destruct (fields_of_MakeDate (y + 1) 2 1 tod) as (H1 & H2 & H3 & H4);
      [lia | rewrite Hnext; change (365 =? 366) with false; unfold DaysInMonth;
             change (2 + 1) with 3; days_before_month; lia | assumption |]. tauto.
  - assert (Hd' : 1 <= d <= DaysInMonth (DaysInYear (y + 1) =? 366) m).
    { rewrite Em, DaysInMonth_February in *.
      destruct (InLeapYear t), (DaysInYear (y + 1) =? 366); lia. }
    destruct (fields_of_MakeDate (y + 1) m d tod Hm Hd' Htod) as (H1 & H2 & H3 & H4).
    tauto.
  - assert (Hd' : 1 <= d <= DaysInMonth (DaysInYear (y + 1) =? 366) m).
    { rewrite (DaysInMonth_leap_only_February _ (InLeapYear t) m Hm Nm). exact Hd. }
    destruct (fields_of_MakeDate (y + 1) m d tod Hm Hd' Htod) as (H1 & H2 & H3 & H4).
    tauto.
Qed.

End DateFacts.

(* ================================================================== *)
(** * The record detail modal: warranty evaluator                      *)
(* ================================================================== *)

Module WarrantyFacts.
Import Js JsDate Detail DateFacts.
Local Open Scope bool_scope.
Local Open Scope Z_scope.

Lemma TimeClip_Num (t d : Z) : TimeClip t = Num d -> t = d /\ TimeClip d = Num d.
Proof.
  unfold TimeClip. destruct (8640000000000000 <? Z.abs t) eqn:E; [discriminate|].
  intros [= <-]. now rewrite E.
Qed.

(** A Date built from a valid Date has the same time value. *)
Lemma new_Date_valid (tv : Number) (d : Z) :
  new_Date tv = Num d -> new_Date (getTime (new_Date tv)) = Num d.
Proof.
  intros H. rewrite H. destruct tv as [|t]; [discriminate|].
  simpl in *. now apply TimeClip_Num in H.
Qed.

(** [Math.ceil(x / d)] is the least integer [n] with [x <= d * n]. *)
Lemma ceil_div_spec (x d : Z) :
  0 < d -> exists n, ceil_div (Num x) d = Num n /\ d * (n - 1) < x <= d * n.
Proof.
  intros Hd. exists (- (- x / d)). split; [reflexivity|].
  Z.div_mod_to_equations. nia.
Qed.

Section Host.

Variable Date_parse : string -> Number.
Variable LocalTime : Z -> Z.
Variable UTC : Z -> Z.

(** Lines 66 to 68 on a delivery string that parses to [d]. *)
Lemma expiry_of_valid (s : string) (d : Z) :
  new_Date (Date_parse s) = Num d ->
  expiry_of Date_parse LocalTime UTC s
  = TimeClip (UTC (with_year (LocalTime d) (YearFromTime (LocalTime d) + 1))).
Proof.
  intros H. unfold expiry_of. rewrite (new_Date_valid _ _ H). reflexivity.
Qed.

(** Lines 66 to 68 on a delivery string that does not parse. *)
Lemma expiry_of_invalid (s : string) :
  new_Date (Date_parse s) = NaN -> expiry_of Date_parse LocalTime UTC s = NaN.
Proof.
  intros H. unfold expiry_of. rewrite H. reflexivity.
Qed.

(** With a delivery date present, the evaluator reads the clock once and
    returns the classification of the day count. *)
Lemma run_calculateWarrantyStatus (r : SaleRecord) (w : World) :
  falsy (date_of_delivery r) = false ->
  run (calculateWarrantyStatus Date_parse LocalTime UTC r) w
  = (Returned
       (classify (expiry_of Date_parse LocalTime UTC (string_of (date_of_delivery r)))
          (days_between (expiry_of Date_parse LocalTime UTC (string_of (date_of_delivery r)))
                        (clock w))),
     w).
Proof.
  intros H. unfold calculateWarrantyStatus. rewrite H. reflexivity.
Qed.

(** Without a delivery date the evaluator returns at line 64. *)
Lemma run_calculateWarrantyStatus_absent (r : SaleRecord) (w : World) :
  falsy (date_of_delivery r) = true ->
  run (calculateWarrantyStatus Date_parse LocalTime UTC r) w
  = (Returned {| status := out_of_warranty; expiry := None; daysRemaining := Num 0 |}, w).
Proof.
  intros H. unfold calculateWarrantyStatus. rewrite H. reflexivity.
Qed.

End Host.

(** The three [return]s, by the day count. *)
Lemma classify_by_days (exp : Date) (n : Z) :
  expiry (classify exp (Num n)) = Some exp /\
  (n < 0 -> status (classify exp (Num n)) = out_of_warranty /\
            daysRemaining (classify exp (Num n)) = Num (Z.abs n)) /\
  (0 <= n <= 30 -> status (classify exp (Num n)) = expiring_soon /\
                   daysRemaining (classify exp (Num n)) = Num n) /\
  (30 < n -> status (classify exp (Num n)) = in_warranty /\
             daysRemaining (classify exp (Num n)) = Num n).
Proof.
  unfold classify, ltb, leb.
  destruct (Z.ltb_spec n 0); [|destruct (Z.leb_spec n 30)]; simpl;
    (split; [reflexivity|]); repeat split; intros; try lia; reflexivity.
Qed.

Lemma classify_expiry (exp : Date) (days : Number) :
  expiry (classify exp days) = Some exp.
Proof.
  unfold classify. destruct (ltb days (Num 0)), (leb days (Num 30)); reflexivity.
Qed.

End WarrantyFacts.

Module WarrantyClaims.
Import Js JsDate Detail DateFacts WarrantyFacts Scenario.
Local Open Scope bool_scope.
Local Open Scope Z_scope.

(** C1: for every record whose delivery date parses (to the time value
    [d]) and every reading of the clock, the evaluator returns, without
    changing the world:
    - as expiry the delivery date with the year incremented by one:
      [setFullYear] puts together, in local time, the year plus one, the
      month, the day and the time of day of the delivery (29 February
      becoming 1 March), and converts back;
    - as day count the ceiling of (expiry - now) / 86400000;
    - the status by that day count [n]: out_of_warranty with |n|
      reported when n < 0, expiring_soon when 0 <= n <= 30, in_warranty
      when n > 30; so 30 is expiring_soon, 31 in_warranty, 0
      expiring_soon and -1 out_of_warranty. *)
Theorem warranty_classification
    (Date_parse : string -> Number) (LocalTime UTC : Z -> Z)
    (r : SaleRecord) (d : Z) (w : World) :
  falsy (date_of_delivery r) = false ->
  new_Date (Date_parse (string_of (date_of_delivery r))) = Num d ->
  let local := LocalTime d in
  let local_expiry := with_year local (YearFromTime local + 1) in
  let exp := TimeClip (UTC local_expiry) in
  let days := ceil_div (sub exp (Num (clock w))) msPerDay in
  (YearFromTime local_expiry = YearFromTime local + 1 /\
   TimeWithinDay local_expiry = TimeWithinDay local /\
   if (MonthFromTime local =? 1) && (DateFromTime local =? 29)
   then MonthFromTime local_expiry = 2 /\ DateFromTime local_expiry = 1
   else MonthFromTime local_expiry = MonthFromTime local /\
        DateFromTime local_expiry = DateFromTime local) /\
  (forall e, exp = Num e ->
     exists n, days = Num n /\
               msPerDay * (n - 1) < e - clock w <= msPerDay * n) /\
  exists res,
    run (calculateWarrantyStatus Date_parse LocalTime UTC r) w = (Returned res, w) /\
    expiry res = Some exp /\
    (forall n, days = Num n ->
       (n < 0 -> status res = out_of_warranty /\ daysRemaining res = Num (Z.abs n)) /\
       (0 <= n <= 30 -> status res = expiring_soon /\ daysRemaining res = Num n) /\
       (30 < n -> status res = in_warranty /\ daysRemaining res = Num n)) /\
    (days = Num 30 -> status res = expiring_soon) /\
    (days = Num 31 -> status res = in_warranty) /\
    (days = Num 0 -> status res = expiring_soon) /\
    (days = Num (-1) -> status res = out_of_warranty).
Proof.
  intros Hpresent Hparse local local_expiry exp days.
  split; [apply with_year_next|]. split.
  - intros e He. unfold days. rewrite He. cbn [sub].
    apply ceil_div_spec. reflexivity.
  - eexists. split; [apply run_calculateWarrantyStatus; exact Hpresent|].
    rewrite (expiry_of_valid Date_parse LocalTime UTC _ d Hparse).
    fold local. fold local_expiry. fold exp.
    change (days_between exp (clock w)) with days.
    split; [apply classify_expiry|].
    assert (C : forall n, days = Num n ->
              (n < 0 -> status (classify exp days) = out_of_warranty /\
                        daysRemaining (classify exp days) = Num (Z.abs n)) /\
              (0 <= n <= 30 -> status (classify exp days) = expiring_soon /\
                               daysRemaining (classify exp days) = Num n) /\
              (30 < n -> status (classify exp days) = in_warranty /\
                         daysRemaining (classify exp days) = Num n)).
    { intros n ->. apply classify_by_days. }
    split; [exact C|].
    repeat split; intros E; apply (C _ E); lia.
Qed.

(** C1 at the sale of 29 February 2024, seen on 31 March 2025 in UTC:
    the warranty ran out on 1 March 2025, 30 days before. *)
Lemma leap_day_sale_expired_30_days_ago :
  exists res,
    run (calculateWarrantyStatus parse_iso_date utc_zone utc_zone leap_day_sale)
        (modal (first_of_march_2025 + 30 * msPerDay) backend_up leap_day_sale [])
    = (Returned res,
       modal (first_of_march_2025 + 30 * msPerDay) backend_up leap_day_sale []) /\
    status res = out_of_warranty /\
    daysRemaining res = Num 30 /\
    expiry res = Some (Num first_of_march_2025).
Proof.
  destruct (warranty_classification parse_iso_date utc_zone utc_zone leap_day_sale
              1709164800000
              (modal (first_of_march_2025 + 30 * msPerDay) backend_up leap_day_sale [])
              eq_refl eq_refl)
    as (_ & _ & res & Hrun & Hexp & Hcls & _).
  exists res. split; [exact Hrun|].
  destruct (Hcls (-30) ltac:(vm_compute; reflexivity)) as [Hout _].
  destruct (Hout ltac:(lia)) as [Hs Hd].
  split; [exact Hs|]. split; [exact Hd | exact Hexp].
Defined.

(** C4, as the code has it: when the delivery date is absent ([null],
    [undefined] or the empty string) the evaluator returns, without
    throwing and without changing anything, the status out_of_warranty
    with a [null] expiry and a day count of 0. *)
Theorem absent_delivery_date_is_out_of_warranty
    (Date_parse : string -> Number) (LocalTime UTC : Z -> Z)
    (r : SaleRecord) (w : World) :
  falsy (date_of_delivery r) = true ->
  run (calculateWarrantyStatus Date_parse LocalTime UTC r) w
  = (Returned {| status := out_of_warranty; expiry := None; daysRemaining := Num 0 |}, w).
Proof.
  apply run_calculateWarrantyStatus_absent.
Qed.

(** C4 at a record without delivery date. *)
Lemma undated_sale_is_out_of_warranty :
  run (calculateWarrantyStatus parse_iso_date utc_zone utc_zone undated_sale)
      (modal first_of_march_2025 backend_up undated_sale [])
  = (Returned {| status := out_of_warranty; expiry := None; daysRemaining := Num 0 |},
     modal first_of_march_2025 backend_up undated_sale []).
Proof.
  apply (absent_delivery_date_is_out_of_warranty parse_iso_date utc_zone utc_zone
           undated_sale (modal first_of_march_2025 backend_up undated_sale [])).
  reflexivity.
Defined.

(** C4, as stated, fails: a record without delivery date is classified,
    as out_of_warranty. *)
Lemma undated_sale_is_classified : ~ no_warranty_data_without_date.
Proof.
  intros H.
  destruct (H undated_sale (modal first_of_march_2025 backend_up undated_sale [])
              (or_introl eq_refl)) as [Hc _].
  apply Hc. eexists. split; [reflexivity|]. left. reflexivity.
Qed.

(** A delivery string that does not parse gives an Invalid Date, a day
    count of [NaN], which fails both comparisons, and so the last
    [return]: in_warranty. *)
Lemma unparseable_delivery_date_is_in_warranty
    (Date_parse : string -> Number) (LocalTime UTC : Z -> Z)
    (r : SaleRecord) (w : World) :
  falsy (date_of_delivery r) = false ->
  new_Date (Date_parse (string_of (date_of_delivery r))) = NaN ->
  run (calculateWarrantyStatus Date_parse LocalTime UTC r) w
  = (Returned {| status := in_warranty; expiry := Some NaN; daysRemaining := NaN |}, w).
Proof.
  intros Hpresent Hparse.
  rewrite (run_calculateWarrantyStatus _ _ _ _ _ Hpresent).
  rewrite (expiry_of_invalid _ _ _ _ Hparse). reflexivity.
Qed.

(** The record dated "next week" of the samples: in_warranty, with an
    Invalid Date as expiry. *)
Lemma misdated_sale_is_in_warranty :
  fst (evaluate misdated_sale [] (modal first_of_march_2025 backend_up misdated_sale []))
  = Returned {| status := in_warranty; expiry := Some NaN; daysRemaining := NaN |}.
Proof. reflexivity. Qed.

(** C6, as the code has it: the evaluator takes no argument and reads
    the current time from the system clock.  Its result is determined
    by the delivery date of the record and the reading of the clock,
    whatever the other fields of the record, the arguments of the call
    and the rest of the world; it always returns, and it changes
    nothing. *)
Theorem warranty_depends_on_delivery_date_and_clock
    (Date_parse : string -> Number) (LocalTime UTC : Z -> Z)
    (r r' : SaleRecord) (arguments arguments' : list Number) (w w' : World) :
  date_of_delivery r = date_of_delivery r' ->
  clock w = clock w' ->
  fst (run (call_calculateWarrantyStatus Date_parse LocalTime UTC r arguments) w)
  = fst (run (call_calculateWarrantyStatus Date_parse LocalTime UTC r' arguments') w') /\
  snd (run (call_calculateWarrantyStatus Date_parse LocalTime UTC r arguments) w) = w /\
  exists res,
    fst (run (call_calculateWarrantyStatus Date_parse LocalTime UTC r arguments) w)
    = Returned res.
Proof.
  intros Hd Hc. unfold call_calculateWarrantyStatus.
  destruct (falsy (date_of_delivery r)) eqn:E.
  - rewrite (run_calculateWarrantyStatus_absent _ _ _ r w E).
    rewrite Hd in E.
    rewrite (run_calculateWarrantyStatus_absent _ _ _ r' w' E).
    repeat split. eexists. reflexivity.
  - rewrite (run_calculateWarrantyStatus _ _ _ r w E).
    rewrite Hd in E.
    rewrite (run_calculateWarrantyStatus _ _ _ r' w' E).
    rewrite Hd, Hc. repeat split. eexists. reflexivity.
Qed.

(** C6 at two records of one delivery date, evaluated at the same clock
    reading in two different worlds, with different arguments. *)
Lemma same_date_same_clock_same_warranty :
  fst (evaluate leap_day_sale [] (modal first_of_march_2025 backend_up leap_day_sale []))
  = fst (evaluate walk_in_sale [Num 0]
           (modal first_of_march_2025 backend_down walk_in_sale history)).
Proof.
  apply (warranty_depends_on_delivery_date_and_clock parse_iso_date utc_zone utc_zone
           leap_day_sale walk_in_sale [] [Num 0]
           (modal first_of_march_2025 backend_up leap_day_sale [])
           (modal first_of_march_2025 backend_down walk_in_sale history));
    reflexivity.
Defined.

(** C6, as stated, fails: the time a caller supplies is dropped.  Two
    calls for the same record with the same supplied time, made while
    the system clock shows 1 March 2025 and 1 May 2025, give
    expiring_soon and out_of_warranty. *)
Lemma supplied_now_is_ignored : ~ now_is_injectable.
Proof.
  intros H.
  specialize (H leap_day_sale leap_day_sale (Num first_of_march_2025)
                (modal first_of_march_2025 backend_up leap_day_sale [])
                (modal (first_of_march_2025 + 61 * msPerDay) backend_up leap_day_sale [])
                eq_refl).
  vm_compute in H. discriminate H.
Qed.

End WarrantyClaims.

(* ================================================================== *)
(** * The record detail modal: history resolver                        *)
(* ================================================================== *)

Module ResolverClaims.
Import Js Detail Scenario.
Local Open Scope Z_scope.

(** C8: when the current record has no phone, the history resolver
    empties the history list and returns at once: no request is sent,
    nothing is logged and nothing else changes.  When the record has a
    phone and the history request fails, the resolver catches the
    failure: it returns normally, with the error logged on the console,
    the history list empty and the loading flag down. *)
Theorem fetchRelatedRecords_contract (r : SaleRecord) (w : World) :
  (falsy (client_phone r) = true ->
   run (fetchRelatedRecords r) w
   = (Returned tt,
      mkWorld (clock w) (network w) [] (loading w) (currentRecord w) (events w))) /\
  (forall error,
     falsy (client_phone r) = false ->
     network w _ (history_request r) = Rejected error ->
     run (fetchRelatedRecords r) w
     = (Returned tt,
        mkWorld (clock w) (network w) [] false (currentRecord w)
                (events w ++ [EvApiGet (history_request r);
                              EvConsoleError "Error fetching related records:" error]))) /\
  (forall records,
     falsy (client_phone r) = false ->
     network w _ (history_request r) = Resolved records ->
     run (fetchRelatedRecords r) w
     = (Returned tt,
        mkWorld (clock w) (network w) records false (currentRecord w)
                (events w ++ [EvApiGet (history_request r)]))).
Proof.
  unfold fetchRelatedRecords. split; [|split].
  - intros H. rewrite H. reflexivity.
  - intros error H N. rewrite H. simpl. rewrite N. simpl. unfold emit. simpl.
    rewrite <- ?app_assoc. reflexivity.
  - intros records H N. rewrite H. simpl. rewrite N. reflexivity.
Qed.

(** The history fetch of the specification's scenario: phone 555-1234,
    excluding record 7, three records back. *)
Lemma history_of_555_1234 :
  run (fetchRelatedRecords leap_day_sale) (modal 0 backend_up leap_day_sale [])
  = (Returned tt,
     mkWorld 0 backend_up history false leap_day_sale
             [EvApiGet (GetHistory "555-1234" 7 10)]).
Proof. reflexivity. Qed.

(** C9: when the detail request for the clicked record succeeds, the
    record on display becomes the record fetched and the history list
    is emptied; when it fails, the record on display and the history
    list stay, the error is logged, and [onEdit] is called with the id
    of the clicked record, followed by [onClose]. *)
Theorem handleViewRelatedRecord_contract (relatedRecord : SaleRecord) (w : World) :
  (forall data,
     network w _ (GetRecord (id relatedRecord)) = Resolved data ->
     run (handleViewRelatedRecord relatedRecord) w
     = (Returned tt,
        mkWorld (clock w) (network w) [] (loading w) data
                (events w ++ [EvApiGet (GetRecord (id relatedRecord))]))) /\
  (forall error,
     network w _ (GetRecord (id relatedRecord)) = Rejected error ->
     run (handleViewRelatedRecord relatedRecord) w
     = (Returned tt,
        mkWorld (clock w) (network w) (relatedRecords w) (loading w) (currentRecord w)
                (events w ++ [EvApiGet (GetRecord (id relatedRecord));
                              EvConsoleError "Error fetching record:" error;
                              EvOnEdit (id relatedRecord);
                              EvOnClose]))).
Proof.
  unfold handleViewRelatedRecord. split.
  - intros data N. simpl. rewrite N. reflexivity.
  - intros error N. simpl. rewrite N. simpl. unfold emit. simpl.
    rewrite <- ?app_assoc. reflexivity.
Qed.

(** Switching to one of the three history records of the scenario. *)
Lemma switch_to_history_record :
  run (handleViewRelatedRecord (earlier 4)) (modal 0 backend_up leap_day_sale history)
  = (Returned tt,
     mkWorld 0 backend_up [] false (earlier 4) [EvApiGet (GetRecord 4)]).
Proof. reflexivity. Qed.

End ResolverClaims.

(* ================================================================== *)
(** * More on the view-model builder                                   *)
(* ================================================================== *)

Module BuilderExtras.
Import Js Summary Spec JsFacts BreakdownFacts MonthlyFacts.

Lemma in_firstn {A} (n : nat) (l : list A) (x : A) : In x (firstn n l) -> In x l.
Proof.
  intros H. rewrite <- (firstn_skipn n l). apply in_or_app. now left.
Qed.

Lemma in_skipn {A} (n : nat) (l : list A) (x : A) : In x (skipn n l) -> In x l.
Proof.
  intros H. rewrite <- (firstn_skipn n l). apply in_or_app. now right.
Qed.

(** In a list sorted by descending revenue, no row among the first [n]
    has less revenue than a row after them. *)
Lemma sorted_prefix_dominates (n : nat) (l : list ChartRow) (r r' : ChartRow) :
  StronglySorted (fun a b => amount a >= amount b) l ->
  In r (firstn n l) -> In r' (skipn n l) -> amount r >= amount r'.
Proof.
  intros S. revert n. induction S as [|x l S IH F]; intros n Hr Hr'.
  - destruct n; simpl in Hr; contradiction.
  - destruct n as [|n]; [simpl in Hr; contradiction|].
    simpl in Hr, Hr'. destruct Hr as [<-|Hr].
    + rewrite Forall_forall in F. apply F.
      apply (in_skipn _ _ _ Hr').
    + exact (IH n Hr Hr').
Qed.

Lemma top_rows_length (n : nat) (counts revenues : JsObject Z) :
  List.length (Array_slice0 n (sorted_rows counts revenues))
    = Nat.min n (List.length counts).
Proof.
  unfold Array_slice0. rewrite length_firstn, sorted_rows_length. reflexivity.
Qed.

Lemma top_rows_of_sorted (n : nat) (counts revenues : JsObject Z) :
  reads_own counts revenues = true ->
  forall r r', In r (Array_slice0 n (sorted_rows counts revenues)) ->
               In r' (skipn n (sorted_rows counts revenues)) ->
               exists x y, revenue r = Numeric x /\ revenue r' = Numeric y /\ x >= y.
Proof.
  intros H r r' Hr Hr'. unfold Array_slice0 in Hr.
  destruct (sorted_rows_stable_sort counts revenues H) as (_ & N & S & _).
  rewrite Forall_forall in N.
  destruct (N r (in_firstn _ _ _ Hr)) as [x Ex].
  destruct (N r' (in_skipn _ _ _ Hr')) as [y Ey].
  exists x, y. split; [exact Ex|]. split; [exact Ey|].
  pose proof (sorted_prefix_dominates n _ r r' S Hr Hr') as D.
  unfold amount in D. now rewrite Ex, Ey in D.
Qed.

(** X1: the zone breakdown has min(10, number of zones) rows and the
    lead-source breakdown min(8, number of lead sources), and the rows
    that the truncation drops are the sorted rows after the tenth
    (eighth).  When no zone (lead source) without a revenue entry is
    named like a member of [Object.prototype], every revenue is a number
    and no dropped row has more revenue than a row that is kept. *)
Theorem truncation_keeps_highest_revenue (s : SalesSummary) :
  (List.length (prepareZoneData (Some s)) = Nat.min 10 (List.length (by_zone s)) /\
   zone_rows s = prepareZoneData (Some s) ++ skipn 10 (zone_rows s) /\
   (reads_own (by_zone s) (by_zone_revenue s) = true ->
    forall kept dropped,
      In kept (prepareZoneData (Some s)) -> In dropped (skipn 10 (zone_rows s)) ->
      exists x y, revenue kept = Numeric x /\ revenue dropped = Numeric y /\ x >= y)) /\
  (List.length (prepareLeadSourceData (Some s))
     = Nat.min 8 (List.length (by_lead_source s)) /\
   lead_source_rows s = prepareLeadSourceData (Some s) ++ skipn 8 (lead_source_rows s) /\
   (reads_own (by_lead_source s) (by_lead_source_revenue s) = true ->
    forall kept dropped,
      In kept (prepareLeadSourceData (Some s)) ->
      In dropped (skipn 8 (lead_source_rows s)) ->
      exists x y, revenue kept = Numeric x /\ revenue dropped = Numeric y /\ x >= y)).
Proof.
  split.
  - split; [apply top_rows_length|]. split; [symmetry; apply firstn_skipn|].
    intros H. exact (top_rows_of_sorted 10 _ _ H).
  - split; [apply top_rows_length|]. split; [symmetry; apply firstn_skipn|].
    intros H. exact (top_rows_of_sorted 8 _ _ H).
Qed.

(** X1 at eleven zones of which the last has revenue -1: that zone is
    dropped, and the first zone, with revenue 0, is kept. *)
Lemma eleventh_zone_is_dropped :
  List.length (prepareZoneData (Some negative_revenue)) = 10%nat /\
  exists x y, Numeric 0 = Numeric x /\ Numeric (-1) = Numeric y /\ x >= y.
Proof.
  destruct (truncation_keeps_highest_revenue negative_revenue) as ((Hl & _ & Hd) & _).
  split; [exact Hl|].
  apply (Hd eq_refl (mkChartRow "Z01" 1 (Numeric 0)) (mkChartRow "Z11" 1 (Numeric (-1)))).
  - simpl. left. reflexivity.
  - simpl. left. reflexivity.
Defined.

(** In a well-formed object an entry is what a lookup finds. *)
Lemma get_of_entry {V} (o : JsObject V) (k : string) (v : V) :
  wf_object o -> In (k, v) o -> get o k = Some v.
Proof.
  unfold wf_object, keys. induction o as [|[k' v'] o IH]; simpl; [contradiction|].
  intros Hnd [E|Hin]; inversion Hnd as [|? ? Hk Hnd']; subst.
  - injection E as -> ->. now rewrite String.eqb_refl.
  - destruct (String.eqb_spec k' k) as [->|_].
    + exfalso. apply Hk. change k with (fst (k, v)). now apply in_map.
    + now apply IH.
Qed.

(** X2: every row of the zone, lead-source and sold-by breakdowns,
    truncated or not, carries the count that the counts mapping has for
    the row's key, and as revenue the value that the revenue mapping has
    for that key; when the revenue mapping has none, the revenue is 0,
    unless the key is the name of a member of [Object.prototype]: then
    the row carries that member, which is no number. *)
Theorem breakdown_rows_carry_their_own_figures (s : SalesSummary) (r : ChartRow) :
  (In r (prepareZoneData (Some s)) ->
   In (key r, count r) (by_zone s) /\
   (wf_object (by_zone s) -> get (by_zone s) (key r) = Some (count r)) /\
   revenue r = match get (by_zone_revenue s) (key r) with
               | Some v => Numeric v
               | None => if Object_prototype_has (key r) then Builtin (key r) else Numeric 0
               end) /\
  (In r (prepareLeadSourceData (Some s)) ->
   In (key r, count r) (by_lead_source s) /\
   (wf_object (by_lead_source s) -> get (by_lead_source s) (key r) = Some (count r)) /\
   revenue r = match get (by_lead_source_revenue s) (key r) with
               | Some v => Numeric v
               | None => if Object_prototype_has (key r) then Builtin (key r) else Numeric 0
               end) /\
  (In r (prepareSoldByData (Some s)) ->
   In (key r, count r) (by_sold_by s) /\
   (wf_object (by_sold_by s) -> get (by_sold_by s) (key r) = Some (count r)) /\
   revenue r = match get (by_sold_by_revenue s) (key r) with
               | Some v => Numeric v
               | None => if Object_prototype_has (key r) then Builtin (key r) else Numeric 0
               end).
Proof.
  assert (H : forall counts revenues : JsObject Z,
             In r (sorted_rows counts revenues) ->
             In (key r, count r) counts /\
             (wf_object counts -> get counts (key r) = Some (count r)) /\
             revenue r = match get revenues (key r) with
                         | Some v => Numeric v
                         | None => if Object_prototype_has (key r)
                                   then Builtin (key r) else Numeric 0
                         end).
  { intros counts revenues Hin.
    destruct (sorted_row_figures counts revenues r Hin) as [He Hr].
    split; [exact He|]. split; [|now rewrite Hr, or_0_Get].
    intros Hwf. now apply get_of_entry. }
  split; [|split].
  - intros Hin. apply H. exact (in_firstn 10 _ r Hin).
  - intros Hin. apply H. exact (in_firstn 8 _ r Hin).
  - intros Hin. apply H. exact Hin.
Qed.

(** X20: for a breakdown in which no counted key without a revenue
    entry is named like a member of [Object.prototype], the rows are the
    join of the counts mapping with the revenue mapping by key, with
    revenue 0 for a key the revenue mapping lacks, sorted by descending
    revenue, rows of equal revenue keeping the encounter order of their
    keys, and no other list of rows is such a sort of the join; the zone
    breakdown is the first 10 of these rows, the lead-source breakdown
    the first 8, and the sold-by breakdown all of them. *)
Theorem category_breakdown_join_sort_truncate (s : SalesSummary) :
  (reads_own (by_zone s) (by_zone_revenue s) = true ->
   join_rows (by_zone s) (by_zone_revenue s) = joined (by_zone s) (by_zone_revenue s) /\
   stable_desc_sort_of (joined (by_zone s) (by_zone_revenue s)) (zone_rows s) /\
   (forall out, stable_desc_sort_of (joined (by_zone s) (by_zone_revenue s)) out ->
                out = zone_rows s) /\
   prepareZoneData (Some s) = firstn 10 (zone_rows s)) /\
  (reads_own (by_lead_source s) (by_lead_source_revenue s) = true ->
   join_rows (by_lead_source s) (by_lead_source_revenue s)
     = joined (by_lead_source s) (by_lead_source_revenue s) /\
   stable_desc_sort_of (joined (by_lead_source s) (by_lead_source_revenue s))
                       (lead_source_rows s) /\
   (forall out, stable_desc_sort_of (joined (by_lead_source s) (by_lead_source_revenue s)) out ->
                out = lead_source_rows s) /\
   prepareLeadSourceData (Some s) = firstn 8 (lead_source_rows s)) /\
  (reads_own (by_sold_by s) (by_sold_by_revenue s) = true ->
   join_rows (by_sold_by s) (by_sold_by_revenue s)
     = joined (by_sold_by s) (by_sold_by_revenue s) /\
   stable_desc_sort_of (joined (by_sold_by s) (by_sold_by_revenue s))
                       (prepareSoldByData (Some s)) /\
   (forall out, stable_desc_sort_of (joined (by_sold_by s) (by_sold_by_revenue s)) out ->
                out = prepareSoldByData (Some s)) /\
   List.length (prepareSoldByData (Some s)) = List.length (by_sold_by s)).
Proof.
  assert (Honly : forall (counts revenues : JsObject Z) out,
             reads_own counts revenues = true ->
             stable_desc_sort_of (joined counts revenues) out ->
             out = sorted_rows counts revenues).
  { intros counts revenues out H Hout.
    exact (stable_desc_sort_unique _ _ _ Hout (sorted_rows_stable_sort counts revenues H)). }
  split; [|split]; intros H.
  - split; [now apply join_rows_eq|]. split; [now apply sorted_rows_stable_sort|].
    split; [|reflexivity]. intros out. now apply Honly.
  - split; [now apply join_rows_eq|]. split; [now apply sorted_rows_stable_sort|].
    split; [|reflexivity]. intros out. now apply Honly.
  - split; [now apply join_rows_eq|]. split; [now apply sorted_rows_stable_sort|].
    split; [|apply sorted_rows_length]. intros out. now apply Honly.
Qed.

(** X20 at zone counts A:5, B:10, C:3 with revenue A:100, B:50: the
    rows A(100), B(50), C(0). *)
Lemma zone_scenario_rows :
  stable_desc_sort_of
    (joined (by_zone zone_scenario) (by_zone_revenue zone_scenario))
    [mkChartRow "A" 5 (Numeric 100); mkChartRow "B" 10 (Numeric 50);
     mkChartRow "C" 3 (Numeric 0)] /\
  prepareZoneData (Some zone_scenario)
  = [mkChartRow "A" 5 (Numeric 100); mkChartRow "B" 10 (Numeric 50);
     mkChartRow "C" 3 (Numeric 0)].
Proof.
  destruct (category_breakdown_join_sort_truncate zone_scenario) as (Hz & _ & _).
  destruct (Hz eq_refl) as (_ & Hs & _ & Ht).
  split; [exact Hs | exact Ht].
Defined.

(** With unique month keys, [find] on a series returns the item of the
    month asked for. *)
Lemma find_month_unique (s : SalesSummary) (field : SalesSummary -> list MonthlyItem)
    (a : MonthlyItem) :
  NoDup (months (field s)) -> In a (field s) ->
  find_month (Some s) field (mi_month a) = Some a.
Proof.
  unfold find_month, Array_find, months.
  induction (field s) as [|x l IH]; simpl; [contradiction|].
  intros Hnd Hin. inversion Hnd as [|? ? Hx Hnd']; subst.
  destruct (String.eqb_spec (mi_month x) (mi_month a)) as [E|N].
  - destruct Hin as [->|Hin]; [reflexivity|].
    exfalso. apply Hx. rewrite E. now apply in_map.
  - destruct Hin as [->|Hin]; [congruence|]. now apply IH.
Qed.

(** X3: when the month keys of the actual series are unique and those
    of the projected series are unique, every row of the merged monthly
    series carries, for its month, the count and revenue of the actual
    item of that month (0 and 0 when the actual series has no such
    month) and the count and revenue of the projected item of that month
    (0 and 0 when there is none); it is flagged as projected exactly
    when its month is a key of the projected series, also when the row
    stems from the actual series. *)
Theorem merged_row_figures (formatMonth : string -> string) (s : SalesSummary)
    (row : MonthlyRow) :
  NoDup (months (monthly_trends s)) ->
  NoDup (months (projected_sales s)) ->
  In row (prepareMonthlyData formatMonth (Some s)) ->
  (forall a, In a (monthly_trends s) -> mi_month a = monthKey row ->
             actualCount row = mi_count a /\ actualRevenue row = mi_revenue a) /\
  (~ In (monthKey row) (months (monthly_trends s)) ->
   actualCount row = 0 /\ actualRevenue row = 0) /\
  (forall p, In p (projected_sales s) -> mi_month p = monthKey row ->
             projectedCount row = mi_count p /\ projectedRevenue row = mi_revenue p) /\
  (~ In (monthKey row) (months (projected_sales s)) ->
   projectedCount row = 0 /\ projectedRevenue row = 0) /\
  (isProjected row = true <-> In (monthKey row) (months (projected_sales s))) /\
  month row = formatMonth (monthKey row).
Proof.
  intros Ha Hp Hin. unfold prepareMonthlyData in Hin.
  apply in_map_iff in Hin. destruct Hin as (item & <- & _).
  split; [|split; [|split; [|split; [|split]]]].
  - intros a Hin E. cbn [monthKey monthly_row] in E. unfold monthly_row.
    cbn [actualCount actualRevenue]. rewrite <- E.
    rewrite (find_month_unique s monthly_trends a Ha Hin). cbn [option_map].
    now rewrite !or_zero_Some.
  - intros Hn. cbn [monthKey monthly_row] in Hn. unfold monthly_row.
    cbn [actualCount actualRevenue].
    rewrite (proj2 (find_month_None s monthly_trends _) Hn). split; reflexivity.
  - intros p Hin E. cbn [monthKey monthly_row] in E. unfold monthly_row.
    cbn [projectedCount projectedRevenue]. rewrite <- E.
    rewrite (find_month_unique s projected_sales p Hp Hin). cbn [option_map].
    now rewrite !or_zero_Some.
  - intros Hn. cbn [monthKey monthly_row] in Hn. unfold monthly_row.
    cbn [projectedCount projectedRevenue].
    rewrite (proj2 (find_month_None s projected_sales _) Hn). split; reflexivity.
  - apply isProjected_iff.
  - reflexivity.
Qed.

(** X3 at the payload whose actual and projected series share January
    2025, for the row of that month: it carries the projected figures
    5 and 500 of the projected item. *)
Lemma boundary_row_figures :
  (forall p, In p (projected_sales boundary_month) -> mi_month p = "2025-01" ->
             5 = mi_count p /\ 500 = mi_revenue p) /\
  (true = true <-> In "2025-01" (months (projected_sales boundary_month))).
Proof.
  destruct (merged_row_figures label_is_key boundary_month
              (mkMonthlyRow "2025-01" "2025-01" 2 5 150 500 true))
    as (_ & _ & Hp & _ & Hflag & _).
  - unfold months. simpl. repeat (constructor; [simpl; intuition discriminate|]). constructor.
  - unfold months. simpl. repeat (constructor; [simpl; intuition discriminate|]). constructor.
  - simpl. right. left. reflexivity.
  - split; [exact Hp | exact Hflag].
Defined.

End BuilderExtras.

(* ================================================================== *)
(** * More on the warranty evaluator                                   *)
(* ================================================================== *)

Module WarrantyExtras.
Import Js JsDate Detail DateFacts WarrantyFacts Scenario Lifecycle.
Local Open Scope bool_scope.
Local Open Scope Z_scope.

(** The day count between a valid expiry and the clock. *)
Lemma days_between_spec (e now : Z) :
  exists n, days_between (Num e) now = Num n /\
            msPerDay * (n - 1) < e - now <= msPerDay * n.
Proof.
  unfold days_between, getTime. cbn [sub]. apply ceil_div_spec. reflexivity.
Qed.



(** The stage of a classification, by the day count. *)
Lemma stage_of_classify (exp : Date) (n : Z) :
  stage (status (classify exp (Num n)))
  = if n <? 0 then 2 else if n <=? 30 then 1 else 0.
Proof.
  unfold classify, ltb, leb.
  destruct (n <? 0); [reflexivity|]. destruct (n <=? 30); reflexivity.
Qed.

(** A later clock gives a day count that is not greater. *)
Lemma days_between_antitone (e now1 now2 : Z) :
  now1 <= now2 ->
  exists n1 n2, days_between (Num e) now1 = Num n1 /\
                days_between (Num e) now2 = Num n2 /\ n2 <= n1.
Proof.
  intros H.
  destruct (days_between_spec e now1) as (n1 & E1 & B1).
  destruct (days_between_spec e now2) as (n2 & E2 & B2).
  exists n1, n2. split; [exact E1|]. split; [exact E2|].
  change msPerDay with 86400000 in *. lia.
Qed.

(** X5: as the clock advances, the warranty of a record never moves
    back: the expiry date stays, the status goes from in_warranty to
    expiring_soon to out_of_warranty and never the other way, and while
    the status stays in_warranty or expiring_soon the days remaining do
    not increase.  This holds for every record, dated or not. *)
Theorem warranty_never_goes_back
    (Date_parse : string -> Number) (LocalTime UTC : Z -> Z)
    (r : SaleRecord) (w1 w2 : World) :
  clock w1 <= clock w2 ->
  exists res1 res2,
    run (calculateWarrantyStatus Date_parse LocalTime UTC r) w1 = (Returned res1, w1) /\
    run (calculateWarrantyStatus Date_parse LocalTime UTC r) w2 = (Returned res2, w2) /\
    expiry res1 = expiry res2 /\
    stage (status res1) <= stage (status res2) /\
    (status res1 = status res2 -> status res1 <> out_of_warranty ->
     forall n1 n2, daysRemaining res1 = Num n1 -> daysRemaining res2 = Num n2 -> n2 <= n1).
Proof.
  intros Hclock.
  destruct (falsy (date_of_delivery r)) eqn:Hd.
  - rewrite !(run_calculateWarrantyStatus_absent _ _ _ r _ Hd).
    do 2 eexists. split; [reflexivity|]. split; [reflexivity|].
    cbn. split; [reflexivity|]. split; [lia|]. intros _ N. now contradiction N.
  - rewrite !(run_calculateWarrantyStatus _ _ _ r _ Hd).
    do 2 eexists. split; [reflexivity|]. split; [reflexivity|].
    rewrite !classify_expiry. split; [reflexivity|].
    destruct (expiry_of Date_parse LocalTime UTC (string_of (date_of_delivery r))) as [|e].
    + cbn. split; [lia|]. intros _ _ n1 n2 E. discriminate E.
    + destruct (days_between_antitone e _ _ Hclock) as (n1 & n2 & E1 & E2 & Hle).
      rewrite E1, E2, !stage_of_classify.
      split.
      * destruct (Z.ltb_spec n1 0), (Z.ltb_spec n2 0), (Z.leb_spec n1 30), (Z.leb_spec n2 30);
          lia.
      * unfold classify, ltb, leb.
        destruct (Z.ltb_spec n1 0), (Z.ltb_spec n2 0), (Z.leb_spec n1 30), (Z.leb_spec n2 30);
          cbn; intros Hs Hn m1 m2 M1 M2; try discriminate Hs; try (now contradiction Hn);
          injection M1 as <-; injection M2 as <-; lia.
Qed.

(** X5 at the sale of 29 February 2024, seen on 1 March 2025 and one day
    later. *)
Lemma leap_day_sale_a_day_later :
  exists res1 res2,
    run (calculateWarrantyStatus parse_iso_date utc_zone utc_zone leap_day_sale)
        (modal first_of_march_2025 backend_up leap_day_sale [])
    = (Returned res1, modal first_of_march_2025 backend_up leap_day_sale []) /\
    run (calculateWarrantyStatus parse_iso_date utc_zone utc_zone leap_day_sale)
        (modal (first_of_march_2025 + msPerDay) backend_up leap_day_sale [])
    = (Returned res2, modal (first_of_march_2025 + msPerDay) backend_up leap_day_sale []) /\
    stage (status res1) <= stage (status res2).
Proof.
  destruct (warranty_never_goes_back parse_iso_date utc_zone utc_zone leap_day_sale
              (modal first_of_march_2025 backend_up leap_day_sale [])
              (modal (first_of_march_2025 + msPerDay) backend_up leap_day_sale []))
    as (res1 & res2 & H1 & H2 & _ & Hs & _).
  - unfold first_of_march_2025, msPerDay. cbn [clock modal]. lia.
  - exists res1, res2. split; [exact H1|]. split; [exact H2 | exact Hs].
Defined.

(** The day number of a time value, from its calendar fields. *)
Lemma Day_from_fields (t : Z) :
  Day t = DayFromYear (YearFromTime t)
          + DaysBeforeMonth (InLeapYear t) (MonthFromTime t) + DateFromTime t - 1.
Proof.
  unfold DateFromTime, DayWithinYear. lia.
Qed.

Lemma DaysBeforeMonth_leap_shift (l l' : bool) (m : Z) :
  0 <= m <= 11 ->
  DaysBeforeMonth l' m - DaysBeforeMonth l m
  = if m <=? 1 then 0 else (if l' then 1 else 0) - (if l then 1 else 0).
Proof.
  intros Hm.
  assert (C : m = 0 \/ m = 1 \/ m = 2 \/ m = 3 \/ m = 4 \/ m = 5 \/ m = 6 \/ m = 7 \/
              m = 8 \/ m = 9 \/ m = 10 \/ m = 11) by lia.
  destruct l, l'; decompose [or] C; subst m; reflexivity.
Qed.

(** How much later the local time value is after [setFullYear(year + 1)]. *)
Lemma with_year_next_distance (t : Z) :
  with_year t (YearFromTime t + 1) - t
  = msPerDay * (if MonthFromTime t <=? 1 then DaysInYear (YearFromTime t)
                else DaysInYear (YearFromTime t + 1)).
Proof.
  destruct (fields_range t) as [Hm Hd].
  unfold with_year, MakeDate.
  assert (Ht : t = Day t * msPerDay + TimeWithinDay t).
  { unfold Day, TimeWithinDay, msPerDay. Z.div_mod_to_equations. lia. }
  assert (HM : MakeDay (YearFromTime t + 1) (MonthFromTime t) (DateFromTime t)
               = DayFromYear (YearFromTime t + 1)
                 + DaysBeforeMonth (DaysInYear (YearFromTime t + 1) =? 366) (MonthFromTime t)
                 + DateFromTime t - 1).
  { unfold MakeDay. rewrite Z.div_small, Z.mod_small, Z.add_0_r by lia. reflexivity. }
  pose proof (Day_from_fields t) as HD.
  pose proof (DaysBeforeMonth_leap_shift (InLeapYear t)
                (DaysInYear (YearFromTime t + 1) =? 366) (MonthFromTime t) Hm) as HS.
  pose proof (DayFromYear_succ (YearFromTime t)) as HY.
  pose proof (leap_flag (YearFromTime t)) as L1.
  pose proof (leap_flag (YearFromTime t + 1)) as L2.
  unfold InLeapYear in *.
  set (y := YearFromTime t) in *. set (m := MonthFromTime t) in *.
  set (dt := DateFromTime t) in *. set (tod := TimeWithinDay t) in *.
  set (D := Day t) in *.
  set (dy := DaysInYear y) in *. set (dy' := DaysInYear (y + 1)) in *.
  set (b := DaysBeforeMonth (dy =? 366) m) in *.
  set (b' := DaysBeforeMonth (dy' =? 366) m) in *.
  set (M := MakeDay (y + 1) m dt) in *.
  change msPerDay with 86400000 in *.
  destruct (m <=? 1), (dy =? 366), (dy' =? 366); nia.
Qed.

(** X6: on a host whose local time is UTC plus a fixed offset, a valid
    expiry date lies 365 or 366 whole days after the delivery date: as
    many days as the delivery year has when the delivery is in January
    or February, and as many as the following year has otherwise. *)
Theorem warranty_window
    (Date_parse : string -> Number) (LocalTime UTC : Z -> Z) (offset : Z)
    (s : string) (d e : Z) :
  fixed_offset offset LocalTime UTC ->
  new_Date (Date_parse s) = Num d ->
  expiry_of Date_parse LocalTime UTC s = Num e ->
  e - d = msPerDay * (if MonthFromTime (LocalTime d) <=? 1
                      then DaysInYear (YearFromTime (LocalTime d))
                      else DaysInYear (YearFromTime (LocalTime d) + 1)) /\
  (e - d = 365 * msPerDay \/ e - d = 366 * msPerDay).
Proof.
  intros [HL HU] Hd He.
  rewrite (expiry_of_valid _ _ _ _ _ Hd) in He.
  apply TimeClip_Num in He. destruct He as [He _].
  rewrite HU in He.
  pose proof (with_year_next_distance (LocalTime d)) as W.
  assert (E : e - d = with_year (LocalTime d) (YearFromTime (LocalTime d) + 1) - LocalTime d).
  { rewrite <- He, (HL d). lia. }
  rewrite E, W. split; [reflexivity|].
  destruct (MonthFromTime (LocalTime d) <=? 1).
  - destruct (DaysInYear_cases (YearFromTime (LocalTime d))) as [-> | ->]; lia.
  - destruct (DaysInYear_cases (YearFromTime (LocalTime d) + 1)) as [-> | ->]; lia.
Qed.

Lemma utc_is_fixed_offset : fixed_offset 0 utc_zone utc_zone.
Proof. split; intros t; unfold utc_zone; lia. Defined.

(** X6 at the sale of 29 February 2024 in UTC: 366 days. *)
Lemma leap_day_window :
  first_of_march_2025 - 1709164800000 = 366 * msPerDay.
Proof.
  destruct (warranty_window parse_iso_date utc_zone utc_zone 0 "2024-02-29"
              1709164800000 first_of_march_2025 utc_is_fixed_offset
              ltac:(vm_compute; reflexivity) ltac:(vm_compute; reflexivity)) as [_ [H|H]].
  - exfalso. vm_compute in H. discriminate H.
  - exact H.
Defined.

End WarrantyExtras.

(* ================================================================== *)
(** * The record detail modal between renders: properties              *)
(* ================================================================== *)

Module ModalExtras.
Import Js Detail Scenario Modal.
Local Open Scope bool_scope.
Local Open Scope Z_scope.
Local Open Scope list_scope.

(** The three ways a call of [fetchRelatedRecords] ends. *)
Lemma run_fetch_without_phone (r : SaleRecord) (w : World) :
  falsy (client_phone r) = true ->
  run (fetchRelatedRecords r) w
  = (Returned tt,
     mkWorld (clock w) (network w) [] (loading w) (currentRecord w) (events w)).
Proof.
  intros H. unfold fetchRelatedRecords. rewrite H. reflexivity.
Qed.

Lemma run_fetch_resolved (r : SaleRecord) (w : World) (records : list SaleRecord) :
  falsy (client_phone r) = false ->
  network w _ (history_request r) = Resolved records ->
  run (fetchRelatedRecords r) w
  = (Returned tt,
     mkWorld (clock w) (network w) records false (currentRecord w)
             (events w ++ [EvApiGet (history_request r)])).
Proof.
  intros H N. unfold fetchRelatedRecords. rewrite H. simpl. rewrite N. reflexivity.
Qed.

Lemma run_fetch_rejected (r : SaleRecord) (w : World) (error : string) :
  falsy (client_phone r) = false ->
  network w _ (history_request r) = Rejected error ->
  run (fetchRelatedRecords r) w
  = (Returned tt,
     mkWorld (clock w) (network w) [] false (currentRecord w)
             (events w ++ [EvApiGet (history_request r);
                           EvConsoleError "Error fetching related records:" error])).
Proof.
  intros H N. unfold fetchRelatedRecords. rewrite H. simpl. rewrite N. simpl.
  unfold emit. simpl. rewrite <- ?app_assoc. reflexivity.
Qed.

Lemma run_fetch_with_phone (r : SaleRecord) (w : World) :
  falsy (client_phone r) = false ->
  run (fetchRelatedRecords r) w
  = (Returned tt,
     mkWorld (clock w) (network w) (fetched (network w _ (history_request r))) false
             (currentRecord w)
             (events w ++ [EvApiGet (history_request r)]
                ++ logged (network w _ (history_request r)))).
Proof.
  intros H. destruct (network w _ (history_request r)) as [records|error] eqn:N.
  - rewrite (run_fetch_resolved r w records H N). simpl. reflexivity.
  - rewrite (run_fetch_rejected r w error H N). reflexivity.
Qed.


(** A successful switch, before the next render. *)
Lemma run_switch_resolved (rel : SaleRecord) (w : World) (data : SaleRecord) :
  network w _ (GetRecord (id rel)) = Resolved data ->
  run (handleViewRelatedRecord rel) w
  = (Returned tt,
     mkWorld (clock w) (network w) [] (loading w) data
             (events w ++ [EvApiGet (GetRecord (id rel))])).
Proof.
  intros N. unfold handleViewRelatedRecord. simpl. rewrite N. reflexivity.
Qed.


(** A fetch for a record with a phone raises the loading flag, sends its
    request and waits; whenever the response comes, what is left of the
    fetch puts the records of that response into the history list. *)
Lemma fetch_waits_then_applies (r : SaleRecord) (w : World) :
  falsy (client_phone r) = false ->
  exists k,
    run_to_await (fetchRelatedRecords r) w
    = (Awaiting (history_request r) k,
       mkWorld (clock w) (network w) (relatedRecords w) true (currentRecord w)
               (events w ++ [EvApiGet (history_request r)])) /\
    forall answer w3,
      resume k answer w3
      = (Returned tt,
         mkWorld (clock w3) (network w3) (fetched answer) false (currentRecord w3)
                 (events w3 ++ logged answer)).
Proof.
  intros H. unfold fetchRelatedRecords. rewrite H. cbn.
  eexists. split; [reflexivity|].
  intros [records|error] w3; unfold resume; cbn.
  - rewrite app_nil_r. reflexivity.
  - reflexivity.
Qed.

Lemma history_effect_keeps_record (isOpen : bool) (r : SaleRecord) (w : World) :
  currentRecord (snd (run (history_effect isOpen r) w)) = currentRecord w.
Proof.
  unfold history_effect.
  destruct (isOpen && negb (falsy (client_phone r))) eqn:E; [|reflexivity].
  apply andb_prop in E. destruct E as [_ E]. apply negb_true_iff in E.
  now rewrite (run_fetch_with_phone r w E).
Qed.

Lemma next_render_keeps_record (isOpen : bool) (before : SaleRecord) (w : World) :
  currentRecord (snd (next_render isOpen before w)) = currentRecord w.
Proof.
  unfold next_render. destruct (deps_changed _ _ _ _); [|reflexivity].
  apply history_effect_keeps_record.
Qed.




End ModalExtras.

(* ================================================================== *)
(** * The session: properties                                          *)
(* ================================================================== *)

Module SessionExtras.
Import Js Detail Session.
Local Open Scope bool_scope.
Local Open Scope Z_scope.
Local Open Scope list_scope.

Lemma getItem_setItem_same (k v : string) (s : Storage) : getItem k (setItem k v s) = Some v.
Proof. unfold getItem, setItem. now rewrite String.eqb_refl. Qed.

Lemma getItem_setItem_other (k k' v : string) (s : Storage) :
  k' <> k -> getItem k' (setItem k v s) = getItem k' s.
Proof.
  intros H. unfold getItem, setItem. destruct (String.eqb_spec k' k); [contradiction | reflexivity].
Qed.

Lemma getItem_removeItem_same (k : string) (s : Storage) : getItem k (removeItem k s) = None.
Proof. unfold getItem, removeItem. now rewrite String.eqb_refl. Qed.

Lemma getItem_removeItem_other (k k' : string) (s : Storage) :
  k' <> k -> getItem k' (removeItem k s) = getItem k' s.
Proof.
  intros H. unfold getItem, removeItem.
  destruct (String.eqb_spec k' k); [contradiction | reflexivity].
Qed.

Lemma truthy_item_Some (v : string) : truthy_item (Some v) = negb (String.eqb v "").
Proof. reflexivity. Qed.

(** The header of an outgoing request: the stored token when there is
    one, the default header otherwise. *)
Lemma outgoing_authorization_eq (b : Browser) :
  outgoing_authorization b
  = if truthy_item (getItem "token" (localStorage b))
    then Some (bearer (string_of (getItem "token" (localStorage b))))
    else default_authorization b.
Proof.
  unfold outgoing_authorization, outgoing, request_interceptor.
  destruct (truthy_item _); reflexivity.
Qed.

Lemma login_accepted (backend : string -> Request -> LoginData + AxiosError)
    (passcode : string) (b : Browser) (data : LoginData) :
  backend passcode (outgoing "post" "/auth/login" b) = inl data ->
  login backend passcode b
  = (Returned tt,
     mkBrowser (setItem "role" (login_role data)
                  (setItem "token" (access_token data) (localStorage b)))
               (location b) (Some (bearer (access_token data)))
               (Some (mkUser (login_role data) (access_token data)))
               (isLoading b) (sent b ++ [outgoing "post" "/auth/login" b])).
Proof.
  intros H. unfold login, api_request. rewrite H. reflexivity.
Qed.

(** X10: a login that the server accepts returns normally with the user
    set to the role and token received, both stored in [localStorage]
    under "role" and "token" (no other key is touched), and from then on
    every request carries "Bearer " followed by that token; the address
    stays, and exactly one request has been sent. *)
Theorem login_opens_session (backend : string -> Request -> LoginData + AxiosError)
    (passcode : string) (b : Browser) (data : LoginData) :
  backend passcode (outgoing "post" "/auth/login" b) = inl data ->
  exists b',
    login backend passcode b = (Returned tt, b') /\
    user b' = Some (mkUser (login_role data) (access_token data)) /\
    getItem "token" (localStorage b') = Some (access_token data) /\
    getItem "role" (localStorage b') = Some (login_role data) /\
    (forall k, k <> "token" -> k <> "role" ->
               getItem k (localStorage b') = getItem k (localStorage b)) /\
    outgoing_authorization b' = Some (bearer (access_token data)) /\
    location b' = location b /\
    sent b' = sent b ++ [outgoing "post" "/auth/login" b].
Proof.
  intros H. rewrite (login_accepted backend passcode b data H).
  eexists. split; [reflexivity|]. cbn [user localStorage location sent].
  split; [reflexivity|].
  split; [rewrite getItem_setItem_other by discriminate; apply getItem_setItem_same|].
  split; [apply getItem_setItem_same|].
  split; [intros k Ht Hr; now rewrite !getItem_setItem_other by assumption|].
  split; [|split; reflexivity].
  rewrite outgoing_authorization_eq. cbn [localStorage default_authorization].
  rewrite getItem_setItem_other by discriminate. rewrite getItem_setItem_same.
  destruct (truthy_item (Some (access_token data))); reflexivity.
Qed.

(** X11: after an accepted login, loading the page again restores the
    same user from [localStorage], provided neither the token nor the
    role received is the empty string (with an empty one, no user is
    restored); the restored page is no longer loading, and with a
    non-empty token its requests carry that token. *)
Theorem session_survives_reload (backend : string -> Request -> LoginData + AxiosError)
    (passcode : string) (b : Browser) (data : LoginData) :
  backend passcode (outgoing "post" "/auth/login" b) = inl data ->
  let b' := load_page (snd (login backend passcode b)) in
  isLoading b' = false /\
  location b' = location b /\
  user b' = (if negb (String.eqb (access_token data) "")
                && negb (String.eqb (login_role data) "")
             then Some (mkUser (login_role data) (access_token data))
             else None) /\
  (access_token data <> "" -> outgoing_authorization b' = Some (bearer (access_token data))).
Proof.
  intros H b'. unfold b'. rewrite (login_accepted backend passcode b data H).
  cbn [snd]. unfold load_page, restore_session.
  cbn [localStorage location default_authorization user isLoading sent].
  rewrite getItem_setItem_same.
  rewrite (getItem_setItem_other "role" "token") by discriminate.
  rewrite getItem_setItem_same, !truthy_item_Some. cbn [string_of].
  split; [reflexivity|]. split.
  { destruct (negb _ && negb _); reflexivity. }
  split.
  { destruct (negb (access_token data =? "")%string), (negb (login_role data =? "")%string);
      reflexivity. }
  intros Hne. rewrite outgoing_authorization_eq.
  assert (T : negb (access_token data =? "")%string = true).
  { apply negb_true_iff. now apply String.eqb_neq. }
  rewrite T.
  destruct (negb (login_role data =? "")%string);
    cbn [andb with_isLoading with_default_authorization with_user localStorage
         default_authorization];
    rewrite (getItem_setItem_other "role" "token") by discriminate;
    rewrite getItem_setItem_same, truthy_item_Some, T; reflexivity.
Qed.

Lemma login_rejected (backend : string -> Request -> LoginData + AxiosError)
    (passcode : string) (b : Browser) (error : AxiosError) :
  backend passcode (outgoing "post" "/auth/login" b) = inr error ->
  login backend passcode b
  = (Threw (login_failure error),
     response_error_interceptor error (with_sent (outgoing "post" "/auth/login" b) b)).
Proof.
  intros H. unfold login, api_request. rewrite H. reflexivity.
Qed.

Ltac browser_fields :=
  cbn [user localStorage location default_authorization isLoading sent
       with_user with_storage with_location with_default_authorization
       with_isLoading with_sent] in *.

(** What the response interceptor does to the browser on an error. *)
Lemma response_error_interceptor_spec (error : AxiosError) (b : Browser) :
  user (response_error_interceptor error b) = user b /\
  default_authorization (response_error_interceptor error b) = default_authorization b /\
  sent (response_error_interceptor error b) = sent b /\
  isLoading (response_error_interceptor error b) = isLoading b /\
  (forall k, k <> "token" -> k <> "role" ->
     getItem k (localStorage (response_error_interceptor error b))
     = getItem k (localStorage b)) /\
  (unauthorized error = false -> response_error_interceptor error b = b) /\
  (unauthorized error = true ->
   location (response_error_interceptor error b) = "/login" /\
   getItem "token" (localStorage (response_error_interceptor error b)) = None /\
   getItem "role" (localStorage (response_error_interceptor error b)) = None).
Proof.
  unfold response_error_interceptor. destruct (unauthorized error).
  - browser_fields.
    split; [reflexivity|]. split; [reflexivity|]. split; [reflexivity|].
    split; [reflexivity|].
    split; [intros k Ht Hr; now rewrite !getItem_removeItem_other by assumption|].
    split; [discriminate|]. intros _.
    split; [reflexivity|]. split.
    + rewrite getItem_removeItem_other by discriminate. apply getItem_removeItem_same.
    + apply getItem_removeItem_same.
  - split; [reflexivity|]. split; [reflexivity|]. split; [reflexivity|].
    split; [reflexivity|]. split; [reflexivity|]. split; [reflexivity | discriminate].
Qed.

(** X12: a login that fails throws, and opens no session: the user and
    the default header are what they were, and [localStorage] and the
    address too unless the server answered 401, in which case the
    response interceptor has removed "token" and "role" and set the
    address to /login.  The message thrown is the time-out or the
    unreachable-server message when there was no response, and, for a
    response that is neither a time-out nor a network error, the detail
    the server gave, or "Invalid passcode" without one. *)
Theorem failed_login_changes_no_session
    (backend : string -> Request -> LoginData + AxiosError)
    (passcode : string) (b : Browser) (error : AxiosError) :
  backend passcode (outgoing "post" "/auth/login" b) = inr error ->
  exists b',
    login backend passcode b = (Threw (login_failure error), b') /\
    user b' = user b /\
    default_authorization b' = default_authorization b /\
    (forall k, k <> "token" -> k <> "role" ->
               getItem k (localStorage b') = getItem k (localStorage b)) /\
    (unauthorized error = false ->
     localStorage b' = localStorage b /\ location b' = location b) /\
    (unauthorized error = true ->
     location b' = "/login" /\
     getItem "token" (localStorage b') = None /\
     getItem "role" (localStorage b') = None) /\
    (response error = None ->
     login_failure error = timeout_message \/ login_failure error = unreachable_message) /\
    (forall r, response error = Some r ->
       same_code (code error) "ECONNABORTED" = false ->
       message_includes (message error) "timeout" = false ->
       message_includes (message error) "Network Error" = false ->
       login_failure error = or_string (detail r) "Invalid passcode").
Proof.
  intros H. rewrite (login_rejected backend passcode b error H).
  eexists. split; [reflexivity|].
  destruct (response_error_interceptor_spec error (with_sent (outgoing "post" "/auth/login" b) b))
    as (Hu & Hd & _ & _ & Hk & Hn & Hy).
  split; [exact Hu|]. split; [exact Hd|]. split; [exact Hk|].
  split; [intros U; rewrite (Hn U); split; reflexivity|].
  split; [exact Hy|].
  split.
  - intros R. unfold login_failure. rewrite R.
    destruct (same_code _ _ || message_includes _ "timeout"); [now left|].
    rewrite orb_true_r. now right.
  - intros r R C T N. unfold login_failure. rewrite R, C, T, N. reflexivity.
Qed.

(** X13: after [logout], from any state, there is no user, no "token"
    and no "role" in [localStorage] (other keys stay), requests carry no
    Authorization header, and loading the page again restores no user
    and no header. *)
Theorem logout_closes_session (b : Browser) :
  user (logout b) = None /\
  getItem "token" (localStorage (logout b)) = None /\
  getItem "role" (localStorage (logout b)) = None /\
  (forall k, k <> "token" -> k <> "role" ->
             getItem k (localStorage (logout b)) = getItem k (localStorage b)) /\
  outgoing_authorization (logout b) = None /\
  location (logout b) = location b /\
  user (load_page (logout b)) = None /\
  outgoing_authorization (load_page (logout b)) = None.
Proof.
  unfold logout. browser_fields.
  assert (Ht : forall s, getItem "token" (removeItem "role" (removeItem "token" s)) = None).
  { intros s. rewrite getItem_removeItem_other by discriminate. apply getItem_removeItem_same. }
  split; [reflexivity|]. split; [apply Ht|]. split; [apply getItem_removeItem_same|].
  split; [intros k H1 H2; now rewrite !getItem_removeItem_other by assumption|].
  split; [rewrite outgoing_authorization_eq; browser_fields; now rewrite Ht|].
  split; [reflexivity|].
  unfold load_page, restore_session, api_module_init. browser_fields. rewrite !Ht.
  cbn [truthy_item falsy negb andb]. browser_fields.
  split; [reflexivity|].
  rewrite outgoing_authorization_eq. browser_fields. now rewrite Ht.
Qed.

(** X14: a request through the client hands its outcome on as it is: a
    response, and an error other than a 401, change nothing in the
    browser but the list of requests sent; a 401 is handed on too, after
    "token" and "role" have been removed from [localStorage] and the
    address set to /login, so that the page loaded next has no user and
    sends no Authorization header (the user and the default header of
    the running page stay until then). *)
Theorem api_passes_outcomes_on {A : Type} (backend : Request -> A + AxiosError)
    (method url : string) (b : Browser) :
  (forall data, backend (outgoing method url b) = inl data ->
     api_request backend method url b = (inl data, with_sent (outgoing method url b) b)) /\
  (forall error, backend (outgoing method url b) = inr error ->
     unauthorized error = false ->
     api_request backend method url b = (inr error, with_sent (outgoing method url b) b)) /\
  (forall error, backend (outgoing method url b) = inr error ->
     unauthorized error = true ->
     exists b',
       api_request backend method url b = (inr error, b') /\
       location b' = "/login" /\
       getItem "token" (localStorage b') = None /\
       getItem "role" (localStorage b') = None /\
       user b' = user b /\
       default_authorization b' = default_authorization b /\
       user (load_page b') = None /\
       outgoing_authorization (load_page b') = None).
Proof.
  unfold api_request. split; [|split].
  - intros data H. rewrite H. reflexivity.
  - intros error H U. rewrite H. unfold response_error_interceptor. rewrite U. reflexivity.
  - intros error H U. rewrite H. eexists. split; [reflexivity|].
    destruct (response_error_interceptor_spec error (with_sent (outgoing method url b) b))
      as (Hu & Hd & _ & _ & _ & _ & Hy).
    destruct (Hy U) as (Hl & Ht & Hr).
    split; [exact Hl|]. split; [exact Ht|]. split; [exact Hr|].
    split; [exact Hu|]. split; [exact Hd|].
    unfold load_page, restore_session, api_module_init. browser_fields.
    rewrite Ht, Hr. cbn [truthy_item falsy negb andb]. browser_fields.
    split; [reflexivity|].
    rewrite outgoing_authorization_eq. browser_fields. now rewrite Ht.
Qed.

(** X15: a page load restores the user exactly when [localStorage]
    holds a non-empty "token" and a non-empty "role"; its requests carry
    the stored token whenever a non-empty "token" is stored, also when
    no role is stored and no user is restored. *)
Theorem page_load_session (b : Browser) :
  let storedToken := getItem "token" (localStorage b) in
  let storedRole := getItem "role" (localStorage b) in
  user (load_page b)
  = (if truthy_item storedToken && truthy_item storedRole
     then Some (mkUser (string_of storedRole) (string_of storedToken))
     else None) /\
  outgoing_authorization (load_page b)
  = (if truthy_item storedToken then Some (bearer (string_of storedToken)) else None) /\
  isLoading (load_page b) = false /\
  localStorage (load_page b) = localStorage b /\
  location (load_page b) = location b.
Proof.
  intros storedToken storedRole.
  unfold load_page, restore_session, api_module_init. browser_fields.
  fold storedToken. fold storedRole.
  destruct (truthy_item storedToken) eqn:T, (truthy_item storedRole) eqn:R;
    cbn [andb]; browser_fields;
    (split; [reflexivity|]);
    (split; [rewrite outgoing_authorization_eq; browser_fields; fold storedToken;
             rewrite T; reflexivity|]);
    repeat split.
Qed.

(** X10 at a fresh browser and the passcode 1234. *)
Lemma login_with_1234 :
  exists b',
    login sales_backend "1234" fresh_browser = (Returned tt, b') /\
    user b' = Some (mkUser "sales" "tok-1") /\
    outgoing_authorization b' = Some "Bearer tok-1".
Proof.
  destruct (login_opens_session sales_backend "1234" fresh_browser
              (mkLoginData "tok-1" "sales") eq_refl)
    as (b' & H1 & H2 & _ & _ & _ & H3 & _).
  exists b'. split; [exact H1|]. split; [exact H2 | exact H3].
Defined.

(** X11 at the same login. *)
Lemma reload_after_login_with_1234 :
  user (load_page (snd (login sales_backend "1234" fresh_browser)))
  = Some (mkUser "sales" "tok-1").
Proof.
  exact (proj1 (proj2 (proj2
           (session_survives_reload sales_backend "1234" fresh_browser
              (mkLoginData "tok-1" "sales") eq_refl)))).
Defined.

(** X12 at a wrong passcode, which the server answers with 401 and no
    detail: "Invalid passcode", and no session. *)
Lemma login_with_wrong_passcode :
  exists b',
    login sales_backend "0000" fresh_browser = (Threw "Invalid passcode", b') /\
    user b' = None /\ getItem "token" (localStorage b') = None.
Proof.
  destruct (failed_login_changes_no_session sales_backend "0000" fresh_browser
              wrong_passcode eq_refl)
    as (b' & H1 & H2 & _ & _ & _ & H3 & _).
  exists b'. split; [exact H1|]. split; [exact H2|].
  exact (proj1 (proj2 (H3 eq_refl))).
Defined.

End SessionExtras.

(* ================================================================== *)
(** * The sales-summary page: properties                               *)
(* ================================================================== *)

Module SummaryPageExtras.
Import Js Summary Detail Session SummaryPage.
Local Open Scope bool_scope.
Local Open Scope Z_scope.
Local Open Scope list_scope.

Section Fetch.

Variable toString : URLSearchParams -> string.
Variable backend : Request -> SalesSummary + AxiosError.

(** X16: [fetchSummary] sends one request, for the URL of the filters
    of its render, and ends with the loading flag down and the filters
    as they were.  On a response the page shows the charts of the
    summary received, and nothing is alerted or logged.  On an error the
    summary is the one the page had, so the page goes on showing its
    charts (or "No summary data available" when it had none); the error
    and its response data are logged, and one alert is raised with the
    server's detail, else the error's message, else a fixed text. *)
Theorem fetchSummary_outcome (p : Page) :
  let rq := outgoing "get" (summary_url toString (filters p)) (browser p) in
  loading (fetchSummary toString backend p) = false /\
  filters (fetchSummary toString backend p) = filters p /\
  sent (browser (fetchSummary toString backend p)) = sent (browser p) ++ [rq] /\
  (forall data, backend rq = inl data ->
     view (fetchSummary toString backend p) = Charts data /\
     alerts (fetchSummary toString backend p) = alerts p /\
     console (fetchSummary toString backend p) = console p) /\
  (forall error, backend rq = inr error ->
     summary (fetchSummary toString backend p) = summary p /\
     view (fetchSummary toString backend p)
     = match summary p with
       | Some s => Charts s
       | None => NoSummaryData
       end /\
     alerts (fetchSummary toString backend p)
     = alerts p ++ [("Failed to load sales summary: " ++ summary_failure error)%string] /\
     console (fetchSummary toString backend p)
     = console p ++ [ErrorFetching error; ErrorDetails (response error)]).
Proof.
  intros rq. unfold fetchSummary, api_request.
  change (browser (with_loading true p)) with (browser p). fold rq.
  destruct (backend rq) as [data|error] eqn:B.
  - cbn. split; [reflexivity|]. split; [reflexivity|]. split; [reflexivity|].
    split; [|discriminate].
    intros d [= <-]. repeat split.
  - split; [reflexivity|]. split; [reflexivity|].
    split.
    { unfold response_error_interceptor. destruct (unauthorized error); reflexivity. }
    split; [discriminate|].
    intros e [= <-]. repeat split.
Qed.

End Fetch.

(** A pair is appended only for a non-empty value. *)
Lemma append_if_set_In (k : string) (v : option string) (params : URLSearchParams)
    (k' v' : string) :
  In (k', v') (append_if_set k v params) <->
  In (k', v') params \/ (k' = k /\ v = Some v' /\ v' <> "").
Proof.
  unfold append_if_set, falsy. destruct v as [x|].
  - destruct (String.eqb_spec x "") as [->|N].
    + split; [now left|]. intros [H|(_ & [= <-] & H)]; [exact H | contradiction].
    + rewrite in_app_iff. simpl. split.
      * intros [H|[[= <- <-]|[]]]; [now left|]. right. repeat split. exact N.
      * intros [H|(-> & [= ->] & _)]; [now left|]. right. now left.
  - split; [now left|]. intros [H|(_ & H & _)]; [exact H | discriminate].
Qed.

Lemma params_are_the_filters_in_use (f : RecordFilters) (k v : string) :
  In (k, v) (summary_params f) <->
  v <> "" /\
  ((k = "zone" /\ zone f = Some v) \/ (k = "sold_by" /\ sold_by f = Some v) \/
   (k = "date_from" /\ date_from f = Some v) \/ (k = "date_to" /\ date_to f = Some v)).
Proof.
  unfold summary_params. rewrite !append_if_set_In. simpl. tauto.
Qed.

(** The handlers never store an empty string. *)
Lemma value_or_undefined_not_empty (value : string) : value_or_undefined value <> Some "".
Proof.
  unfold value_or_undefined. destruct (String.eqb_spec value "") as [->|N].
  - discriminate.
  - intros [= E]. contradiction.
Qed.

Lemma filters_hold_no_empty_string (evs : list FilterEvent) (f : RecordFilters) :
  (zone f <> Some "" /\ sold_by f <> Some "" /\ date_from f <> Some "" /\
   date_to f <> Some "") ->
  let f' := fold_left on_filter_event evs f in
  zone f' <> Some "" /\ sold_by f' <> Some "" /\ date_from f' <> Some "" /\
  date_to f' <> Some "".
Proof.
  revert f. induction evs as [|ev evs IH]; intros f H; [exact H|].
  cbn [fold_left]. apply IH. destruct H as (Hz & Hs & Hf & Ht).
  destruct ev; cbn [on_filter_event zone sold_by date_from date_to no_filters];
    repeat split; try assumption; try apply value_or_undefined_not_empty; discriminate.
Qed.

Lemma summary_params_keys_distinct (f : RecordFilters) :
  NoDup (map fst (summary_params f)).
Proof.
  unfold summary_params, append_if_set.
  destruct (falsy (zone f)), (falsy (sold_by f)), (falsy (date_from f)), (falsy (date_to f));
    cbn [app map fst];
    repeat (constructor; [simpl; intuition discriminate|]); constructor.
Qed.

(** X17: whatever the user does in the filter box, starting from no
    filter, the parameters of the summary request are exactly the
    filters that are set, each under its own name and at most once: the
    handlers turn an emptied input into an unset filter, so no filter
    holds an empty string that the request would drop.  After Clear
    Filters there is no parameter. *)
Theorem filters_in_use_are_the_params (evs : list FilterEvent) (k v : string) :
  let f := fold_left on_filter_event evs no_filters in
  (In (k, v) (summary_params f) <->
   (k = "zone" /\ zone f = Some v) \/ (k = "sold_by" /\ sold_by f = Some v) \/
   (k = "date_from" /\ date_from f = Some v) \/ (k = "date_to" /\ date_to f = Some v)) /\
  NoDup (map fst (summary_params f)) /\
  summary_params (on_filter_event f ClearFilters) = [].
Proof.
  intros f.
  destruct (filters_hold_no_empty_string evs no_filters) as (Hz & Hs & Hf & Ht).
  { cbn. repeat split; discriminate. }
  fold f in Hz, Hs, Hf, Ht.
  split; [|split; [apply summary_params_keys_distinct | reflexivity]].
  rewrite params_are_the_filters_in_use. split.
  - tauto.
  - intros H. split; [|exact H].
    intros ->. destruct H as [[_ H]|[[_ H]|[[_ H]|[_ H]]]]; congruence.
Qed.

End SummaryPageExtras.

(* ================================================================== *)
(** * The month label: properties                                      *)
(* ================================================================== *)

Module MonthLabelExtras.
Import Js JsDate DateFacts Lifecycle MonthLabel.
Local Open Scope bool_scope.
Local Open Scope Z_scope.
Local Open Scope list_scope.

(** A string without the separator is not split. *)
Lemma split_on_absent (sep : ascii) (s : string) :
  ~ In sep (list_ascii_of_string s) -> split_on sep s = [s].
Proof.
  induction s as [|c s IH]; intros H; [reflexivity|].
  cbn [split_on]. cbn [list_ascii_of_string] in H.
  destruct (Ascii.eqb_spec c sep) as [->|N].
  - exfalso. apply H. now left.
  - rewrite IH; [reflexivity|]. intros Hin. apply H. now right.
Qed.

(** The first separator ends the first part. *)
Lemma split_on_first (sep : ascii) (s t : string) :
  ~ In sep (list_ascii_of_string s) ->
  split_on sep (s ++ String sep t) = s :: split_on sep t.
Proof.
  induction s as [|c s IH]; intros H.
  - cbn. now rewrite Ascii.eqb_refl.
  - cbn [append split_on]. cbn [list_ascii_of_string] in H.
    destruct (Ascii.eqb_spec c sep) as [->|N].
    + exfalso. apply H. now left.
    + rewrite IH; [reflexivity|]. intros Hin. apply H. now right.
Qed.

Lemma digit_is_no_dash (c : ascii) (v : Z) : digit c = Some v -> c <> "-"%char.
Proof.
  intros H ->. vm_compute in H. discriminate H.
Qed.

Lemma number_of_digits_no_dash (l : list ascii) (acc n : Z) :
  number_of_digits acc l = Some n -> ~ In "-"%char l.
Proof.
  revert acc. induction l as [|c l IH]; intros acc H; [intros []|].
  cbn [number_of_digits] in H. destruct (digit c) as [v|] eqn:D; [|discriminate].
  intros [E|Hin].
  - exact (digit_is_no_dash c v D E).
  - exact (IH _ H Hin).
Qed.

Lemma decimal_no_dash (s : string) (n : Z) :
  decimal s = Some n -> ~ In "-"%char (list_ascii_of_string s).
Proof.
  unfold decimal. destruct (list_ascii_of_string s) as [|c l] eqn:E; [discriminate|].
  apply number_of_digits_no_dash.
Qed.

Lemma digit_range (c : ascii) (v : Z) : digit c = Some v -> 0 <= v <= 9.
Proof.
  unfold digit. set (n := Z.of_nat (nat_of_ascii c)).
  destruct (Z.leb_spec 48 n), (Z.leb_spec n 57); cbn [andb]; intros [= <-]; lia.
Qed.

Lemma number_of_digits_nonneg (l : list ascii) (acc n : Z) :
  0 <= acc -> number_of_digits acc l = Some n -> 0 <= n.
Proof.
  revert acc. induction l as [|c l IH]; intros acc Ha H.
  - injection H as <-. exact Ha.
  - cbn [number_of_digits] in H. destruct (digit c) as [v|] eqn:D; [|discriminate].
    pose proof (digit_range c v D). apply (IH (10 * acc + v)); [lia | exact H].
Qed.

Lemma decimal_nonneg (s : string) (n : Z) : decimal s = Some n -> 0 <= n.
Proof.
  unfold decimal. destruct (list_ascii_of_string s) as [|c l]; [discriminate|].
  apply number_of_digits_nonneg. lia.
Qed.

(** The parts of a key made of a year, a dash and a month. *)
Lemma split_year_month (y m : string) (Y M : Z) :
  decimal y = Some Y -> decimal m = Some M ->
  split_on "-"%char (y ++ String "-"%char m) = [y; m].
Proof.
  intros Hy Hm.
  rewrite split_on_first by exact (decimal_no_dash y Y Hy).
  now rewrite (split_on_absent _ m (decimal_no_dash m M Hm)).
Qed.

(** [MakeDay] carries months beyond the year over to the year. *)
Lemma MakeDay_carry (y m d : Z) : MakeDay y m d = MakeDay (y + m / 12) (m mod 12) d.
Proof.
  unfold MakeDay.
  rewrite (Z.div_small (m mod 12)) by (apply Z.mod_pos_bound; lia).
  rewrite Z.mod_mod by lia. now rewrite Z.add_0_r.
Qed.

Lemma DaysBeforeMonth_range (l : bool) (m : Z) :
  0 <= m <= 11 -> 0 <= DaysBeforeMonth l m <= 335.
Proof.
  intros Hm.
  assert (C : m = 0 \/ m = 1 \/ m = 2 \/ m = 3 \/ m = 4 \/ m = 5 \/ m = 6 \/ m = 7 \/
              m = 8 \/ m = 9 \/ m = 10 \/ m = 11) by lia.
  destruct l; decompose [or] C; subst m; cbn; lia.
Qed.

(** The first day of a month of a year up to 9999 or so is a valid time
    value in every time zone. *)
Lemma first_of_month_in_range (y m offset : Z) :
  -1 <= y <= 10010 -> 0 <= m <= 11 -> - msPerDay <= offset <= msPerDay ->
  TimeClip (MakeDate (MakeDay y m 1) 0 - offset)
  = Num (MakeDate (MakeDay y m 1) 0 - offset).
Proof.
  intros Hy Hm Ho. unfold TimeClip.
  assert (HM : MakeDay y m 1 = DayFromYear y + DaysBeforeMonth (DaysInYear y =? 366) m).
  { unfold MakeDay. rewrite Z.div_small, Z.mod_small, Z.add_0_r by lia. lia. }
  pose proof (DaysBeforeMonth_range (DaysInYear y =? 366) m Hm) as Hb.
  pose proof (DayFromYear_mean y) as Hmean.
  unfold MakeDate. rewrite HM. change msPerDay with 86400000 in *.
  set (F := DayFromYear y) in *. set (B := DaysBeforeMonth _ m) in *.
  destruct (Z.ltb_spec 8640000000000000 (Z.abs ((F + B) * 86400000 + 0 - offset)));
    [lia | reflexivity].
Qed.

(** X18: for a month key made of a year of decimal digits (up to 9999),
    a dash and a month number of decimal digits (up to 99), on a host
    whose local time is UTC plus a fixed offset of at most a day, the
    Date that [formatMonth] labels is valid and is, in local time, the
    first day, 00:00, of the month the key names: for a year from 100
    on and a month from 01 to 12, that year and that month.  A year
    from 0 to 99 is read as 1900 to 1999, and a month number outside 1
    to 12 is carried over to the years around (00 is December of the
    year before, 13 January of the year after). *)
Theorem month_label_names_the_month
    (parseInt : option string -> Number) (toLocaleDateString : Date -> string)
    (LocalTime UTC : Z -> Z) (offset : Z) (y m : string) (Y M : Z) :
  reads_decimals parseInt ->
  fixed_offset offset LocalTime UTC ->
  - msPerDay <= offset <= msPerDay ->
  decimal y = Some Y -> decimal m = Some M ->
  Y <= 9999 -> M <= 99 ->
  exists tv,
    month_date parseInt UTC (y ++ String "-"%char m) = Num tv /\
    formatMonth parseInt toLocaleDateString UTC (y ++ String "-"%char m)
    = toLocaleDateString (Num tv) /\
    YearFromTime (LocalTime tv) = (if Y <=? 99 then 1900 + Y else Y) + (M - 1) / 12 /\
    MonthFromTime (LocalTime tv) = (M - 1) mod 12 /\
    DateFromTime (LocalTime tv) = 1 /\
    TimeWithinDay (LocalTime tv) = 0 /\
    (100 <= Y -> 1 <= M <= 12 ->
     YearFromTime (LocalTime tv) = Y /\ MonthFromTime (LocalTime tv) = M - 1).
Proof.
  intros [Hp _] [HL HU] Ho Hy Hm HY HM.
  pose proof (decimal_nonneg y Y Hy) as Y0. pose proof (decimal_nonneg m M Hm) as M0.
  set (yr := if Y <=? 99 then 1900 + Y else Y).
  assert (Hyr : 0 <= yr <= 9999) by (unfold yr; destruct (Z.leb_spec Y 99); lia).
  set (ym := yr + (M - 1) / 12). set (mn := (M - 1) mod 12).
  assert (Hmn : 0 <= mn <= 11) by (unfold mn; Z.div_mod_to_equations; lia).
  assert (Hym : -1 <= ym <= 10010) by (unfold ym; Z.div_mod_to_equations; lia).
  exists (MakeDate (MakeDay ym mn 1) 0 - offset).
  assert (D : month_date parseInt UTC (y ++ String "-"%char m)
              = Num (MakeDate (MakeDay ym mn 1) 0 - offset)).
  { unfold month_date. rewrite (split_year_month y m Y M Hy Hm).
    cbn [nth_error]. rewrite (Hp y Y Hy), (Hp m M Hm) by lia. cbn [sub].
    unfold new_Date_year_month.
    replace ((0 <=? Y) && (Y <=? 99)) with (Y <=? 99)
      by (destruct (Z.leb_spec 0 Y); [reflexivity | lia]).
    fold yr. rewrite (MakeDay_carry yr (M - 1) 1). fold ym. fold mn.
    rewrite HU. now apply first_of_month_in_range. }
  split; [exact D|]. split; [unfold formatMonth; now rewrite D|].
  rewrite HL. replace (MakeDate (MakeDay ym mn 1) 0 - offset + offset)
    with (MakeDate (MakeDay ym mn 1) 0) by lia.
  destruct (fields_of_MakeDate ym mn 1 0) as (F1 & F2 & F3 & F4).
  - exact Hmn.
  - pose proof (month_of_day_range (DaysInYear ym =? 366)
                  (DaysBeforeMonth (DaysInYear ym =? 366) mn)) as R.
    assert (C : mn = 0 \/ mn = 1 \/ mn = 2 \/ mn = 3 \/ mn = 4 \/ mn = 5 \/ mn = 6 \/ mn = 7 \/
                mn = 8 \/ mn = 9 \/ mn = 10 \/ mn = 11) by lia.
    clear R. unfold DaysInMonth.
    destruct (DaysInYear ym =? 366); decompose [or] C;
      match goal with E : mn = _ |- _ => rewrite E end; cbn; lia.
  - change msPerDay with 86400000. lia.
  - split; [exact F1|]. split; [exact F2|]. split; [exact F3|]. split; [exact F4|].
    intros Y100 M12. rewrite F1, F2. unfold ym, mn, yr.
    destruct (Z.leb_spec Y 99); [lia|].
    rewrite Z.div_small, Z.mod_small by lia. lia.
Qed.

(** X19: a month key without a dash has no month number, so the Date
    that [formatMonth] labels is an Invalid Date, whatever the key
    holds. *)
Theorem key_without_dash_is_invalid_date
    (parseInt : option string -> Number) (toLocaleDateString : Date -> string)
    (UTC : Z -> Z) (key : string) :
  reads_decimals parseInt ->
  ~ In "-"%char (list_ascii_of_string key) ->
  month_date parseInt UTC key = NaN /\
  formatMonth parseInt toLocaleDateString UTC key = toLocaleDateString NaN.
Proof.
  intros [_ Hu] Hk.
  assert (D : month_date parseInt UTC key = NaN).
  { unfold month_date. rewrite (split_on_absent _ key Hk). cbn [nth_error].
    rewrite Hu. cbn [sub]. unfold new_Date_year_month.
    destruct (parseInt (Some key)); reflexivity. }
  split; [exact D|]. unfold formatMonth. now rewrite D.
Qed.

Lemma parseInt_digits_reads_decimals : reads_decimals parseInt_digits.
Proof.
  split; [|reflexivity]. intros s n H _. unfold parseInt_digits. now rewrite H.
Defined.

(** X18 at the key 2025-01 in UTC: January 2025. *)
Lemma label_of_2025_01 :
  exists tv,
    month_date parseInt_digits utc_zone "2025-01" = Num tv /\
    YearFromTime (utc_zone tv) = 2025 /\ MonthFromTime (utc_zone tv) = 0.
Proof.
  destruct (month_label_names_the_month parseInt_digits valid_or_invalid
              utc_zone utc_zone 0 "2025" "01" 2025 1
              parseInt_digits_reads_decimals WarrantyExtras.utc_is_fixed_offset
              ltac:(unfold msPerDay; lia) eq_refl eq_refl ltac:(lia) ltac:(lia))
    as (tv & H1 & _ & _ & _ & _ & _ & H2).
  exists tv. split; [exact H1|]. apply H2; lia.
Defined.

(** X19 at the key 202501. *)
Lemma label_of_202501 :
  formatMonth parseInt_digits valid_or_invalid utc_zone "202501" = "Invalid Date".
Proof.
  refine (proj2 (key_without_dash_is_invalid_date parseInt_digits valid_or_invalid
                   utc_zone "202501" parseInt_digits_reads_decimals _)).
  cbn. intuition discriminate.
Defined.

End MonthLabelExtras.
